(** * Fitness chatbot: dialogue state machine, meal allocation engine and
      safety validator

    A shallow embedding of
      - chatbot/core/safety_validator.py        (SafetyValidator)
      - chatbot/model_3_build/model3_food_recommender.py (FoodRecommender)
      - chatbot/core/food_recommender.py        (the wrapper)
      - chatbot/core/roadmap_generator.py       (RoadmapGenerator.predict)
      - chatbot/core/conversation_manager.py    (ConversationManager)

    Conventions of the embedding.
      - Python [str] is [string]; [lower], [strip] and the digit test act on
        the ASCII range, where they agree with Python's.  Outside it Python
        also strips Unicode white space (the no-break space) and reads Unicode
        decimal digits; a statement that depends on this takes [is_ascii] of
        the text as a hypothesis.
      - Python numbers are exact rationals [Q]: every finite float is a
        rational and the comparisons of the code are exact on them; the
        rounding error of float arithmetic itself is not modelled.  Python's
        [round(x, n)] is round-half-to-even on the exact value.  Where a
        statement depends on how the code compares a computed float with a
        threshold, it keeps [float_margin] away from the threshold, on which
        binary64 rounding decides.
      - A dict iterated in insertion order is an association list; the
        catalog index and the conversation store, which are only looked up by
        key, are [gmap]s.
      - An exception is [None]; mutation of a shared object is explicit state
        passing. *)

From Stdlib Require Import String Ascii List ZArith QArith Qround Qabs Lia Lqa Bool DecimalString.
From stdpp Require Import base option gmap strings.
Import ListNotations.
Local Open Scope string_scope.
Local Open Scope Z_scope.
Local Open Scope Q_scope.
Local Open Scope list_scope.

(** ** Strings *)

Definition is_upper (c : ascii) : bool :=
  ((65 <=? N_of_ascii c) && (N_of_ascii c <=? 90))%N.

Definition lower_ascii (c : ascii) : ascii :=
  if is_upper c then ascii_of_N (N_of_ascii c + 32) else c.

(** [str.lower()] *)
Fixpoint lower (s : string) : string :=
  match s with
  | EmptyString => EmptyString
  | String c s' => String (lower_ascii c) (lower s')
  end.

(** The characters [str.strip()] removes: tab, LF, VT, FF, CR, FS, GS, RS, US
    and the space. *)
Definition is_space (c : ascii) : bool :=
  let n := N_of_ascii c in
  (((9 <=? n) && (n <=? 13)) || ((28 <=? n) && (n <=? 32)))%N.

Fixpoint lstrip (s : string) : string :=
  match s with
  | EmptyString => EmptyString
  | String c s' => if is_space c then lstrip s' else s
  end.

Fixpoint rstrip (s : string) : string :=
  match s with
  | EmptyString => EmptyString
  | String c s' =>
      match rstrip s' with
      | EmptyString => if is_space c then EmptyString else String c EmptyString
      | r => String c r
      end
  end.

(** [str.strip()] *)
Definition strip (s : string) : string := rstrip (lstrip s).

Fixpoint starts_with (p s : string) : bool :=
  match p, s with
  | EmptyString, _ => true
  | String a p', String b s' => Ascii.eqb a b && starts_with p' s'
  | String _ _, EmptyString => false
  end.

(** [needle in hay] on strings: substring test. *)
Fixpoint contains (needle hay : string) : bool :=
  starts_with needle hay ||
  match hay with
  | EmptyString => false
  | String _ hay' => contains needle hay'
  end.

(** [x in l] on a list of strings. *)
Definition str_in (x : string) (l : list string) : bool :=
  existsb (String.eqb x) l.

(** [any(s in text for s in l)] *)
Definition any_contained (l : list string) (text : string) : bool :=
  existsb (fun s => contains s text) l.

Definition is_digit (c : ascii) : bool :=
  ((48 <=? N_of_ascii c) && (N_of_ascii c <=? 57))%N.

(** The text is within the ASCII range: on such a text [lower], [strip],
    [is_digit] and the substring test are those of Python. *)
Fixpoint is_ascii (s : string) : bool :=
  match s with
  | EmptyString => true
  | String c s' => (N_of_ascii c <? 128)%N && is_ascii s'
  end.


(** ** Numbers *)

Definition Qltb (x y : Q) : bool := negb (Qle_bool y x).
Definition Qmax (x y : Q) : Q := if Qle_bool x y then y else x.
Definition Qmin (x y : Q) : Q := if Qle_bool x y then x else y.

(** Round half to even, to an integer. *)
Definition round_half_even (x : Q) : Z :=
  let f := Qfloor x in
  let r := x - inject_Z f in
  if Qltb r (1 # 2) then f
  else if Qltb (1 # 2) r then (f + 1)%Z
  else if Z.even f then f else (f + 1)%Z.

(** [round(x, 0)] *)
Definition round0 (x : Q) : Q := inject_Z (round_half_even x).

(** [round(x, 1)] *)
Definition round1 (x : Q) : Q := Qred (inject_Z (round_half_even (x * 10)) / 10).

(** [int(x)]: truncation toward zero. *)
Definition py_int (x : Q) : Z :=
  if Qle_bool 0 x then Qfloor x else Qceiling x.

(** ** Plans (the dicts the engine returns and the validator reads)

    A key that the code reads with [.get(key, default)] or tests with [in] is
    an [option] field; a key read with [d[key]] is a plain field. *)

Record pfood := {
  pf_id : string;
  pf_name : string;
  pf_portion_g : option Q;
  pf_calories : Q;
  pf_protein_g : Q;
  pf_carbs_g : Q;
  pf_fat_g : Q;
  pf_allergens : option (list string)
}.

Record meal := {
  m_foods : option (list pfood);
  m_total_calories : Q;
  m_total_protein_g : option Q;
  m_total_carbs_g : Q;
  m_total_fat_g : Q;
  m_suggested_sentence : string
}.

(** A meal plan: meal name to meal, in insertion order. *)
Definition meal_plan := list (string * meal).

Fixpoint plan_lookup (k : string) (p : meal_plan) : option meal :=
  match p with
  | [] => None
  | (k', m) :: p' => if String.eqb k k' then Some m else plan_lookup k p'
  end.

(** ** SafetyValidator (safety_validator.py) *)

Module SafetyValidator.

Definition OILS_AND_FATS : list string :=
  ["oil"; "butter"; "ghee"; "mayonnaise"; "dressing"].
Definition CONDIMENTS : list string :=
  ["sauce"; "spices"; "salt"; "pepper"; "sugar"; "honey"].

(** The messages appended to [errors]; each constructor stands for one
    f-string of the source, with the values it interpolates. *)
Inductive violation :=
| AllergenViolation (food_name meal_name : string)
| CondimentUnusual (food_name : string) (portion : Q)
| PortionTooSmall (food_name : string) (portion : Q)
| PortionTooLarge (food_name : string) (portion : Q)
| LowProtein (meal_name : string) (protein : Q).

(** [meal_name == 'daily_summary' or "foods" not in meal] fails: the foods the
    gates 1 and 2 visit in this entry. *)
Definition visited_foods (entry : string * meal) : list pfood :=
  if String.eqb (fst entry) "daily_summary" then []
  else match m_foods (snd entry) with
       | None => []
       | Some fs => fs
       end.

(** [any(r in food.get("allergens", []) for r in restrictions)] *)
Definition carries_restricted (restrictions : list string) (f : pfood) : bool :=
  existsb (fun r => str_in r (default [] (pf_allergens f))) restrictions.

(** Gate 1, inner loop: the first offending food of one meal. *)
Fixpoint gate1_foods (restrictions : list string) (meal_name : string)
    (fs : list pfood) : option violation :=
  match fs with
  | [] => None
  | f :: fs' =>
      if carries_restricted restrictions f
      then Some (AllergenViolation (pf_name f) meal_name)
      else gate1_foods restrictions meal_name fs'
  end.

(** Gate 1, outer loop over [meal_plan.items()]. *)
Fixpoint gate1 (restrictions : list string) (p : meal_plan) : option violation :=
  match p with
  | [] => None
  | e :: p' =>
      match gate1_foods restrictions (fst e) (visited_foods e) with
      | Some v => Some v
      | None => gate1 restrictions p'
      end
  end.

Definition is_tiny_ok (f : pfood) : bool :=
  any_contained (CONDIMENTS ++ OILS_AND_FATS) (lower (pf_name f)).

(** Gate 2 on one food: the errors it appends. *)
Definition gate2_food (f : pfood) : list violation :=
  let portion := default 0 (pf_portion_g f) in
  if is_tiny_ok f then
    if Qltb portion 5 || Qltb 50 portion
    then [CondimentUnusual (pf_name f) portion] else []
  else
    if Qltb portion 15 then [PortionTooSmall (pf_name f) portion]
    else if Qltb 600 portion then [PortionTooLarge (pf_name f) portion]
    else [].

Definition gate2 (p : meal_plan) : list violation :=
  flat_map (fun e => flat_map gate2_food (visited_foods e)) p.

(** Gate 3 on one of the three main meals. *)
Definition gate3_meal (p : meal_plan) (meal_name : string) : list violation :=
  match plan_lookup meal_name p with
  | None => []
  | Some m =>
      let protein := default 0 (m_total_protein_g m) in
      if Qltb protein 15 then [LowProtein meal_name protein] else []
  end.

Definition gate3 (p : meal_plan) : list violation :=
  flat_map (gate3_meal p) ["breakfast"; "lunch"; "dinner"].

(** [validate_meal_plan]; [daily_target_calories] is not read by the code. *)
Definition validate_meal_plan (p : meal_plan) (daily_target_calories : Z)
    (restrictions : list string) : bool * list violation :=
  match gate1 restrictions p with
  | Some v => (false, [v])
  | None =>
      let errors := gate2 p ++ gate3 p in
      match errors with
      | [] => (true, [])
      | _ => (false, errors)
      end
  end.

End SafetyValidator.

(** ** The food catalog (model3_food_database.json, read at start-up)

    The JSON document itself is data; the engine is stated for an arbitrary
    catalog. *)

Record food := {
  f_id : string;
  f_name : string;
  f_category : string;
  f_calories_per_100g : Q;
  f_protein_g : Q;
  f_carbs_g : Q;
  f_fat_g : Q;
  f_fiber_g : Q;
  f_vegetarian : bool;
  f_vegan : bool;
  f_allergens : list string
}.

(** [self.foods_by_category]: the lists in it are shared, mutable objects. *)
Abbreviation catalog := (gmap string (list food)).

(** Stable sort in descending key order, [list.sort(key=..., reverse=True)]:
    [lt x y] reads "the key of [x] is below the key of [y]"; elements with
    equal keys keep their order. *)
Fixpoint insert_desc {A} (lt : A -> A -> bool) (x : A) (l : list A) : list A :=
  match l with
  | [] => [x]
  | y :: l' => if lt x y then y :: insert_desc lt x l' else x :: l
  end.

Definition sort_desc {A} (lt : A -> A -> bool) (l : list A) : list A :=
  fold_right (insert_desc lt) [] l.

Definition bool_ltb (a b : bool) : bool := negb a && b.

(** Order of the tuples [(flag, value)] used as sort keys. *)
Definition pair_ltb (k1 k2 : bool * Q) : bool :=
  bool_ltb (fst k1) (fst k2) ||
  (Bool.eqb (fst k1) (fst k2) && Qltb (snd k1) (snd k2)).

(** Computations of the engine: they read and write the catalog index and may
    raise. *)
Definition M (A : Type) : Type := catalog -> option A * catalog.

Definition ret {A} (a : A) : M A := fun c => (Some a, c).
Definition raise {A} : M A := fun c => (None, c).
Definition bind {A B} (m : M A) (k : A -> M B) : M B :=
  fun c => match m c with
           | (Some a, c') => k a c'
           | (None, c') => (None, c')
           end.

Notation "x <- m ;; k" := (bind m (fun x => k))
  (at level 100, m at next level, right associativity).

Fixpoint mapM {A B} (f : A -> M B) (l : list A) : M (list B) :=
  match l with
  | [] => ret []
  | a :: l' => b <- f a ;; bs <- mapM f l' ;; ret (b :: bs)
  end.

(** [int] to its decimal text, as [f"{int(x)}"] prints it. *)
Definition Z_to_string (z : Z) : string :=
  DecimalString.NilZero.string_of_int (Z.to_int z).

(** ** FoodRecommender of model3_food_recommender.py, imported as FoodEngine *)

Module FoodEngine.

Record ratios := { r_protein : Q; r_carbs : Q; r_fat : Q }.

Definition MACRO_RATIOS : list (string * ratios) :=
  [ ("weight_loss", {| r_protein := 35 # 100; r_carbs := 40 # 100; r_fat := 25 # 100 |});
    ("muscle_gain", {| r_protein := 30 # 100; r_carbs := 50 # 100; r_fat := 20 # 100 |});
    ("maintenance", {| r_protein := 25 # 100; r_carbs := 45 # 100; r_fat := 30 # 100 |}) ].

Definition MEAL_DISTRIBUTION : list (string * Q) :=
  [ ("breakfast", 25 # 100); ("lunch", 35 # 100);
    ("dinner", 30 # 100); ("snack", 15 # 100) ].

Definition PROTEIN_CAL_PER_G : Q := 4.
Definition CARB_CAL_PER_G : Q := 4.
Definition FAT_CAL_PER_G : Q := 9.
Definition MIN_PROTEIN_PER_MEAL : Q := 20.
Definition MIN_PORTION : Q := 50.
Definition MAX_PORTION : Q := 500.
Definition VEGETABLE_PORTION : Q := 90.

(** [_organize_by_category] *)
Definition _organize_by_category (foods : list food) : catalog :=
  fold_left (fun categories f =>
               <[f_category f := default [] (categories !! f_category f) ++ [f]]>
                 categories)
            foods ∅.

Record macros := { protein_g : Q; carbs_g : Q; fat_g : Q }.

Fixpoint assoc {V} (k : string) (l : list (string * V)) : option V :=
  match l with
  | [] => None
  | (k', v) :: l' => if String.eqb k k' then Some v else assoc k l'
  end.

(** [calculate_macros]; [None] is the [ValueError] for an unknown goal. *)
Definition calculate_macros (calories : Z) (goal : string) : option macros :=
  match assoc goal MACRO_RATIOS with
  | None => None
  | Some r =>
      Some {| protein_g := round1 (inject_Z calories * r_protein r / PROTEIN_CAL_PER_G);
              carbs_g := round1 (inject_Z calories * r_carbs r / CARB_CAL_PER_G);
              fat_g := round1 (inject_Z calories * r_fat r / FAT_CAL_PER_G) |}
  end.

(** [not restrictions or restrictions == ["none"]]: the case in which
    [_filter_by_restrictions] returns the very list it was given. *)
Definition returns_input_list (restrictions : list string) : bool :=
  match restrictions with
  | [] => true
  | [r] => String.eqb r "none"
  | _ => false
  end.

(** [restriction[3:]] *)
Definition drop3 (s : string) : string :=
  String.substring 3 (String.length s - 3) s.

(** The inner loop over the restrictions that sets [allergen_match]. *)
Definition allergen_match (restrictions : list string) (f : food) : bool :=
  existsb (fun restriction =>
             starts_with "no_" restriction &&
             let allergen := drop3 restriction in
             if String.eqb allergen "nuts"
             then str_in "tree nuts" (f_allergens f) || str_in "peanuts" (f_allergens f)
             else str_in allergen (f_allergens f))
          restrictions.

(** The loop body of [_filter_by_restrictions]: is the food appended? *)
Definition keeps (restrictions : list string) (f : food) : bool :=
  if str_in "vegetarian" restrictions && negb (f_vegetarian f) then false
  else if str_in "vegan" restrictions && negb (f_vegan f) then false
  else negb (allergen_match restrictions f).

(** [_filter_by_restrictions]: the value of the list it returns. *)
Definition _filter_by_restrictions (foods : list food) (restrictions : list string)
  : list food :=
  if returns_input_list restrictions then foods
  else List.filter (keeps restrictions) foods.

Record nutrition := {
  n_calories : Q; n_protein_g : Q; n_carbs_g : Q; n_fat_g : Q
}.

Definition zero_nutrition : nutrition :=
  {| n_calories := 0; n_protein_g := 0; n_carbs_g := 0; n_fat_g := 0 |}.

Definition add_nutrition (a b : nutrition) : nutrition :=
  {| n_calories := n_calories a + n_calories b;
     n_protein_g := n_protein_g a + n_protein_g b;
     n_carbs_g := n_carbs_g a + n_carbs_g b;
     n_fat_g := n_fat_g a + n_fat_g b |}.

(** [_calculate_portion_calories] *)
Definition _calculate_portion_calories (f : food) (portion_g : Q) : nutrition :=
  let factor := portion_g / 100 in
  {| n_calories := round1 (f_calories_per_100g f * factor);
     n_protein_g := round1 (f_protein_g f * factor);
     n_carbs_g := round1 (f_carbs_g f * factor);
     n_fat_g := round1 (f_fat_g f * factor) |}.

(** The running state of [build_meal]: [selected_foods] and
    [total_nutrition]. *)
Definition acc : Type := list pfood * nutrition.

(** The dict appended to [selected_foods], and the update of the totals. *)
Definition select (f : food) (portion_g : Q) (a : acc) : acc :=
  let nut := _calculate_portion_calories f portion_g in
  (fst a ++ [ {| pf_id := f_id f; pf_name := f_name f;
                 pf_portion_g := Some (round0 portion_g);
                 pf_calories := n_calories nut; pf_protein_g := n_protein_g nut;
                 pf_carbs_g := n_carbs_g nut; pf_fat_g := n_fat_g nut;
                 pf_allergens := None |} ],
   add_nutrition (snd a) nut).

(** [min(max(x, lo), hi)] *)
Definition clamp (x lo hi : Q) : Q := Qmin (Qmax x lo) hi.

(** [x / y] of Python: [ZeroDivisionError] when [y] is zero. *)
Definition py_div (x y : Q) : M Q :=
  if Qeq_bool y 0 then raise else ret (x / y).

(** Filtering one category and sorting the outcome in place.  When
    [_filter_by_restrictions] returned the catalog's own list (no
    restrictions), [.sort] reorders that list inside the catalog. *)
Definition filter_and_sort (k : string) (lt : food -> food -> bool)
    (restrictions : list string) : M (list food) :=
  fun c =>
    let foods := _filter_by_restrictions (default [] (c !! k)) restrictions in
    match foods with
    | [] => (Some [], c)
    | _ => let sorted := sort_desc lt foods in
           (Some sorted,
            if returns_input_list restrictions then <[k := sorted]> c else c)
    end.

(** Grain and carb candidates: the concatenation is a fresh list, so its sort
    leaves the catalog alone. *)
Definition filter_and_sort_grains (lt : food -> food -> bool)
    (restrictions : list string) : M (list food) :=
  fun c =>
    let foods := _filter_by_restrictions
                   (default [] (c !! "grain") ++ default [] (c !! "carb"))
                   restrictions in
    (Some (match foods with [] => [] | _ => sort_desc lt foods end), c).

Definition complex_carbs : list string :=
  ["quinoa"; "oats"; "brown_rice"; "whole_wheat_pasta"; "sweet_potato"].
Definition veg_priority : list string :=
  ["broccoli"; "spinach"; "kale"; "bell_pepper"].
Definition fat_priority : list string :=
  ["olive_oil"; "avocado"; "chia_seeds"; "flaxseeds"].

Definition protein_lt (x y : food) : bool := Qltb (f_protein_g x) (f_protein_g y).
Definition grain_lt (x y : food) : bool :=
  pair_ltb (str_in (f_id x) complex_carbs, f_fiber_g x)
           (str_in (f_id y) complex_carbs, f_fiber_g y).
Definition veg_lt (x y : food) : bool :=
  pair_ltb (str_in (f_id x) veg_priority, f_fiber_g x)
           (str_in (f_id y) veg_priority, f_fiber_g y).
Definition fat_lt (x y : food) : bool :=
  bool_ltb (str_in (f_id x) fat_priority) (str_in (f_id y) fat_priority).

(** Step 1: protein source. *)
Definition step_protein (meal_protein_g : Q) (restrictions : list string)
    (a : acc) : M acc :=
  protein_foods <- filter_and_sort "protein" protein_lt restrictions ;;
  match protein_foods with
  | [] => ret a
  | best_protein :: _ =>
      let protein_needed := meal_protein_g * (6 # 10) in
      q <- py_div protein_needed (f_protein_g best_protein) ;;
      ret (select best_protein (clamp (q * 100) MIN_PORTION MAX_PORTION) a)
  end.

(** Step 2: grain or carb source. *)
Definition step_grain (meal_carbs_g : Q) (restrictions : list string)
    (a : acc) : M acc :=
  grain_foods <- filter_and_sort_grains grain_lt restrictions ;;
  match grain_foods with
  | [] => ret a
  | best_grain :: _ =>
      let carbs_needed := Qmax (meal_carbs_g - n_carbs_g (snd a)) 0 in
      q <- py_div carbs_needed (f_carbs_g best_grain) ;;
      ret (select best_grain (clamp (q * 100) MIN_PORTION MAX_PORTION) a)
  end.

(** Step 3: vegetable, fixed portion. *)
Definition step_vegetable (restrictions : list string) (a : acc) : M acc :=
  vegetable_foods <- filter_and_sort "vegetable" veg_lt restrictions ;;
  match vegetable_foods with
  | [] => ret a
  | best_veg :: _ => ret (select best_veg VEGETABLE_PORTION a)
  end.

(** Step 4: fat, when the running fat total is under 70% of the target. *)
Definition step_fat (meal_fat_g : Q) (restrictions : list string)
    (a : acc) : M acc :=
  if Qltb (n_fat_g (snd a)) (meal_fat_g * (7 # 10)) then
    fat_foods <- filter_and_sort "fat" fat_lt restrictions ;;
    match fat_foods with
    | [] => ret a
    | best_fat :: _ =>
        let fat_needed := Qmax (meal_fat_g - n_fat_g (snd a)) 0 in
        q <- py_div fat_needed (f_fat_g best_fat) ;;
        ret (select best_fat (clamp (q * 100) 5 30) a)
    end
  else ret a.

(** Step 5: the guard [abs(1 - scale_factor) > 0.03 and
    0.7 <= scale_factor <= 1.3], under [total_nutrition["calories"] > 0]. *)
Definition scale_factor (meal_calories : Z) (total : nutrition) : Q :=
  inject_Z meal_calories / n_calories total.

Definition scale_applies (meal_calories : Z) (total : nutrition) : bool :=
  Qltb 0 (n_calories total) &&
  (Qltb (3 # 100) (Qabs (1 - scale_factor meal_calories total)) &&
   (Qle_bool (7 # 10) (scale_factor meal_calories total) &&
    Qle_bool (scale_factor meal_calories total) (13 # 10))).

(** The assignments to one food dict in the scaling loop. *)
Definition scale_food (s : Q) (f : pfood) : pfood :=
  {| pf_id := pf_id f; pf_name := pf_name f;
     pf_portion_g := option_map (fun p => round0 (p * s)) (pf_portion_g f);
     pf_calories := round1 (pf_calories f * s);
     pf_protein_g := round1 (pf_protein_g f * s);
     pf_carbs_g := round1 (pf_carbs_g f * s);
     pf_fat_g := round1 (pf_fat_g f * s);
     pf_allergens := pf_allergens f |}.

Definition food_nutrition (f : pfood) : nutrition :=
  {| n_calories := pf_calories f; n_protein_g := pf_protein_g f;
     n_carbs_g := pf_carbs_g f; n_fat_g := pf_fat_g f |}.

(** "Recalculate totals" *)
Definition recalculate (fs : list pfood) : nutrition :=
  fold_left (fun t f => add_nutrition t (food_nutrition f)) fs zero_nutrition.

Definition step_scale (meal_calories : Z) (a : acc) : acc :=
  if scale_applies meal_calories (snd a) then
    let scaled := map (scale_food (scale_factor meal_calories (snd a))) (fst a) in
    (scaled, recalculate scaled)
  else a.

(** [_format_meal_sentence] *)
Definition describe (f : pfood) : string :=
  Z_to_string (py_int (default 0 (pf_portion_g f))) +:+ "g " +:+ pf_name f.

Definition _format_meal_sentence (foods : list pfood) : string :=
  match map describe foods with
  | [] => "No foods selected for this meal."
  | [d] => "Have " +:+ d +:+ "."
  | [d0; d1] => "Have " +:+ d0 +:+ " with " +:+ d1 +:+ "."
  | ds => "Have " +:+ String.concat ", " (removelast ds) +:+ ", and "
          +:+ List.last ds EmptyString +:+ "."
  end.

(** The dict [build_meal] returns, from the state after step 5. *)
Definition finish_meal (a : acc) : meal :=
  {| m_foods := Some (fst a);
     m_total_calories := round1 (n_calories (snd a));
     m_total_protein_g := Some (round1 (n_protein_g (snd a)));
     m_total_carbs_g := round1 (n_carbs_g (snd a));
     m_total_fat_g := round1 (n_fat_g (snd a));
     m_suggested_sentence := _format_meal_sentence (fst a) |}.

(** Steps 1 to 4: the greedy selection. *)
Definition select_foods (meal_protein_g meal_carbs_g meal_fat_g : Q)
    (restrictions : list string) : M acc :=
  a1 <- step_protein meal_protein_g restrictions ([], zero_nutrition) ;;
  a2 <- step_grain meal_carbs_g restrictions a1 ;;
  a3 <- step_vegetable restrictions a2 ;;
  step_fat meal_fat_g restrictions a3.

(** [build_meal] *)
Definition build_meal (meal_calories : Z) (meal_protein_g meal_carbs_g meal_fat_g : Q)
    (restrictions : list string) : M meal :=
  a <- select_foods meal_protein_g meal_carbs_g meal_fat_g restrictions ;;
  ret (finish_meal (step_scale meal_calories a)).

(** The messages of [_validate_safety]. *)
Inductive safety_error :=
| InsufficientProtein (meal_name : string) (protein : Q)
| UnsafePortion (meal_name food_name : string) (portion : Q).

Definition main_meals : list string := ["breakfast"; "lunch"; "dinner"].

(** First loop of [_validate_safety]; [None] is a [KeyError]. *)
Fixpoint check_protein (p : meal_plan) : option (list safety_error) :=
  match p with
  | [] => Some []
  | (meal_name, meal_data) :: p' =>
      if str_in meal_name main_meals then
        match m_total_protein_g meal_data with
        | None => None
        | Some protein =>
            option_map
              (app (if Qltb protein MIN_PROTEIN_PER_MEAL
                    then [InsufficientProtein meal_name protein] else []))
              (check_protein p')
        end
      else check_protein p'
  end.

Fixpoint check_foods (meal_name : string) (fs : list pfood)
  : option (list safety_error) :=
  match fs with
  | [] => Some []
  | f :: fs' =>
      match pf_portion_g f with
      | None => None
      | Some portion =>
          option_map
            (app (if (Qltb portion MIN_PORTION || Qltb MAX_PORTION portion)
                     && Qltb 50 portion
                  then [UnsafePortion meal_name (pf_name f) portion] else []))
            (check_foods meal_name fs')
      end
  end.

(** Second loop of [_validate_safety]. *)
Fixpoint check_portions (p : meal_plan) : option (list safety_error) :=
  match p with
  | [] => Some []
  | (meal_name, meal_data) :: p' =>
      match m_foods meal_data with
      | None => None
      | Some fs =>
          match check_foods meal_name fs with
          | None => None
          | Some e => option_map (app e) (check_portions p')
          end
      end
  end.

(** [_validate_safety]; the [restrictions] argument is not read. *)
Definition _validate_safety (p : meal_plan) (restrictions : list string)
  : option (bool * list safety_error) :=
  match check_protein p with
  | None => None
  | Some e1 =>
      match check_portions p with
      | None => None
      | Some e2 =>
          Some (match e1 ++ e2 with [] => true | _ => false end, e1 ++ e2)
      end
  end.

Record model2_output := {
  target_calories : Z;
  fitness_goal : string;
  dietary_restrictions : list string
}.

(** [macro_accuracy] holds the number that the code prints with one
    decimal. *)
Record daily_summary := {
  ds_calories : Q; ds_protein_g : Q; ds_carbs_g : Q; ds_fat_g : Q;
  ds_macro_accuracy : Q
}.

(** The dict [generate_plan] returns: status success, status error with the
    safety details, or status error from the [except] clause. *)
Inductive plan_result :=
| Success (plan : meal_plan) (summary : daily_summary)
| SafetyFailed (details : list safety_error)
| Raised.

Definition status_success (r : plan_result) : bool :=
  match r with Success _ _ => true | _ => false end.

Definition Qsum (l : list Q) : Q := fold_left Qplus l 0.

(** [meal["total_protein_g"] for meal in meal_plan.values()] *)
Fixpoint plan_proteins (p : meal_plan) : option (list Q) :=
  match p with
  | [] => Some []
  | e :: p' =>
      match m_total_protein_g (snd e), plan_proteins p' with
      | Some x, Some xs => Some (x :: xs)
      | _, _ => None
      end
  end.

(** The loop over [MEAL_DISTRIBUTION]. *)
Definition build_plan (target : Z) (daily : macros) (restrictions : list string)
  : M meal_plan :=
  mapM (fun e : string * Q =>
          let meal_pct := snd e in
          m <- build_meal (py_int (inject_Z target * meal_pct))
                          (protein_g daily * meal_pct)
                          (carbs_g daily * meal_pct)
                          (fat_g daily * meal_pct)
                          restrictions ;;
          ret (fst e, m))
       MEAL_DISTRIBUTION.

(** The body of the [try] of [generate_plan]. *)
Definition generate_plan_body (input : model2_output) : M plan_result :=
  let target := target_calories input in
  let restrictions := dietary_restrictions input in
  match calculate_macros target (fitness_goal input) with
  | None => raise
  | Some daily_macros =>
      plan <- build_plan target daily_macros restrictions ;;
      let calories := round1 (Qsum (map (fun e => m_total_calories (snd e)) plan)) in
      match plan_proteins plan with
      | None => raise
      | Some proteins =>
          ratio <- py_div calories (inject_Z target) ;;
          let summary :=
            {| ds_calories := calories;
               ds_protein_g := round1 (Qsum proteins);
               ds_carbs_g := round1 (Qsum (map (fun e => m_total_carbs_g (snd e)) plan));
               ds_fat_g := round1 (Qsum (map (fun e => m_total_fat_g (snd e)) plan));
               ds_macro_accuracy := round1 (ratio * 100) |} in
          match _validate_safety plan restrictions with
          | None => raise
          | Some (true, _) => ret (Success plan summary)
          | Some (false, errors) => ret (SafetyFailed errors)
          end
      end
  end.

(** [generate_plan]: the result, and the catalog index as the call leaves
    it. *)
Definition generate_plan (input : model2_output) (c : catalog)
  : plan_result * catalog :=
  match generate_plan_body input c with
  | (Some r, c') => (r, c')
  | (None, c') => (Raised, c')
  end.

End FoodEngine.

(** ** The wrapper of core/food_recommender.py *)

Module FoodRecommender.

(** [generate_plan(target_calories, fitness_goal, dietary_restrictions=None)] *)
Definition generate_plan (target_calories : Z) (fitness_goal : string)
    (dietary_restrictions : option (list string)) (c : catalog)
  : FoodEngine.plan_result * catalog :=
  FoodEngine.generate_plan
    {| FoodEngine.target_calories := target_calories;
       FoodEngine.fitness_goal := fitness_goal;
       FoodEngine.dietary_restrictions := default [] dietary_restrictions |} c.

End FoodRecommender.

(** ** User profiles and the roadmap predictor (roadmap_generator.py) *)

Record profile := {
  weight_kg : option Q;
  height_cm : option Q;
  age : option Z;
  gender : string;
  activity_level : option string;
  fitness_goal : option string;
  current_week : Z;
  dietary_restrictions : list string
}.

Module RoadmapGenerator.

(** What the pickled regression model returns; it is outside the repository.
    A float that is NaN or infinite is [NotFinite]. *)
Inductive raw_number := Finite (q : Q) | NotFinite.

Record raw_prediction := {
  raw_weight : Q;
  raw_calories : raw_number;
  raw_exercise : Q
}.

Record roadmap := {
  target_weight_kg : Q;
  target_calories : Z;
  target_exercise_minutes : Z;
  rm_fitness_goal : option string;
  rm_dietary_restrictions : list string
}.

(** The defensive validation of the raw calorie prediction. *)
Definition sanitize (c : raw_number) : Q :=
  match c with
  | NotFinite => 2000
  | Finite q =>
      if Qle_bool q 0 then 2000
      else if Qltb q 1000 then 1500
      else q
  end.

(** [str(goal_raw).lower()] *)
Definition goal_lower (user_state : profile) : string :=
  lower (default "None" (fitness_goal user_state)).

Definition is_muscle_gain (goal : string) : bool :=
  any_contained ["muscle"; "gain"] goal
  && negb (contains "loss" goal) && negb (contains "cut" goal).

Definition is_weight_loss (goal : string) : bool :=
  any_contained ["loss"; "lose"; "cut"; "shed"] goal.

(** The goal-specific floors. *)
Definition apply_floor (user_state : profile) (target : Q) : Q :=
  if is_muscle_gain (goal_lower user_state) then
    let min_cal : Q := if String.eqb (gender user_state) "male" then 2700 else 2400 in
    if Qltb target min_cal then min_cal else target
  else if is_weight_loss (goal_lower user_state) then
    let min_cal : Q := if String.eqb (gender user_state) "male" then 1500 else 1200 in
    if Qltb target min_cal then min_cal else target
  else target.

(** [predict], after the model has answered [raw]. *)
Definition predict (user_state : profile) (raw : raw_prediction) : roadmap :=
  {| target_weight_kg := round1 (raw_weight raw);
     target_calories := py_int (apply_floor user_state (sanitize (raw_calories raw)));
     target_exercise_minutes := py_int (raw_exercise raw);
     rm_fitness_goal := fitness_goal user_state;
     rm_dietary_restrictions := dietary_restrictions user_state |}.

End RoadmapGenerator.

(** ** ConversationManager (conversation_manager.py) *)

Module ConversationManager.

Inductive state :=
| STATE_GREETING
| STATE_ONBOARDING_GOAL
| STATE_ONBOARDING_WEIGHT
| STATE_ONBOARDING_HEIGHT
| STATE_ONBOARDING_AGE
| STATE_ONBOARDING_GENDER
| STATE_ONBOARDING_ACTIVITY
| STATE_READY_FOR_PLAN
| STATE_SHOWING_ROADMAP
| STATE_ONBOARDING_DIET.

Definition MIN_WEIGHT : Q := 40.
Definition MAX_WEIGHT : Q := 200.
Definition MIN_HEIGHT : Q := 100.
Definition MAX_HEIGHT : Q := 250.
Definition MIN_AGE : Q := 13.
Definition MAX_AGE : Q := 100.

Definition ACTIVITY_LEVELS : list (string * list string) :=
  [ ("sedentary", ["sedentary"; "sitting"; "desk"; "inactive"; "lazy"]);
    ("light", ["light"; "walking"; "casual"]);
    ("moderate", ["moderate"; "regular"; "normal"; "active"]);
    ("active", ["active"; "very active"; "exercise"; "gym"; "workout"]);
    ("very_active", ["very active"; "athlete"; "intense"; "training"]) ].

Definition GOALS : list (string * list string) :=
  [ ("weight_loss", ["lose"; "loss"; "reduce"; "slim"; "cut"; "shed"]);
    ("muscle_gain", ["gain"; "build"; "bulk"; "muscle"; "grow"; "mass"]);
    ("maintenance", ["maintain"; "stay"; "keep"; "stable"; "preserve"]) ].

Record conversation := {
  current_state : state;
  conv_profile : profile;
  last_interaction : Z;      (* a time stamp, in microseconds *)
  message_count : Z
}.

(** The profile of a new conversation, and of a reset one. *)
Definition fresh_profile : profile :=
  {| weight_kg := None; height_cm := None; age := None;
     gender := "female";
     activity_level := None; fitness_goal := None;
     current_week := 1; dietary_restrictions := [] |}.

(** [timedelta(days=7)] in microseconds. *)
Definition seven_days : Z := (7 * 86400 * 1000000)%Z.

(** [get_user_conversation] at time [now]: the conversation it returns and
    the store it leaves (the returned dict is the stored one). *)
Definition get_user_conversation (user_id : string) (now : Z)
    (conversations : gmap string conversation)
  : conversation * gmap string conversation :=
  let conversations1 :=
    match conversations !! user_id with
    | Some _ => conversations
    | None =>
        <[user_id := {| current_state := STATE_GREETING;
                        conv_profile := fresh_profile;
                        last_interaction := now;
                        message_count := 0 |}]> conversations
    end in
  match conversations1 !! user_id with
  | None => (* not reached: the key was just ensured *)
      ({| current_state := STATE_GREETING; conv_profile := fresh_profile;
          last_interaction := now; message_count := 0 |}, conversations1)
  | Some conv =>
      let conv' :=
        if (seven_days <? now - last_interaction conv)%Z
        then {| current_state := STATE_GREETING;
                conv_profile := conv_profile conv;
                last_interaction := last_interaction conv;
                message_count := message_count conv |}
        else conv in
      (conv', <[user_id := conv']> conversations1)
  end.

(** The alternatives of the unit pattern
    [(kg|kilogram|kilograms|cm|centimeter|centimeters|years?|old)], in the
    order in which the regex engine tries them ([years?] is greedy). *)
Definition unit_words : list string :=
  ["kg"; "kilogram"; "kilograms"; "cm"; "centimeter"; "centimeters";
   "years"; "year"; "old"].

(** Length of the unit word matched at the start of [s], ignoring case. *)
Definition unit_match_length (s : string) : option nat :=
  option_map String.length
    (List.find (fun w => starts_with w (lower s)) unit_words).

(** [re.sub] of the unit words by the empty string, ignoring case; [skip] counts the
    characters of the current match that remain to be dropped. *)
Fixpoint remove_units (skip : nat) (s : string) : string :=
  match s with
  | EmptyString => EmptyString
  | String c s' =>
      match skip with
      | S k => remove_units k s'
      | O =>
          match unit_match_length s with
          | Some (S k) => remove_units k s'
          | _ => String c (remove_units 0 s')
          end
      end
  end.

(** The longest run of digits at the start of [s], and what follows it. *)
Fixpoint take_digits (s : string) : list ascii * string :=
  match s with
  | String c s' =>
      if is_digit c
      then let r := take_digits s' in (c :: fst r, snd r)
      else ([], s)
  | EmptyString => ([], EmptyString)
  end.

Definition digits_value (ds : list ascii) : Z :=
  fold_left (fun v c => (v * 10 + (Z.of_N (N_of_ascii c) - 48))%Z) ds 0%Z.

(** [float] of the match (digits, optional dot, digits) that starts at the
    start of [s]. *)
Definition number_at (s : string) : Q :=
  let int_part := take_digits s in
  match snd int_part with
  | String "."%char rest =>
      let frac := fst (take_digits rest) in
      Qred (inject_Z (digits_value (fst int_part ++ frac))
            / inject_Z (10 ^ Z.of_nat (List.length frac)))
  | _ => inject_Z (digits_value (fst int_part))
  end.

(** [re.search] for the first number (a run of digits, optionally a dot and
    more digits) in [text_clean]. *)
Fixpoint search_number (s : string) : option Q :=
  match s with
  | EmptyString => None
  | String c s' => if is_digit c then Some (number_at s) else search_number s'
  end.

(** [_extract_number] *)
Definition _extract_number (text : string) : option Q :=
  search_number (remove_units 0 (strip text)).

(** [_match_keyword] *)
Definition _match_keyword (text : string) (mapping : list (string * list string))
  : option string :=
  option_map fst
    (List.find (fun e => any_contained (snd e) (lower text)) mapping).

(** [adapt_model2_to_model3] *)
Definition adapt_model2_to_model3 (model2_output : RoadmapGenerator.roadmap)
    (user_profile : profile) : Z * option string * list string :=
  (RoadmapGenerator.target_calories model2_output,
   fitness_goal user_profile,
   dietary_restrictions user_profile).

(** The replies; each constructor stands for one message text of the source,
    with the values it interpolates. *)
Inductive response :=
| StartingFresh
| Hi
| GreatGoal
| GoalNotCaught
| WeightLogged (weight : Q)
| WeightNeedNumber
| WeightUnusual (weight : Q)
| HeightLogged (height : Q)
| HeightNeedNumber
| HeightUnusual (height : Q)
| AgeLogged (age : Z)
| AgeNeedNumber
| AgeUnrealistic
| DietNotedVeg
| DietGotItNonVeg
| DietPleaseSpecify
| ActivityPleaseChoose
| PlanGuidance
| NotSure
| ProfileIncomplete (missing : list string)
| MealTrouble
| Unsafe (reason : option SafetyValidator.violation)
| PlanResponse (p : profile) (r : RoadmapGenerator.roadmap) (plan : meal_plan) (week : Z)
| SystemError.

Definition set_state (conv : conversation) (s : state) : conversation :=
  {| current_state := s; conv_profile := conv_profile conv;
     last_interaction := last_interaction conv;
     message_count := message_count conv |}.

Definition set_profile (conv : conversation) (p : profile) : conversation :=
  {| current_state := current_state conv; conv_profile := p;
     last_interaction := last_interaction conv;
     message_count := message_count conv |}.

Definition reset_words : list string := ["reset"; "restart"; "start over"; "new"].

Definition is_None {A} (o : option A) : bool :=
  match o with None => true | Some _ => false end.

(** [[f for f in required_fields if profile.get(f) is None]] *)
Definition missing_fields (p : profile) : list string :=
  (if is_None (weight_kg p) then ["weight_kg"] else []) ++
  (if is_None (height_cm p) then ["height_cm"] else []) ++
  (if is_None (age p) then ["age"] else []) ++
  (if is_None (activity_level p) then ["activity_level"] else []) ++
  (if is_None (fitness_goal p) then ["fitness_goal"] else []).

(** [if x and lo <= x <= hi] *)
Definition in_range (x lo hi : Q) : bool :=
  negb (Qeq_bool x 0) && Qle_bool lo x && Qle_bool x hi.

Section Dialogue.

(** The pickled model behind [roadmap_generator.predict]: its answer for a
    profile, [None] when it raises. *)
Variable model : profile -> option RoadmapGenerator.raw_prediction.

(** [_generate_plan]: the conversation, the reply, and the catalog index as
    the food engine leaves it. *)
Definition _generate_plan (conv : conversation) (c : catalog)
  : conversation * response * catalog :=
  let p := conv_profile conv in
  match missing_fields p with
  | (_ :: _) as missing => (conv, ProfileIncomplete missing, c)
  | [] =>
      match model p with
      | None => (conv, SystemError, c)
      | Some raw =>
          let roadmap := RoadmapGenerator.predict p raw in
          let '(target, goal, restrictions) := adapt_model2_to_model3 roadmap p in
          match goal with
          | None => (conv, MealTrouble, c)   (* excluded by [missing_fields] *)
          | Some g =>
              match FoodRecommender.generate_plan target g (Some restrictions) c with
              | (FoodEngine.Success plan _, c') =>
                  match SafetyValidator.validate_meal_plan plan target restrictions with
                  | (false, errors) => (conv, Unsafe (head errors), c')
                  | (true, _) =>
                      (set_state conv STATE_SHOWING_ROADMAP,
                       PlanResponse p roadmap plan (current_week p), c')
                  end
              | (_, c') => (conv, MealTrouble, c')
              end
          end
      end
  end.

Definition set_weight (p : profile) (w : Q) : profile :=
  {| weight_kg := Some w; height_cm := height_cm p; age := age p;
     gender := gender p; activity_level := activity_level p;
     fitness_goal := fitness_goal p; current_week := current_week p;
     dietary_restrictions := dietary_restrictions p |}.

Definition set_height (p : profile) (h : Q) : profile :=
  {| weight_kg := weight_kg p; height_cm := Some h; age := age p;
     gender := gender p; activity_level := activity_level p;
     fitness_goal := fitness_goal p; current_week := current_week p;
     dietary_restrictions := dietary_restrictions p |}.

Definition set_age (p : profile) (a : Z) : profile :=
  {| weight_kg := weight_kg p; height_cm := height_cm p; age := Some a;
     gender := gender p; activity_level := activity_level p;
     fitness_goal := fitness_goal p; current_week := current_week p;
     dietary_restrictions := dietary_restrictions p |}.

Definition set_goal (p : profile) (g : string) : profile :=
  {| weight_kg := weight_kg p; height_cm := height_cm p; age := age p;
     gender := gender p; activity_level := activity_level p;
     fitness_goal := Some g; current_week := current_week p;
     dietary_restrictions := dietary_restrictions p |}.

Definition set_activity (p : profile) (a : string) : profile :=
  {| weight_kg := weight_kg p; height_cm := height_cm p; age := age p;
     gender := gender p; activity_level := Some a;
     fitness_goal := fitness_goal p; current_week := current_week p;
     dietary_restrictions := dietary_restrictions p |}.

Definition set_restrictions (p : profile) (r : list string) : profile :=
  {| weight_kg := weight_kg p; height_cm := height_cm p; age := age p;
     gender := gender p; activity_level := activity_level p;
     fitness_goal := fitness_goal p; current_week := current_week p;
     dietary_restrictions := r |}.

(** [_handle_state] *)
Definition _handle_state (conv : conversation) (message : string) (c : catalog)
  : conversation * response * catalog :=
  let p := conv_profile conv in
  if str_in (lower (strip message)) reset_words then
    ({| current_state := STATE_GREETING; conv_profile := fresh_profile;
        last_interaction := last_interaction conv; message_count := 0 |},
     StartingFresh, c)
  else
  match current_state conv with
  | STATE_GREETING => (set_state conv STATE_ONBOARDING_GOAL, Hi, c)
  | STATE_ONBOARDING_GOAL =>
      match _match_keyword message GOALS with
      | Some goal =>
          (set_state (set_profile conv (set_goal p goal)) STATE_ONBOARDING_WEIGHT,
           GreatGoal, c)
      | None => (conv, GoalNotCaught, c)
      end
  | STATE_ONBOARDING_WEIGHT =>
      match _extract_number message with
      | None => (conv, WeightNeedNumber, c)
      | Some weight =>
          if in_range weight MIN_WEIGHT MAX_WEIGHT
          then (set_state (set_profile conv (set_weight p weight)) STATE_ONBOARDING_HEIGHT,
                WeightLogged weight, c)
          else (conv, WeightUnusual weight, c)
      end
  | STATE_ONBOARDING_HEIGHT =>
      match _extract_number message with
      | None => (conv, HeightNeedNumber, c)
      | Some height =>
          if in_range height MIN_HEIGHT MAX_HEIGHT
          then (set_state (set_profile conv (set_height p height)) STATE_ONBOARDING_AGE,
                HeightLogged height, c)
          else (conv, HeightUnusual height, c)
      end
  | STATE_ONBOARDING_AGE =>
      match _extract_number message with
      | None => (conv, AgeNeedNumber, c)
      | Some a =>
          if in_range a MIN_AGE MAX_AGE
          then (set_state (set_profile conv (set_age p (py_int a))) STATE_ONBOARDING_DIET,
                AgeLogged (py_int a), c)
          else (conv, AgeUnrealistic, c)
      end
  | STATE_ONBOARDING_DIET =>
      let msg_clean := strip (lower message) in
      if any_contained ["veg"; "vegetarian"; "vegan"] msg_clean then
        (set_state (set_profile conv (set_restrictions p ["vegetarian"]))
                   STATE_ONBOARDING_ACTIVITY, DietNotedVeg, c)
      else if contains "non" msg_clean then
        (set_state (set_profile conv (set_restrictions p []))
                   STATE_ONBOARDING_ACTIVITY, DietGotItNonVeg, c)
      else (conv, DietPleaseSpecify, c)
  | STATE_ONBOARDING_ACTIVITY =>
      match _match_keyword message ACTIVITY_LEVELS with
      | Some activity =>
          _generate_plan
            (set_state (set_profile conv (set_activity p activity)) STATE_READY_FOR_PLAN) c
      | None => (conv, ActivityPleaseChoose, c)
      end
  | STATE_READY_FOR_PLAN => _generate_plan conv c
  | STATE_SHOWING_ROADMAP => (conv, PlanGuidance, c)
  | STATE_ONBOARDING_GENDER => (conv, NotSure, c)
  end.

(** [process_message] at time [now]: the reply, the store and the catalog
    index afterwards. *)
Definition process_message (user_id message : string) (now : Z)
    (conversations : gmap string conversation) (c : catalog)
  : response * gmap string conversation * catalog :=
  let '(conv, conversations1) := get_user_conversation user_id now conversations in
  let conv1 := {| current_state := current_state conv;
                  conv_profile := conv_profile conv;
                  last_interaction := now;
                  message_count := message_count conv |} in
  let '(conv2, reply, c') := _handle_state conv1 message c in
  (reply, <[user_id := conv2]> conversations1, c').

End Dialogue.

End ConversationManager.

(** ** Vocabulary of the properties *)

(** The foods of a plan in the order in which gates 1 and 2 of the validator
    visit them, each with the name of its meal.  An entry named
    [daily_summary] is the plan's summary, not a meal, and an entry without a
    [foods] key has no foods. *)
Definition plan_items (p : meal_plan) : list (string * pfood) :=
  flat_map (fun e => map (pair (fst e)) (SafetyValidator.visited_foods e)) p.

(** The food carries an allergen tag that is a member of the restriction
    set. *)
Definition restricted (restrictions : list string) (f : pfood) : Prop :=
  exists r, In r restrictions /\ In r (default [] (pf_allergens f)).

(** The name matches the condiment/oil allowlist. *)
Definition small_portion_name (f : pfood) : Prop :=
  exists w, In w (SafetyValidator.CONDIMENTS ++ SafetyValidator.OILS_AND_FATS)
            /\ contains w (lower (pf_name f)) = true.

(** Gate 2 as the specification words it: [v] is the violation of food [f]. *)
Definition portion_violation (f : pfood) (v : SafetyValidator.violation) : Prop :=
  let portion := default 0 (pf_portion_g f) in
  (small_portion_name f /\ ~ (5 <= portion /\ portion <= 50)
   /\ v = SafetyValidator.CondimentUnusual (pf_name f) portion)
  \/ (~ small_portion_name f /\ portion < 15
      /\ v = SafetyValidator.PortionTooSmall (pf_name f) portion)
  \/ (~ small_portion_name f /\ 600 < portion
      /\ v = SafetyValidator.PortionTooLarge (pf_name f) portion).

(** Gate 3 as the specification words it: [v] is the violation of the main
    meal [meal_name]. *)
Definition protein_violation (p : meal_plan) (meal_name : string)
    (v : SafetyValidator.violation) : Prop :=
  exists m, plan_lookup meal_name p = Some m
            /\ default 0 (m_total_protein_g m) < 15
            /\ v = SafetyValidator.LowProtein meal_name (default 0 (m_total_protein_g m)).

(** [f] is a food of the meal [meal_name] of the plan. *)
Definition plan_item (p : meal_plan) (meal_name : string) (f : pfood) : Prop :=
  exists m fs, In (meal_name, m) p /\ meal_name <> "daily_summary"
               /\ m_foods m = Some fs /\ In f fs.

(** A small catalog in the format of the food database, used to run the
    engine on concrete inputs. *)
Definition mk_food (id name category : string) (calories protein carbs fat fiber : Q)
    (vegetarian vegan : bool) (allergens : list string) : food :=
  {| f_id := id; f_name := name; f_category := category;
     f_calories_per_100g := calories; f_protein_g := protein;
     f_carbs_g := carbs; f_fat_g := fat; f_fiber_g := fiber;
     f_vegetarian := vegetarian; f_vegan := vegan; f_allergens := allergens |}.

Definition sample_foods : list food :=
  [ mk_food "eggs" "Eggs" "protein" 155 13 (11 # 10) 11 0 true false ["eggs"];
    mk_food "chicken_breast" "Chicken Breast" "protein" 165 31 0 (36 # 10) 0 false false [];
    mk_food "tofu" "Tofu" "protein" 76 8 (19 # 10) (48 # 10) (3 # 10) true true ["soy"];
    mk_food "white_rice" "White Rice" "grain" 130 (27 # 10) 28 (3 # 10) (4 # 10) true true [];
    mk_food "brown_rice" "Brown Rice" "grain" 111 (26 # 10) 23 (9 # 10) (18 # 10) true true [];
    mk_food "oats" "Oats" "grain" 389 (169 # 10) 66 (69 # 10) (106 # 10) true true ["gluten"];
    mk_food "carrot" "Carrot" "vegetable" 41 (9 # 10) (96 # 10) (2 # 10) (28 # 10) true true [];
    mk_food "broccoli" "Broccoli" "vegetable" 34 (28 # 10) 7 (4 # 10) (26 # 10) true true [];
    mk_food "almonds" "Almonds" "fat" 579 21 22 50 (125 # 10) true true ["tree nuts"];
    mk_food "olive_oil" "Olive Oil" "fat" 884 0 0 100 0 true true [] ].

Definition sample_catalog : catalog := FoodEngine._organize_by_category sample_foods.

Definition engine_input (target : Z) (goal : string) (restrictions : list string)
  : FoodEngine.model2_output :=
  {| FoodEngine.target_calories := target; FoodEngine.fitness_goal := goal;
     FoodEngine.dietary_restrictions := restrictions |}.






(** Adjacent elements are in descending key order. *)
Fixpoint desc_sorted {A} (lt : A -> A -> bool) (l : list A) : Prop :=
  match l with
  | x :: (y :: _) as l' => lt x y = false /\ desc_sorted lt l'
  | _ => True
  end.

(** What the engine can observe of a catalog when it is called without
    restrictions: the protein, vegetable and fat lists once sorted, and the
    grain and carb lists. *)
Definition view (c : catalog) : list (list food) :=
  [ sort_desc FoodEngine.protein_lt (default [] (c !! "protein"));
    default [] (c !! "grain");
    default [] (c !! "carb");
    sort_desc FoodEngine.veg_lt (default [] (c !! "vegetable"));
    sort_desc FoodEngine.fat_lt (default [] (c !! "fat")) ].

Definition same_view (c c' : catalog) : Prop := view c = view c'.

(** A computation whose result is the same on related catalogs, and which
    leaves a catalog related to the one it started from. *)
Definition good {A} (R : catalog -> catalog -> Prop) (m : M A) : Prop :=
  (forall c c', R c c' -> fst (m c) = fst (m c'))
  /\ (forall c, R (snd (m c)) c).



Definition sum_calories (fs : list pfood) : Q :=
  fold_right (fun f s => pf_calories f + s) 0 fs.

(** The running totals agree with the selected foods, of which there are at
    most [n]. *)
Definition acc_ok (n : nat) (a : FoodEngine.acc) : Prop :=
  (List.length (fst a) <= n)%nat
  /\ FoodEngine.n_calories (snd a) == sum_calories (fst a).

(** Concrete inputs for running the validator and the dialogue. *)
Definition peanut_sauce : pfood :=
  {| pf_id := "peanut_sauce"; pf_name := "Peanut Sauce";
     pf_portion_g := Some 60; pf_calories := 150; pf_protein_g := 6;
     pf_carbs_g := 8; pf_fat_g := 11; pf_allergens := Some ["peanuts"] |}.

Definition plain_rice : pfood :=
  {| pf_id := "white_rice"; pf_name := "White Rice";
     pf_portion_g := Some 200; pf_calories := 260; pf_protein_g := 27 # 5;
     pf_carbs_g := 56; pf_fat_g := 3 # 5; pf_allergens := None |}.

Definition lunch_with_peanuts : meal_plan :=
  [ ("lunch",
     {| m_foods := Some [plain_rice; peanut_sauce];
        m_total_calories := 410; m_total_protein_g := Some (57 # 5);
        m_total_carbs_g := 64; m_total_fat_g := 58 # 5;
        m_suggested_sentence := "Have 200g White Rice with 60g Peanut Sauce." |}) ].

Definition muscle_gain_profile : profile :=
  {| weight_kg := Some 70; height_cm := Some 170; age := Some 25%Z;
     gender := "female"; activity_level := Some "moderate";
     fitness_goal := Some "muscle_gain"; current_week := 1;
     dietary_restrictions := [] |}.

Definition ready_conversation : ConversationManager.conversation :=
  {| ConversationManager.current_state := ConversationManager.STATE_READY_FOR_PLAN;
     ConversationManager.conv_profile := muscle_gain_profile;
     ConversationManager.last_interaction := 0;
     ConversationManager.message_count := 6 |}.

Definition weight_conversation : ConversationManager.conversation :=
  {| ConversationManager.current_state := ConversationManager.STATE_ONBOARDING_WEIGHT;
     ConversationManager.conv_profile :=
       ConversationManager.set_goal ConversationManager.fresh_profile "weight_loss";
     ConversationManager.last_interaction := 0;
     ConversationManager.message_count := 2 |}.

(** A model that predicts 2000 kcal for everyone. *)
Definition constant_model (p : profile) : option RoadmapGenerator.raw_prediction :=
  Some {| RoadmapGenerator.raw_weight := 69;
          RoadmapGenerator.raw_calories := RoadmapGenerator.Finite 2000;
          RoadmapGenerator.raw_exercise := 45 |}.

(** A user sending the messages one after the other, all at time 0. *)
Definition run_dialogue (user_id : string) (messages : list string)
    (c : catalog) : gmap string ConversationManager.conversation * catalog :=
  fold_left
    (fun st message =>
       let '(_, conversations, c') :=
         ConversationManager.process_message constant_model user_id message 0
                                             (fst st) (snd st) in
       (conversations, c'))
    messages (∅, c).

(** ** The validator of pipeline.py *)

Module Pipeline.

Definition MIN_PROTEIN_PER_MEAL : Q := 20.
Definition MIN_PORTION : Q := 50.
Definition MAX_PORTION : Q := 500.

(** Gate 1 on one of the three main meals; the message is the one of the
    engine's validator. *)
Definition gate1_meal (p : meal_plan) (meal_name : string)
  : list FoodEngine.safety_error :=
  match plan_lookup meal_name p with
  | None => []
  | Some m =>
      let protein := default 0 (m_total_protein_g m) in
      if Qltb protein MIN_PROTEIN_PER_MEAL
      then [FoodEngine.InsufficientProtein meal_name protein] else []
  end.

(** Gate 2 on one food: only portions above 50 g are checked. *)
Definition gate2_food (meal_name : string) (f : pfood)
  : list FoodEngine.safety_error :=
  let portion := default 0 (pf_portion_g f) in
  if Qltb 50 portion && (Qltb portion MIN_PORTION || Qltb MAX_PORTION portion)
  then [FoodEngine.UnsafePortion meal_name (pf_name f) portion] else [].

Definition gate2 (p : meal_plan) : list FoodEngine.safety_error :=
  flat_map (fun e => flat_map (gate2_food (fst e)) (default [] (m_foods (snd e)))) p.

(** [FitnessChatbotPipeline._validate_safety]; [restrictions] is not read. *)
Definition _validate_safety (p : meal_plan) (restrictions : list string)
  : bool * list FoodEngine.safety_error :=
  let errors := flat_map (gate1_meal p) ["breakfast"; "lunch"; "dinner"] ++ gate2 p in
  (match errors with [] => true | _ => false end, errors).

End Pipeline.

(** ** The reset endpoint of app.py *)

Module App.

(** The body of [reset] for the user id of the request: what it leaves in
    [conversation_manager.conversations].  A missing or empty id is answered
    with an error before the store is touched. *)
Definition reset (user_id : string)
    (conversations : gmap string ConversationManager.conversation)
  : gmap string ConversationManager.conversation :=
  if String.eqb user_id EmptyString then conversations
  else match conversations !! user_id with
       | None => conversations
       | Some conv =>
           <[user_id :=
               {| ConversationManager.current_state := ConversationManager.STATE_GREETING;
                  ConversationManager.conv_profile := ConversationManager.fresh_profile;
                  ConversationManager.last_interaction :=
                    ConversationManager.last_interaction conv;
                  ConversationManager.message_count :=
                    ConversationManager.message_count conv |}]> conversations
       end.

End App.

(** ** StateManager (state_manager.py)

    A user state is a JSON object; the storage file is the map from user id to
    user state, passed explicitly.  Time stamps are the ISO strings of
    [datetime.now()], a parameter. *)

Module StateManager.

Inductive jvalue :=
| JInt (z : Z)
| JNum (q : Q)
| JStr (s : string)
| JList (l : list string).

Definition DEFAULT_PROFILE : gmap string jvalue :=
  <["age" := JInt 30]>
    (<["gender" := JStr "other"]>
       (<["weight_kg" := JNum 70]>
          (<["height_cm" := JNum 170]>
             (<["activity_level" := JStr "moderate"]>
                (<["week" := JInt 1]>
                   (<["fitness_goal" := JStr "maintenance"]>
                      (<["dietary_restrictions" := JList []]> ∅))))))).

(** The goal that [get_user_state] reads off the intent of a new user. *)
Definition goal_from_intent (intent : option string) : option string :=
  match intent with
  | None | Some EmptyString => None
  | Some i =>
      if contains "weight_loss" (lower i) then Some "weight_loss"
      else if contains "muscle_gain" (lower i) || contains "muscle" (lower i)
           then Some "muscle_gain"
      else if contains "maintenance" (lower i) then Some "maintenance"
      else None
  end.

(** [get_user_state] *)
Definition get_user_state (user_id : string) (intent : option string) (now : string)
    (storage : gmap string (gmap string jvalue))
  : gmap string jvalue * gmap string (gmap string jvalue) :=
  match storage !! user_id with
  | Some st => (st, storage)
  | None =>
      let profile :=
        <["last_updated" := JStr now]>
          (<["created_at" := JStr now]>
             (<["user_id" := JStr user_id]> DEFAULT_PROFILE)) in
      let profile :=
        match goal_from_intent intent with
        | Some g => <["fitness_goal" := JStr g]> profile
        | None => profile
        end in
      (profile, <[user_id := profile]> storage)
  end.

(** The entry that the update functions work on: the stored one, or a new
    default profile. *)
Definition entry_or_default (user_id now : string)
    (storage : gmap string (gmap string jvalue)) : gmap string jvalue :=
  match storage !! user_id with
  | Some st => st
  | None => <["created_at" := JStr now]> (<["user_id" := JStr user_id]> DEFAULT_PROFILE)
  end.

(** [update_user_profile]; [dict.update] lets the keys of [updates] win. *)
Definition update_user_profile (user_id : string) (updates : gmap string jvalue)
    (now : string) (storage : gmap string (gmap string jvalue))
  : gmap string jvalue * gmap string (gmap string jvalue) :=
  let st := <["last_updated" := JStr now]>
              (updates ∪ entry_or_default user_id now storage) in
  (st, <[user_id := st]> storage).

(** [current_week + 1]; adding 1 to a string or a list raises. *)
Definition plus_one (v : jvalue) : option jvalue :=
  match v with
  | JInt n => Some (JInt (n + 1))
  | JNum q => Some (JNum (q + 1))
  | JStr _ | JList _ => None
  end.

(** [update_user_progress]; [None] is the [TypeError] of a week that is not a
    number, raised before anything is written. *)
Definition update_user_progress (user_id : string) (roadmap : gmap string jvalue)
    (now : string) (storage : gmap string (gmap string jvalue))
  : option (gmap string jvalue * gmap string (gmap string jvalue)) :=
  let base := entry_or_default user_id now storage in
  match plus_one (default (JInt 1) (base !! "week")) with
  | None => None
  | Some week =>
      let st1 := <["week" := week]> base in
      let st2 := match roadmap !! "target_weight_kg" with
                 | Some w => <["weight_kg" := w]> st1
                 | None => st1
                 end in
      let st3 := <["last_updated" := JStr now]> st2 in
      Some (st3, <[user_id := st3]> storage)
  end.

(** [set_user_restrictions] *)
Definition set_user_restrictions (user_id : string) (restrictions : list string)
    (now : string) (storage : gmap string (gmap string jvalue))
  : gmap string jvalue * gmap string (gmap string jvalue) :=
  update_user_profile user_id {[ "dietary_restrictions" := JList restrictions ]}
                      now storage.

(** [reset_user_week] *)
Definition reset_user_week (user_id now : string)
    (storage : gmap string (gmap string jvalue))
  : gmap string jvalue * gmap string (gmap string jvalue) :=
  update_user_profile user_id {[ "week" := JInt 1 ]} now storage.

(** [delete_user] *)
Definition delete_user (user_id : string)
    (storage : gmap string (gmap string jvalue))
  : bool * gmap string (gmap string jvalue) :=
  match storage !! user_id with
  | Some _ => (true, delete user_id storage)
  | None => (false, storage)
  end.

End StateManager.

(** ** Vocabulary of the further properties *)

(** The food meets every restriction of the list, as
    [_filter_by_restrictions] reads them: vegetarian, vegan, and the allergen
    exclusions spelled [no_<tag>], where [no_nuts] stands for tree nuts and
    peanuts. *)
Definition satisfies (restrictions : list string) (f : food) : Prop :=
  (In "vegetarian" restrictions -> f_vegetarian f = true)
  /\ (In "vegan" restrictions -> f_vegan f = true)
  /\ (In "no_nuts" restrictions ->
      ~ In "tree nuts" (f_allergens f) /\ ~ In "peanuts" (f_allergens f))
  /\ (forall tag, In (String.append "no_" tag) restrictions -> tag <> "nuts" ->
                  ~ In tag (f_allergens f)).

(** The item was portioned from a food of the catalog that meets the
    restrictions. *)
Definition from_catalog (restrictions : list string) (c : catalog) (pf : pfood) : Prop :=
  exists k f, In f (default [] (c !! k))
              /\ pf_id pf = f_id f /\ pf_name pf = f_name f
              /\ satisfies restrictions f.

(** [c'] has the categories of [c], each with the same foods in some
    order. *)
Definition reordered (c' c : catalog) : Prop :=
  forall k, option_Forall2 Permutation (c' !! k) (c !! k).

(** A computation that leaves the catalog related to the one it found. *)
Definition preserves {A} (R : catalog -> catalog -> Prop) (m : M A) : Prop :=
  forall c, R (snd (m c)) c.

(** The ranges that the dialogue enforces on the fields it stores. *)
Definition valid_profile (p : profile) : Prop :=
  (forall w, weight_kg p = Some w -> 40 <= w /\ w <= 200)
  /\ (forall h, height_cm p = Some h -> 100 <= h /\ h <= 250)
  /\ (forall a, age p = Some a -> (13 <= a <= 100)%Z)
  /\ (forall g, fitness_goal p = Some g ->
                In g ["weight_loss"; "muscle_gain"; "maintenance"])
  /\ (forall a, activity_level p = Some a ->
                In a ["sedentary"; "light"; "moderate"; "active"; "very_active"]).

(** The states that one message other than a reset word can lead to from
    [s], besides [s] itself. *)
Definition next_states (s : ConversationManager.state)
  : list ConversationManager.state :=
  match s with
  | ConversationManager.STATE_GREETING => [ConversationManager.STATE_ONBOARDING_GOAL]
  | ConversationManager.STATE_ONBOARDING_GOAL => [ConversationManager.STATE_ONBOARDING_WEIGHT]
  | ConversationManager.STATE_ONBOARDING_WEIGHT => [ConversationManager.STATE_ONBOARDING_HEIGHT]
  | ConversationManager.STATE_ONBOARDING_HEIGHT => [ConversationManager.STATE_ONBOARDING_AGE]
  | ConversationManager.STATE_ONBOARDING_AGE => [ConversationManager.STATE_ONBOARDING_DIET]
  | ConversationManager.STATE_ONBOARDING_DIET => [ConversationManager.STATE_ONBOARDING_ACTIVITY]
  | ConversationManager.STATE_ONBOARDING_ACTIVITY =>
      [ConversationManager.STATE_READY_FOR_PLAN; ConversationManager.STATE_SHOWING_ROADMAP]
  | ConversationManager.STATE_READY_FOR_PLAN => [ConversationManager.STATE_SHOWING_ROADMAP]
  | ConversationManager.STATE_SHOWING_ROADMAP => []
  | ConversationManager.STATE_ONBOARDING_GENDER => []
  end.

(** The calorie floor of [predict] for a goal key and a gender. *)
Definition calorie_floor (goal gender : string) : Z :=
  if String.eqb goal "muscle_gain" then
    if String.eqb gender "male" then 2700%Z else 2400%Z
  else if String.eqb goal "weight_loss" then
    if String.eqb gender "male" then 1500%Z else 1200%Z
  else 1000%Z.

(** Every stored conversation has a profile within the ranges. *)
Definition valid_store (conversations : gmap string ConversationManager.conversation)
  : Prop :=
  forall u conv, conversations !! u = Some conv ->
                 valid_profile (ConversationManager.conv_profile conv).

(** The catalog index after a series of calls of [generate_plan], first
    input first. *)
Definition after_calls (history : list FoodEngine.model2_output) (c : catalog)
  : catalog :=
  fold_left (fun c' input => snd (FoodEngine.generate_plan input c')) history c.

(** [n] calls of [update_user_progress] for the same user, one after the
    other; [None] when one of them raises. *)
Fixpoint progress_times (n : nat) (user_id : string)
    (roadmap : gmap string StateManager.jvalue) (now : string)
    (storage : gmap string (gmap string StateManager.jvalue))
  : option (gmap string (gmap string StateManager.jvalue)) :=
  match n with
  | O => Some storage
  | S n' =>
      match StateManager.update_user_progress user_id roadmap now storage with
      | None => None
      | Some (_, storage') => progress_times n' user_id roadmap now storage'
      end
  end.

(** * Properties *)

(** ** Booleans and propositions *)

Lemma Qltb_lt (x y : Q) : Qltb x y = true <-> x < y.
Proof.
  unfold Qltb. rewrite negb_true_iff, <- not_true_iff_false, Qle_bool_iff.
  split; [apply Qnot_le_lt | apply Qlt_not_le].
Qed.

Lemma Qltb_ge (x y : Q) : Qltb x y = false <-> y <= x.
Proof.
  unfold Qltb. rewrite negb_false_iff, Qle_bool_iff. reflexivity.
Qed.

Lemma str_in_In (x : string) (l : list string) : str_in x l = true <-> In x l.
Proof.
  unfold str_in. rewrite existsb_exists. split.
  - intros (y & Hy & E). apply String.eqb_eq in E. now subst.
  - intros H. exists x. split; [assumption | apply String.eqb_refl].
Qed.

Lemma carries_restricted_iff (rs : list string) (f : pfood) :
  SafetyValidator.carries_restricted rs f = true <-> restricted rs f.
Proof.
  unfold SafetyValidator.carries_restricted, restricted.
  rewrite existsb_exists. split.
  - intros (r & Hr & E). exists r. split; [assumption | now apply str_in_In].
  - intros (r & Hr & E). exists r. split; [assumption | now apply str_in_In].
Qed.

Lemma is_tiny_ok_iff (f : pfood) :
  SafetyValidator.is_tiny_ok f = true <-> small_portion_name f.
Proof.
  unfold SafetyValidator.is_tiny_ok, any_contained, small_portion_name.
  apply existsb_exists.
Qed.

(** ** Gate 1 of the validator *)

Lemma gate1_foods_None (rs : list string) (mn : string) (fs : list pfood) :
  SafetyValidator.gate1_foods rs mn fs = None <->
  forall f, In f fs -> SafetyValidator.carries_restricted rs f = false.
Proof.
  induction fs as [|f fs IH]; simpl.
  - split; [intros _ f [] | reflexivity].
  - destruct (SafetyValidator.carries_restricted rs f) eqn:E.
    + split; [discriminate |].
      intros H. specialize (H f (or_introl eq_refl)). congruence.
    + rewrite IH. split.
      * intros H g [<- | Hg]; auto.
      * intros H g Hg. apply H. now right.
Qed.

Lemma gate1_None (rs : list string) (p : meal_plan) :
  SafetyValidator.gate1 rs p = None <->
  forall e, In e (plan_items p) -> SafetyValidator.carries_restricted rs (snd e) = false.
Proof.
  unfold plan_items. induction p as [|e p IH]; simpl.
  - split; [intros _ x [] | reflexivity].
  - destruct (SafetyValidator.gate1_foods rs (fst e) (SafetyValidator.visited_foods e)) eqn:E.
    + split; [discriminate |]. intros H.
      assert (N : SafetyValidator.gate1_foods rs (fst e) (SafetyValidator.visited_foods e) = None).
      { apply gate1_foods_None. intros f Hf.
        apply (H (fst e, f)). apply in_or_app. left. now apply in_map. }
      congruence.
    + rewrite IH. pose proof (proj1 (gate1_foods_None _ _ _) E) as E'. split.
      * intros H x Hx. apply in_app_or in Hx. destruct Hx as [Hx | Hx]; [| now apply H].
        apply in_map_iff in Hx. destruct Hx as (f & <- & Hf). now apply E'.
      * intros H x Hx. apply H. apply in_or_app. now right.
Qed.

Lemma gate1_foods_first (rs : list string) (mn : string) (pre post : list pfood) (f : pfood) :
  (forall g, In g pre -> SafetyValidator.carries_restricted rs g = false) ->
  SafetyValidator.carries_restricted rs f = true ->
  SafetyValidator.gate1_foods rs mn (pre ++ f :: post)
  = Some (SafetyValidator.AllergenViolation (pf_name f) mn).
Proof.
  intros Hpre Hf. induction pre as [|g pre IH]; simpl.
  - now rewrite Hf.
  - rewrite (Hpre g (or_introl eq_refl)). apply IH.
    intros h Hh. apply Hpre. now right.
Qed.

Lemma gate1_foods_app_None (rs : list string) (mn : string) (l1 l2 : list pfood) :
  SafetyValidator.gate1_foods rs mn l1 = None ->
  SafetyValidator.gate1_foods rs mn (l1 ++ l2) = SafetyValidator.gate1_foods rs mn l2.
Proof.
  induction l1 as [|g l1 IH]; simpl; [reflexivity |].
  destruct (SafetyValidator.carries_restricted rs g); [discriminate | exact IH].
Qed.

(** Gate 1 reports the first food, in visiting order, that carries a
    restricted allergen. *)
Lemma gate1_first (rs : list string) (p : meal_plan)
    (pre post : list (string * pfood)) (mn : string) (f : pfood) :
  plan_items p = pre ++ (mn, f) :: post ->
  (forall e, In e pre -> SafetyValidator.carries_restricted rs (snd e) = false) ->
  SafetyValidator.carries_restricted rs f = true ->
  SafetyValidator.gate1 rs p = Some (SafetyValidator.AllergenViolation (pf_name f) mn).
Proof.
  revert pre. unfold plan_items.
  induction p as [|e p IH]; intros pre Heq Hpre Hf; simpl in *.
  - destruct pre; discriminate.
  - set (fs := SafetyValidator.visited_foods e) in *.
    assert (Hsplit :
      (exists a b, fs = a ++ f :: b /\ fst e = mn /\ pre = map (pair (fst e)) a) \/
      (exists pre', pre = map (pair (fst e)) fs ++ pre' /\
         flat_map (fun e0 => map (pair (fst e0)) (SafetyValidator.visited_foods e0)) p
         = pre' ++ (mn, f) :: post)).
    { clearbody fs. clear IH Hpre Hf. revert pre Heq.
      induction fs as [|g fs IHfs]; intros pre Heq; simpl in *.
      - right. exists pre. split; [reflexivity | assumption].
      - destruct pre as [|x pre]; simpl in Heq.
        + injection Heq as E1 E2 E3. left. exists [], fs. subst. auto.
        + injection Heq as E1 E2. destruct (IHfs pre E2) as [(a & b & -> & <- & ->) | (pre' & -> & E)].
          * left. exists (g :: a), b. subst x. auto.
          * right. exists pre'. subst x. auto. }
    destruct Hsplit as [(a & b & Hfs & <- & ->) | (pre' & -> & Hrest)].
    + rewrite Hfs. rewrite gate1_foods_first; auto.
      intros g Hg. apply (Hpre (fst e, g)). now apply in_map.
    + assert (N : SafetyValidator.gate1_foods rs (fst e) fs = None).
      { apply gate1_foods_None. intros g Hg. apply (Hpre (fst e, g)).
        apply in_or_app. left. now apply in_map. }
      rewrite N. apply (IH pre'); auto.
      intros x Hx. apply Hpre. apply in_or_app. now right.
Qed.

Lemma plan_items_In (p : meal_plan) (mn : string) (f : pfood) :
  In (mn, f) (plan_items p) <-> plan_item p mn f.
Proof.
  unfold plan_items, plan_item. rewrite in_flat_map. split.
  - intros ([k m] & He & Hf). apply in_map_iff in Hf.
    destruct Hf as (g & E & Hg). simpl in E. injection E as -> ->.
    unfold SafetyValidator.visited_foods in Hg. simpl in Hg.
    destruct (String.eqb_spec mn "daily_summary") as [|Hne]; [destruct Hg |].
    destruct (m_foods m) as [fs|] eqn:Hm; [| destruct Hg].
    exists m, fs. auto.
  - intros (m & fs & He & Hne & Hm & Hf). exists (mn, m). split; [assumption |].
    apply in_map_iff. exists f. split; [reflexivity |].
    unfold SafetyValidator.visited_foods. simpl.
    destruct (String.eqb_spec mn "daily_summary") as [|_]; [contradiction |].
    now rewrite Hm.
Qed.

(** C1.  Allergen exclusion: if any food of the plan carries an allergen tag
    that is a member of the restriction set, [validate_meal_plan] returns
    ok = false; hence a plan that validates as ok = true has no food
    carrying a restricted allergen tag. *)
Theorem validate_meal_plan_allergen_exclusion
    (p : meal_plan) (target : Z) (restrictions : list string) :
  ((exists mn f, plan_item p mn f /\ restricted restrictions f) ->
   fst (SafetyValidator.validate_meal_plan p target restrictions) = false)
  /\ (fst (SafetyValidator.validate_meal_plan p target restrictions) = true ->
      forall mn f, plan_item p mn f -> ~ restricted restrictions f).
Proof.
  assert (A : (exists mn f, plan_item p mn f /\ restricted restrictions f) ->
              fst (SafetyValidator.validate_meal_plan p target restrictions) = false).
  { intros (mn & f & Hitem & Hr). unfold SafetyValidator.validate_meal_plan.
    destruct (SafetyValidator.gate1 restrictions p) eqn:G; [reflexivity |].
    pose proof (proj1 (gate1_None _ _) G (mn, f) (proj2 (plan_items_In _ _ _) Hitem)) as N.
    apply carries_restricted_iff in Hr. simpl in N. congruence. }
  split; [exact A |].
  intros Hok mn f Hitem Hr.
  rewrite A in Hok; [discriminate | eauto].
Qed.

(** ** Gates 2 and 3 of the validator *)

Lemma gate2_food_iff (f : pfood) (v : SafetyValidator.violation) :
  In v (SafetyValidator.gate2_food f) <-> portion_violation f v.
Proof.
  unfold SafetyValidator.gate2_food, portion_violation.
  pose proof (is_tiny_ok_iff f) as T.
  set (portion := default 0 (pf_portion_g f)).
  destruct (SafetyValidator.is_tiny_ok f) eqn:Tiny.
  - assert (S : small_portion_name f) by now apply T.
    destruct (Qltb portion 5 || Qltb 50 portion) eqn:L; simpl.
    + assert (Out : ~ (5 <= portion /\ portion <= 50)).
      { intros [H5 H50]. apply orb_true_iff in L.
        destruct L as [L | L]; apply Qltb_lt in L.
        - exact (Qlt_not_le _ _ L H5).
        - exact (Qlt_not_le _ _ L H50). }
      split.
      * intros [<- | []]. left. auto.
      * intros [(_ & _ & ->) | [(N & _) | (N & _)]];
          [now left | contradiction | contradiction].
    + apply orb_false_iff in L. destruct L as [L5 L50].
      apply Qltb_ge in L5. apply Qltb_ge in L50.
      split; [intros [] |].
      intros [(_ & N & _) | [(N & _) | (N & _)]];
        [apply N; split; assumption | contradiction | contradiction].
  - assert (S : ~ small_portion_name f).
    { intros H. apply T in H. discriminate. }
    destruct (Qltb portion 15) eqn:L15; simpl.
    + apply Qltb_lt in L15. split.
      * intros [<- | []]. right. left. auto.
      * intros [(N & _) | [(_ & _ & ->) | (_ & H & _)]].
        -- contradiction.
        -- now left.
        -- exfalso. apply (Qlt_irrefl portion).
           apply (Qlt_trans _ 15); [assumption |].
           apply (Qlt_trans _ 600); [reflexivity | assumption].
    + apply Qltb_ge in L15. destruct (Qltb 600 portion) eqn:L600; simpl.
      * apply Qltb_lt in L600. split.
        -- intros [<- | []]. right. right. auto.
        -- intros [(N & _) | [(_ & H & _) | (_ & _ & ->)]].
           ++ contradiction.
           ++ exfalso. exact (Qlt_not_le _ _ H L15).
           ++ now left.
      * apply Qltb_ge in L600. split; [intros [] |].
        intros [(N & _) | [(_ & H & _) | (_ & H & _)]].
        -- contradiction.
        -- exact (Qlt_not_le _ _ H L15).
        -- exact (Qlt_not_le _ _ H L600).
Qed.

Lemma gate2_iff (p : meal_plan) (v : SafetyValidator.violation) :
  In v (SafetyValidator.gate2 p) <->
  exists e, In e (plan_items p) /\ portion_violation (snd e) v.
Proof.
  unfold SafetyValidator.gate2, plan_items. rewrite in_flat_map. split.
  - intros (e & He & Hv). apply in_flat_map in Hv. destruct Hv as (f & Hf & Hv).
    exists (fst e, f). split.
    + apply in_flat_map. exists e. split; [assumption | now apply in_map].
    + now apply gate2_food_iff.
  - intros ([mn f] & He & Hv). apply in_flat_map in He. destruct He as (e & He & Hf).
    apply in_map_iff in Hf. destruct Hf as (g & E & Hg). injection E as <- ->.
    exists e. split; [assumption |]. apply in_flat_map. exists f.
    split; [assumption | now apply gate2_food_iff].
Qed.

Lemma gate3_iff (p : meal_plan) (v : SafetyValidator.violation) :
  In v (SafetyValidator.gate3 p) <->
  exists mn, In mn ["breakfast"; "lunch"; "dinner"] /\ protein_violation p mn v.
Proof.
  unfold SafetyValidator.gate3. rewrite in_flat_map.
  split; intros (mn & Hmn & H); exists mn; (split; [assumption |]);
    unfold SafetyValidator.gate3_meal, protein_violation in *.
  - destruct (plan_lookup mn p) as [m|]; [| destruct H].
    destruct (Qltb (default 0 (m_total_protein_g m)) 15) eqn:L; [| destruct H].
    destruct H as [<- | []]. exists m. apply Qltb_lt in L. auto.
  - destruct H as (m & -> & L & ->). apply Qltb_lt in L. rewrite L. now left.
Qed.

(** C5.  Gate 1 alone short-circuits: the first food (in visiting order) that
    carries a restricted allergen makes [validate_meal_plan] return ok = false
    with exactly that one violation.  Without an allergen violation the
    list returned holds every violation of gate 2 (portion outside [5, 50] g
    for a name on the condiment/oil allowlist, outside [15, 600] g otherwise)
    and of gate 3 (under 15 g protein in breakfast, lunch or dinner; the snack
    is not examined), and ok = true exactly when that list is empty. *)
Theorem validate_meal_plan_gates
    (p : meal_plan) (target : Z) (restrictions : list string) :
  (forall pre mn f post,
      plan_items p = pre ++ (mn, f) :: post ->
      (forall e, In e pre -> ~ restricted restrictions (snd e)) ->
      restricted restrictions f ->
      SafetyValidator.validate_meal_plan p target restrictions
      = (false, [SafetyValidator.AllergenViolation (pf_name f) mn]))
  /\ ((forall e, In e (plan_items p) -> ~ restricted restrictions (snd e)) ->
      (forall v,
          In v (snd (SafetyValidator.validate_meal_plan p target restrictions)) <->
          (exists e, In e (plan_items p) /\ portion_violation (snd e) v)
          \/ (exists mn, In mn ["breakfast"; "lunch"; "dinner"]
                         /\ protein_violation p mn v))
      /\ (fst (SafetyValidator.validate_meal_plan p target restrictions) = true <->
          snd (SafetyValidator.validate_meal_plan p target restrictions) = [])).
Proof.
  split.
  - intros pre mn f post Hsplit Hpre Hf.
    unfold SafetyValidator.validate_meal_plan.
    rewrite (gate1_first restrictions p pre post mn f); auto.
    + intros e He. apply not_true_iff_false. intros C.
      apply carries_restricted_iff in C. exact (Hpre e He C).
    + now apply carries_restricted_iff.
  - intros Hnone.
    assert (G : SafetyValidator.gate1 restrictions p = None).
    { apply gate1_None. intros e He. apply not_true_iff_false. intros C.
      apply carries_restricted_iff in C. exact (Hnone e He C). }
    unfold SafetyValidator.validate_meal_plan. rewrite G.
    assert (E : forall v, In v (SafetyValidator.gate2 p ++ SafetyValidator.gate3 p) <->
                (exists e, In e (plan_items p) /\ portion_violation (snd e) v)
                \/ (exists mn, In mn ["breakfast"; "lunch"; "dinner"]
                               /\ protein_violation p mn v)).
    { intros v. rewrite in_app_iff, gate2_iff, gate3_iff. reflexivity. }
    destruct (SafetyValidator.gate2 p ++ SafetyValidator.gate3 p) as [|v0 errs] eqn:Herrs;
      cbn [fst snd].
    + split; [exact E | split; reflexivity].
    + split; [exact E | split; discriminate].
Qed.

(** ** The dialogue: reset, numeric extraction, session expiry *)

(** C6.  Universal reset: in every conversation state, a message whose
    trimmed, lower-cased text is one of reset, restart, start over, new sets
    the state to Greeting and reinitialises the profile: weight, height, age,
    activity level and goal unset, no dietary restrictions, gender at its
    fixed fallback. *)
Theorem reset_reinitialises_profile
    (model : profile -> option RoadmapGenerator.raw_prediction)
    (conv : ConversationManager.conversation) (message : string) (c : catalog) :
  In (lower (strip message)) ["reset"; "restart"; "start over"; "new"] ->
  let conv' := fst (fst (ConversationManager._handle_state model conv message c)) in
  ConversationManager.current_state conv' = ConversationManager.STATE_GREETING
  /\ weight_kg (ConversationManager.conv_profile conv') = None
  /\ height_cm (ConversationManager.conv_profile conv') = None
  /\ age (ConversationManager.conv_profile conv') = None
  /\ activity_level (ConversationManager.conv_profile conv') = None
  /\ fitness_goal (ConversationManager.conv_profile conv') = None
  /\ dietary_restrictions (ConversationManager.conv_profile conv') = []
  /\ gender (ConversationManager.conv_profile conv') = "female".
Proof.
  intros H. apply str_in_In in H.
  unfold ConversationManager._handle_state, ConversationManager.reset_words.
  rewrite H. cbn. repeat split.
Qed.








(** C9.  Session expiry: when the stored conversation was last used more than
    seven days before the access, [get_user_conversation] returns (and
    stores) it with the state forced to Greeting and the whole profile, the
    time stamp and the message count as they were. *)
Theorem stale_conversation_returns_to_greeting
    (user_id : string) (now : Z)
    (conversations : gmap string ConversationManager.conversation)
    (conv : ConversationManager.conversation) :
  conversations !! user_id = Some conv ->
  (ConversationManager.seven_days < now - ConversationManager.last_interaction conv)%Z ->
  let r := ConversationManager.get_user_conversation user_id now conversations in
  ConversationManager.current_state (fst r) = ConversationManager.STATE_GREETING
  /\ ConversationManager.conv_profile (fst r) = ConversationManager.conv_profile conv
  /\ ConversationManager.last_interaction (fst r) = ConversationManager.last_interaction conv
  /\ ConversationManager.message_count (fst r) = ConversationManager.message_count conv
  /\ snd r !! user_id = Some (fst r)
  /\ (forall other, other <> user_id -> snd r !! other = conversations !! other).
Proof.
  intros Hconv Hstale. unfold ConversationManager.get_user_conversation.
  rewrite Hconv. cbn zeta. rewrite Hconv.
  apply Z.ltb_lt in Hstale. rewrite Hstale. cbn [fst snd].
  repeat split.
  - apply lookup_insert_eq.
  - intros other Hne. now apply lookup_insert_ne.
Qed.


(** ** The calorie floor of the predictor *)

Lemma py_int_lower_bound (n : Z) (x : Q) :
  (0 <= n)%Z -> inject_Z n <= x -> (n <= py_int x)%Z.
Proof.
  intros Hn Hx. unfold py_int.
  assert (P : 0 <= x).
  { apply Qle_trans with (inject_Z n); [| assumption].
    change 0 with (inject_Z 0). now rewrite <- Zle_Qle. }
  apply Qle_bool_iff in P. rewrite P.
  rewrite <- (Qfloor_Z n). now apply Qfloor_resp_le.
Qed.

Lemma muscle_gain_floor (p : profile) (t : Q) :
  fitness_goal p = Some "muscle_gain" -> gender p = "female" ->
  2400 <= RoadmapGenerator.apply_floor p t.
Proof.
  intros Hg Hf. unfold RoadmapGenerator.apply_floor, RoadmapGenerator.goal_lower.
  rewrite Hg, Hf. cbn.
  destruct (Qltb t 2400) eqn:L; [apply Qle_refl | now apply Qltb_ge].
Qed.

(** C8.  For a muscle_gain profile with the default gender the predictor
    returns at least 2400 kcal, hence at least the floor of 2200 kcal,
    whatever the model predicted; and when [_generate_plan] shows a validated
    plan, that plan was generated and validated with exactly the target the
    predictor returned. *)
Theorem muscle_gain_target_floor
    (model : profile -> option RoadmapGenerator.raw_prediction)
    (conv : ConversationManager.conversation) (c : catalog) :
  fitness_goal (ConversationManager.conv_profile conv) = Some "muscle_gain" ->
  gender (ConversationManager.conv_profile conv) = "female" ->
  (forall raw,
      (2200 <= RoadmapGenerator.target_calories
                 (RoadmapGenerator.predict (ConversationManager.conv_profile conv) raw))%Z
      /\ (2400 <= RoadmapGenerator.target_calories
                    (RoadmapGenerator.predict (ConversationManager.conv_profile conv) raw))%Z)
  /\ (forall conv' p r plan week c',
        ConversationManager._generate_plan model conv c
        = (conv', ConversationManager.PlanResponse p r plan week, c') ->
        (2200 <= RoadmapGenerator.target_calories r)%Z
        /\ (exists summary,
               FoodRecommender.generate_plan
                 (RoadmapGenerator.target_calories r) "muscle_gain"
                 (Some (dietary_restrictions (ConversationManager.conv_profile conv))) c
               = (FoodEngine.Success plan summary, c'))
        /\ fst (SafetyValidator.validate_meal_plan plan
                  (RoadmapGenerator.target_calories r)
                  (dietary_restrictions (ConversationManager.conv_profile conv))) = true).
Proof.
  intros Hg Hf.
  assert (F : forall raw,
             (2400 <= RoadmapGenerator.target_calories
                        (RoadmapGenerator.predict (ConversationManager.conv_profile conv) raw))%Z).
  { intros raw. cbn [RoadmapGenerator.predict RoadmapGenerator.target_calories].
    apply py_int_lower_bound; [lia |]. now apply muscle_gain_floor. }
  split.
  - intros raw. specialize (F raw). split; lia.
  - intros conv' p r plan week c' H.
    unfold ConversationManager._generate_plan in H.
    destruct (ConversationManager.missing_fields _); [| discriminate].
    destruct (model _) as [raw|]; [| discriminate].
    unfold ConversationManager.adapt_model2_to_model3 in H. rewrite Hg in H.
    destruct (FoodRecommender.generate_plan _ _ _ _) as [[plan0 s0 | d | ] c1] eqn:G;
      try discriminate.
    destruct (SafetyValidator.validate_meal_plan _ _ _) as [[|] errs] eqn:V;
      [| discriminate].
    injection H as _ _ <- <- _ <-.
    specialize (F raw). split; [lia |]. split; [now exists s0 |].
    now rewrite V.
Qed.

(** ** The engine's own validation *)

Lemma option_map_app_nil {A} (l : list A) (o : option (list A)) :
  option_map (app l) o = Some [] -> l = [] /\ o = Some [].
Proof.
  destruct o as [l'|]; simpl; [| discriminate].
  intros H. injection H as H. apply app_eq_nil in H. destruct H as [-> ->]. auto.
Qed.

Lemma check_protein_ok (p : meal_plan) :
  FoodEngine.check_protein p = Some [] ->
  forall mn m, In (mn, m) p -> In mn ["breakfast"; "lunch"; "dinner"] ->
               exists x, m_total_protein_g m = Some x /\ 20 <= x.
Proof.
  induction p as [|[k md] p IH]; intros H mn m Hin Hmain; [destruct Hin |].
  cbn [FoodEngine.check_protein] in H.
  destruct (str_in k FoodEngine.main_meals) eqn:K.
  - destruct (m_total_protein_g md) as [x|] eqn:Hx; [| discriminate].
    apply option_map_app_nil in H. destruct H as [Hl Hp].
    destruct Hin as [E | Hin]; [| now apply (IH Hp mn m)].
    injection E as <- <-. exists x. split; [assumption |].
    destruct (Qltb x FoodEngine.MIN_PROTEIN_PER_MEAL) eqn:L; [discriminate |].
    now apply Qltb_ge in L.
  - destruct Hin as [E | Hin]; [| now apply (IH H mn m)].
    injection E as <- <-. apply str_in_In in Hmain.
    unfold FoodEngine.main_meals in K. congruence.
Qed.

Lemma check_foods_ok (mn : string) (fs : list pfood) :
  FoodEngine.check_foods mn fs = Some [] ->
  forall f, In f fs -> exists q, pf_portion_g f = Some q /\ q <= 500.
Proof.
  induction fs as [|g fs IH]; intros H f Hin; [destruct Hin |].
  cbn [FoodEngine.check_foods] in H.
  destruct (pf_portion_g g) as [q|] eqn:Hq; [| discriminate].
  apply option_map_app_nil in H. destruct H as [Hl Hp].
  destruct Hin as [<- | Hin]; [| now apply IH].
  exists q. split; [assumption |].
  destruct (Qltb FoodEngine.MAX_PORTION q) eqn:L; [| now apply Qltb_ge in L].
  exfalso. rewrite orb_true_r in Hl. simpl in Hl.
  destruct (Qltb 50 q) eqn:L50; [discriminate |].
  apply Qltb_lt in L. apply Qltb_ge in L50. unfold FoodEngine.MAX_PORTION in L.
  apply (Qlt_irrefl q). apply Qle_lt_trans with 50; [assumption |].
  apply Qlt_trans with 500; [reflexivity | assumption].
Qed.

Lemma check_portions_ok (p : meal_plan) :
  FoodEngine.check_portions p = Some [] ->
  forall mn m, In (mn, m) p ->
               exists fs, m_foods m = Some fs
                          /\ forall f, In f fs -> exists q, pf_portion_g f = Some q /\ q <= 500.
Proof.
  induction p as [|[k md] p IH]; intros H mn m Hin; [destruct Hin |].
  cbn [FoodEngine.check_portions] in H.
  destruct (m_foods md) as [fs|] eqn:Hfs; [| discriminate].
  destruct (FoodEngine.check_foods k fs) as [e|] eqn:He; [| discriminate].
  apply option_map_app_nil in H. destruct H as [-> Hp].
  destruct Hin as [E | Hin]; [| now apply (IH Hp mn m)].
  injection E as <- <-. exists fs. split; [assumption |].
  now apply (check_foods_ok k).
Qed.

Lemma validate_safety_true (p : meal_plan) (rs : list string) (errs : list FoodEngine.safety_error) :
  FoodEngine._validate_safety p rs = Some (true, errs) ->
  FoodEngine.check_protein p = Some [] /\ FoodEngine.check_portions p = Some [].
Proof.
  unfold FoodEngine._validate_safety.
  destruct (FoodEngine.check_protein p) as [e1|]; [| discriminate].
  destruct (FoodEngine.check_portions p) as [e2|]; [| discriminate].
  destruct (e1 ++ e2) eqn:E; [| discriminate].
  apply app_eq_nil in E. destruct E as [-> ->]. auto.
Qed.

Lemma bind_Some_inv {A B} (m : M A) (k : A -> M B) (c c' : catalog) (b : B) :
  bind m k c = (Some b, c') ->
  exists a c1, m c = (Some a, c1) /\ k a c1 = (Some b, c').
Proof.
  unfold bind. destruct (m c) as [[a|] c1]; [| discriminate].
  intros H. now exists a, c1.
Qed.

Lemma ret_inv {A} (a b : A) (c c' : catalog) :
  ret a c = (Some b, c') -> a = b /\ c = c'.
Proof.
  unfold ret. intros H. now injection H as -> ->.
Qed.

(** The keys of a plan built over a distribution are the distribution's. *)
Lemma mapM_keys {A} (g : string * A -> M meal) (l : list (string * A))
    (c c' : catalog) (plan : meal_plan) :
  mapM (fun e => m <- g e ;; ret (fst e, m)) l c = (Some plan, c') ->
  map fst plan = map fst l.
Proof.
  revert c c' plan. induction l as [|e l IH]; intros c c' plan H; cbn [mapM] in H.
  - apply ret_inv in H. destruct H as [<- _]. reflexivity.
  - apply bind_Some_inv in H. destruct H as (b & c1 & Hb & H).
    apply bind_Some_inv in H. destruct H as (bs & c2 & Hbs & H).
    apply ret_inv in H. destruct H as [<- _].
    apply bind_Some_inv in Hb. destruct Hb as (m & c0 & _ & Hb).
    apply ret_inv in Hb. destruct Hb as [<- _].
    simpl. f_equal. exact (IH _ _ _ Hbs).
Qed.

(** What a successful run of [generate_plan] went through. *)
Lemma generate_plan_Success_inv (input : FoodEngine.model2_output) (c c' : catalog)
    (plan : meal_plan) (summary : FoodEngine.daily_summary) :
  FoodEngine.generate_plan input c = (FoodEngine.Success plan summary, c') ->
  exists daily errs,
    FoodEngine.calculate_macros (FoodEngine.target_calories input)
                                (FoodEngine.fitness_goal input) = Some daily
    /\ FoodEngine.build_plan (FoodEngine.target_calories input) daily
         (FoodEngine.dietary_restrictions input) c = (Some plan, c')
    /\ FoodEngine._validate_safety plan (FoodEngine.dietary_restrictions input)
       = Some (true, errs)
    /\ FoodEngine.ds_calories summary
       = round1 (FoodEngine.Qsum (map (fun e => m_total_calories (snd e)) plan))
    /\ ~ inject_Z (FoodEngine.target_calories input) == 0.
Proof.
  unfold FoodEngine.generate_plan, FoodEngine.generate_plan_body.
  destruct (FoodEngine.calculate_macros _ _) as [daily|]; [| discriminate].
  unfold bind at 1.
  destruct (FoodEngine.build_plan _ _ _ c) as [[pl|] c1] eqn:B; [| discriminate].
  destruct (FoodEngine.plan_proteins pl) as [proteins|]; [| discriminate].
  unfold bind, FoodEngine.py_div.
  destruct (Qeq_bool (inject_Z (FoodEngine.target_calories input)) 0) eqn:Z0;
    [discriminate |].
  unfold ret at 1.
  destruct (FoodEngine._validate_safety pl _) as [[[|] errs]|] eqn:V;
    unfold ret, raise; try discriminate.
  intros H. injection H as <- <- <-.
  exists daily, errs. repeat split; auto.
  intros E. apply Qeq_bool_iff in E. congruence.
Qed.

(** C10.  A plan returned with status success has passed [_validate_safety]:
    it has the four meals, each of breakfast, lunch and dinner totals at
    least 20 g protein, and no food portion exceeds 500 g; a plan that
    violates this is therefore not returned with status success. *)
Theorem success_passed_internal_validation
    (input : FoodEngine.model2_output) (c c' : catalog)
    (plan : meal_plan) (summary : FoodEngine.daily_summary) :
  FoodEngine.generate_plan input c = (FoodEngine.Success plan summary, c') ->
  map fst plan = ["breakfast"; "lunch"; "dinner"; "snack"]
  /\ (forall mn m, In (mn, m) plan -> In mn ["breakfast"; "lunch"; "dinner"] ->
                   exists x, m_total_protein_g m = Some x /\ 20 <= x)
  /\ (forall mn m, In (mn, m) plan ->
                   exists fs, m_foods m = Some fs
                              /\ forall f, In f fs ->
                                           exists q, pf_portion_g f = Some q /\ q <= 500).
Proof.
  intros H. apply generate_plan_Success_inv in H.
  destruct H as (daily & errs & _ & B & V & _).
  apply validate_safety_true in V. destruct V as [V1 V2].
  split; [| split].
  - unfold FoodEngine.build_plan in B. now apply mapM_keys in B.
  - now apply check_protein_ok.
  - now apply check_portions_ok.
Qed.

(** ** Step 5 of [build_meal] *)





(** ** Sorting in place and repeated calls *)

Section StableSort.

Context {A : Type} (lt : A -> A -> bool).
Hypothesis lt_asym : forall x y, lt x y = true -> lt y x = false.

Lemma insert_desc_sorted (x : A) (l : list A) :
  desc_sorted lt l -> desc_sorted lt (insert_desc lt x l).
Proof.
  induction l as [|y l IH]; intros Hs; [exact I |].
  cbn [insert_desc]. destruct (lt x y) eqn:Hxy.
  - destruct l as [|z l].
    + cbn. split; [now apply lt_asym | exact I].
    + destruct Hs as [Hyz Hs]. specialize (IH Hs).
      cbn [insert_desc] in *. destruct (lt x z) eqn:Hxz.
      * split; assumption.
      * split; [now apply lt_asym | assumption].
  - split; assumption.
Qed.

Lemma sort_desc_sorted (l : list A) : desc_sorted lt (sort_desc lt l).
Proof.
  induction l as [|x l IH]; [exact I |].
  apply insert_desc_sorted, IH.
Qed.

Lemma sort_desc_of_sorted (l : list A) : desc_sorted lt l -> sort_desc lt l = l.
Proof.
  induction l as [|x l IH]; intros Hs; [reflexivity |].
  unfold sort_desc in *. cbn [fold_right]. destruct l as [|y l]; [reflexivity |].
  destruct Hs as [Hxy Hs]. rewrite (IH Hs). cbn [insert_desc]. now rewrite Hxy.
Qed.

(** Sorting an already sorted list changes nothing. *)
Lemma sort_desc_idempotent (l : list A) :
  sort_desc lt (sort_desc lt l) = sort_desc lt l.
Proof.
  apply sort_desc_of_sorted, sort_desc_sorted.
Qed.

Lemma sort_desc_nil_inv (l : list A) : sort_desc lt l = [] -> l = [].
Proof.
  destruct l as [|x l]; [reflexivity |].
  unfold sort_desc. cbn [fold_right].
  destruct (fold_right (insert_desc lt) [] l) as [|y r]; cbn [insert_desc];
    [discriminate |].
  destruct (lt x y); discriminate.
Qed.

End StableSort.

Lemma Qltb_asym (x y : Q) : Qltb x y = true -> Qltb y x = false.
Proof.
  rewrite Qltb_lt, Qltb_ge. apply Qlt_le_weak.
Qed.

Lemma bool_ltb_asym (a b : bool) : bool_ltb a b = true -> bool_ltb b a = false.
Proof.
  destruct a, b; cbn; congruence.
Qed.

Lemma pair_ltb_asym (k1 k2 : bool * Q) : pair_ltb k1 k2 = true -> pair_ltb k2 k1 = false.
Proof.
  destruct k1 as [a x], k2 as [b y]. unfold pair_ltb. cbn [fst snd].
  destruct a, b; cbn; try congruence; apply Qltb_asym.
Qed.

Lemma protein_lt_asym (x y : food) :
  FoodEngine.protein_lt x y = true -> FoodEngine.protein_lt y x = false.
Proof. apply Qltb_asym. Qed.

Lemma veg_lt_asym (x y : food) :
  FoodEngine.veg_lt x y = true -> FoodEngine.veg_lt y x = false.
Proof. apply pair_ltb_asym. Qed.

Lemma fat_lt_asym (x y : food) :
  FoodEngine.fat_lt x y = true -> FoodEngine.fat_lt y x = false.
Proof. apply bool_ltb_asym. Qed.

Section Good.

Variable R : catalog -> catalog -> Prop.
Hypothesis R_refl : forall c, R c c.
Hypothesis R_sym : forall c c', R c c' -> R c' c.
Hypothesis R_trans : forall c1 c2 c3, R c1 c2 -> R c2 c3 -> R c1 c3.

Lemma good_ret {A} (a : A) : good R (ret a).
Proof. split; [reflexivity | intros c; apply R_refl]. Qed.

Lemma good_raise {A} : good R (@raise A).
Proof. split; [reflexivity | intros c; apply R_refl]. Qed.

Lemma good_bind {A B} (m : M A) (k : A -> M B) :
  good R m -> (forall a, good R (k a)) -> good R (bind m k).
Proof.
  intros [Hm1 Hm2] Hk. split.
  - intros c c' HR. unfold bind.
    pose proof (Hm1 c c' HR) as E. pose proof (Hm2 c) as S1. pose proof (Hm2 c') as S2.
    destruct (m c) as [oa c1], (m c') as [oa' c1']. cbn [fst snd] in *. subst oa'.
    destruct oa as [a|]; [| reflexivity].
    apply (Hk a). apply R_trans with c; [assumption |].
    apply R_trans with c'; [assumption | now apply R_sym].
  - intros c. unfold bind. pose proof (Hm2 c) as S1.
    destruct (m c) as [[a|] c1]; cbn [fst snd] in *; [| assumption].
    apply R_trans with c1; [apply (Hk a) | assumption].
Qed.

Lemma good_py_div (x y : Q) : good R (FoodEngine.py_div x y).
Proof.
  unfold FoodEngine.py_div. destruct (Qeq_bool y 0); [apply good_raise | apply good_ret].
Qed.

Lemma good_mapM {A B} (f : A -> M B) (l : list A) :
  (forall a, good R (f a)) -> good R (mapM f l).
Proof.
  intros Hf. induction l as [|a l IH]; cbn [mapM]; [apply good_ret |].
  apply good_bind; [apply Hf |]. intros b.
  apply good_bind; [apply IH |]. intros bs. apply good_ret.
Qed.

Variable restrictions : list string.

Hypothesis good_protein :
  good R (FoodEngine.filter_and_sort "protein" FoodEngine.protein_lt restrictions).
Hypothesis good_vegetable :
  good R (FoodEngine.filter_and_sort "vegetable" FoodEngine.veg_lt restrictions).
Hypothesis good_fat :
  good R (FoodEngine.filter_and_sort "fat" FoodEngine.fat_lt restrictions).
Hypothesis good_grains :
  good R (FoodEngine.filter_and_sort_grains FoodEngine.grain_lt restrictions).

Lemma good_select_foods (mp mc mf : Q) :
  good R (FoodEngine.select_foods mp mc mf restrictions).
Proof.
  unfold FoodEngine.select_foods.
  apply good_bind.
  { unfold FoodEngine.step_protein. apply good_bind; [exact good_protein |].
    intros [|best l]; [apply good_ret |].
    apply good_bind; [apply good_py_div | intros q; apply good_ret]. }
  intros a1. apply good_bind.
  { unfold FoodEngine.step_grain. apply good_bind; [exact good_grains |].
    intros [|best l]; [apply good_ret |].
    apply good_bind; [apply good_py_div | intros q; apply good_ret]. }
  intros a2. apply good_bind.
  { unfold FoodEngine.step_vegetable. apply good_bind; [exact good_vegetable |].
    intros [|best l]; apply good_ret. }
  intros a3. unfold FoodEngine.step_fat.
  destruct (Qltb _ _); [| apply good_ret].
  apply good_bind; [exact good_fat |].
  intros [|best l]; [apply good_ret |].
  apply good_bind; [apply good_py_div | intros q; apply good_ret].
Qed.

Lemma good_build_meal (meal_calories : Z) (mp mc mf : Q) :
  good R (FoodEngine.build_meal meal_calories mp mc mf restrictions).
Proof.
  unfold FoodEngine.build_meal.
  apply good_bind; [apply good_select_foods | intros a; apply good_ret].
Qed.

Lemma good_generate_plan_body (input : FoodEngine.model2_output) :
  FoodEngine.dietary_restrictions input = restrictions ->
  good R (FoodEngine.generate_plan_body input).
Proof.
  intros Hrs. unfold FoodEngine.generate_plan_body. rewrite Hrs.
  destruct (FoodEngine.calculate_macros _ _) as [daily|]; [| apply good_raise].
  apply good_bind.
  { unfold FoodEngine.build_plan. apply good_mapM. intros e.
    apply good_bind; [apply good_build_meal | intros m; apply good_ret]. }
  intros plan. destruct (FoodEngine.plan_proteins plan); [| apply good_raise].
  apply good_bind; [apply good_py_div |]. intros ratio.
  destruct (FoodEngine._validate_safety plan restrictions) as [[[|] errs]|];
    [apply good_ret | apply good_ret | apply good_raise].
Qed.

End Good.

(** With restrictions the filter builds a fresh list: the catalog is not
    touched. *)
Lemma filter_and_sort_fresh (k : string) (lt : food -> food -> bool) (rs : list string) :
  FoodEngine.returns_input_list rs = false ->
  good eq (FoodEngine.filter_and_sort k lt rs).
Proof.
  intros H. split; [now intros c c' -> |].
  intros c. unfold FoodEngine.filter_and_sort. rewrite H.
  now destruct (FoodEngine._filter_by_restrictions _ rs).
Qed.

Lemma filter_and_sort_grains_fresh (R : catalog -> catalog -> Prop)
    (lt : food -> food -> bool) (rs : list string) :
  (forall c, R c c) ->
  (forall c c', R c c' -> c !! "grain" = c' !! "grain" /\ c !! "carb" = c' !! "carb") ->
  good R (FoodEngine.filter_and_sort_grains lt rs).
Proof.
  intros Hrefl HR. split.
  - intros c c' H. destruct (HR c c' H) as [E1 E2].
    unfold FoodEngine.filter_and_sort_grains. cbn [fst]. now rewrite E1, E2.
  - intros c. apply Hrefl.
Qed.

(** Without restrictions the filter returns the catalog's own list, and the
    sort reorders it inside the catalog. *)
Lemma filter_and_sort_aliased (k : string) (lt : food -> food -> bool)
    (rs : list string) (c : catalog) :
  FoodEngine.returns_input_list rs = true ->
  fst (FoodEngine.filter_and_sort k lt rs c) = Some (sort_desc lt (default [] (c !! k)))
  /\ default [] (snd (FoodEngine.filter_and_sort k lt rs c) !! k)
     = sort_desc lt (default [] (c !! k))
  /\ (forall k', k' <> k -> snd (FoodEngine.filter_and_sort k lt rs c) !! k' = c !! k').
Proof.
  intros H. unfold FoodEngine.filter_and_sort, FoodEngine._filter_by_restrictions.
  rewrite H. destruct (default [] (c !! k)) as [|x l] eqn:E; cbn [fst snd].
  - rewrite E. repeat split.
  - rewrite lookup_insert_eq. repeat split.
    intros k' Hne. now apply lookup_insert_ne.
Qed.

Lemma same_view_sort_in_place (k : string) (lt : food -> food -> bool)
    (rs : list string) :
  (forall x y, lt x y = true -> lt y x = false) ->
  FoodEngine.returns_input_list rs = true ->
  (forall c c', same_view c c' ->
                sort_desc lt (default [] (c !! k)) = sort_desc lt (default [] (c' !! k))) ->
  (forall c c1, default [] (c1 !! k) = sort_desc lt (default [] (c !! k)) ->
                (forall k', k' <> k -> c1 !! k' = c !! k') -> same_view c1 c) ->
  good same_view (FoodEngine.filter_and_sort k lt rs).
Proof.
  intros Hasym Hrs Hread Hwrite. split.
  - intros c c' HR.
    destruct (filter_and_sort_aliased k lt rs c Hrs) as (-> & _ & _).
    destruct (filter_and_sort_aliased k lt rs c' Hrs) as (-> & _ & _).
    f_equal. now apply Hread.
  - intros c. destruct (filter_and_sort_aliased k lt rs c Hrs) as (_ & Hk & Hother).
    now apply Hwrite.
Qed.

Lemma good_protein_unrestricted (rs : list string) :
  FoodEngine.returns_input_list rs = true ->
  good same_view (FoodEngine.filter_and_sort "protein" FoodEngine.protein_lt rs).
Proof.
  intros Hrs. apply same_view_sort_in_place; [apply protein_lt_asym | exact Hrs | |].
  - intros c c' H. unfold same_view, view in H. now injection H.
  - intros c c1 Hk Hother. unfold same_view, view.
    rewrite Hk, (sort_desc_idempotent _ protein_lt_asym).
    now rewrite !Hother by discriminate.
Qed.

Lemma good_vegetable_unrestricted (rs : list string) :
  FoodEngine.returns_input_list rs = true ->
  good same_view (FoodEngine.filter_and_sort "vegetable" FoodEngine.veg_lt rs).
Proof.
  intros Hrs. apply same_view_sort_in_place; [apply veg_lt_asym | exact Hrs | |].
  - intros c c' H. unfold same_view, view in H. now injection H.
  - intros c c1 Hk Hother. unfold same_view, view.
    rewrite Hk, (sort_desc_idempotent _ veg_lt_asym).
    now rewrite !Hother by discriminate.
Qed.

Lemma good_fat_unrestricted (rs : list string) :
  FoodEngine.returns_input_list rs = true ->
  good same_view (FoodEngine.filter_and_sort "fat" FoodEngine.fat_lt rs).
Proof.
  intros Hrs. apply same_view_sort_in_place; [apply fat_lt_asym | exact Hrs | |].
  - intros c c' H. unfold same_view, view in H. now injection H.
  - intros c c1 Hk Hother. unfold same_view, view.
    rewrite Hk, (sort_desc_idempotent _ fat_lt_asym).
    now rewrite !Hother by discriminate.
Qed.

Lemma same_view_grains (c c' : catalog) :
  same_view c c' ->
  default [] (c !! "grain") ++ default [] (c !! "carb")
  = default [] (c' !! "grain") ++ default [] (c' !! "carb").
Proof.
  intros H. unfold same_view, view in H. injection H as _ -> -> _ _. reflexivity.
Qed.

Lemma good_grains_unrestricted (rs : list string) :
  good same_view (FoodEngine.filter_and_sort_grains FoodEngine.grain_lt rs).
Proof.
  split; [| reflexivity].
  intros c c' H. unfold FoodEngine.filter_and_sort_grains. cbn [fst].
  now rewrite (same_view_grains c c' H).
Qed.

(** Every run of the engine body is insensitive to the reordering that
    earlier runs may have left in the catalog. *)
Lemma generate_plan_body_good (input : FoodEngine.model2_output) :
  (FoodEngine.returns_input_list (FoodEngine.dietary_restrictions input) = true
   /\ good same_view (FoodEngine.generate_plan_body input))
  \/ (FoodEngine.returns_input_list (FoodEngine.dietary_restrictions input) = false
      /\ good eq (FoodEngine.generate_plan_body input)).
Proof.
  destruct (FoodEngine.returns_input_list (FoodEngine.dietary_restrictions input)) eqn:Hrs.
  - left. split; [reflexivity |].
    apply (good_generate_plan_body same_view) with (restrictions := FoodEngine.dietary_restrictions input);
      unfold same_view; try congruence.
    + now apply good_protein_unrestricted.
    + now apply good_vegetable_unrestricted.
    + now apply good_fat_unrestricted.
    + apply good_grains_unrestricted.
  - right. split; [reflexivity |].
    apply (good_generate_plan_body eq) with (restrictions := FoodEngine.dietary_restrictions input);
      try congruence.
    + now apply filter_and_sort_fresh.
    + now apply filter_and_sort_fresh.
    + now apply filter_and_sort_fresh.
    + apply filter_and_sort_grains_fresh; [reflexivity | now intros c c' ->].
Qed.

Lemma generate_plan_fst_snd (input : FoodEngine.model2_output) (c : catalog) :
  FoodEngine.generate_plan input c
  = (match fst (FoodEngine.generate_plan_body input c) with
     | Some r => r
     | None => FoodEngine.Raised
     end,
     snd (FoodEngine.generate_plan_body input c)).
Proof.
  unfold FoodEngine.generate_plan.
  now destruct (FoodEngine.generate_plan_body input c) as [[r|] c'].
Qed.

(** Calling [generate_plan] again with the same input, on the catalog as the
    first call left it, returns the same result. *)
Theorem generate_plan_repeatable (input : FoodEngine.model2_output) (c : catalog) :
  fst (FoodEngine.generate_plan input (snd (FoodEngine.generate_plan input c)))
  = fst (FoodEngine.generate_plan input c).
Proof.
  rewrite !generate_plan_fst_snd. cbn [fst snd].
  destruct (generate_plan_body_good input) as [[_ [H1 H2]] | [_ [H1 H2]]].
  - now rewrite (H1 _ c (H2 c)).
  - now rewrite (H2 c).
Qed.

(** With restrictions (other than the list holding only none) the engine
    leaves the catalog as it found it. *)
Theorem generate_plan_restricted_leaves_catalog
    (input : FoodEngine.model2_output) (c : catalog) :
  FoodEngine.returns_input_list (FoodEngine.dietary_restrictions input) = false ->
  snd (FoodEngine.generate_plan input c) = c.
Proof.
  intros Hrs. rewrite generate_plan_fst_snd. cbn [snd].
  destruct (generate_plan_body_good input) as [[E _] | [_ [_ H2]]]; [congruence |].
  apply H2.
Qed.

(** C4 fails on the code for unrestricted inputs.  On the sample catalog,
    whose protein list is eggs, chicken breast, tofu, the breakfast call that
    [generate_plan] makes for 1200 kcal, weight_loss, no restrictions leaves
    the catalog's protein list as chicken breast, eggs, tofu: [build_meal]
    has sorted the shared list in place. *)
Theorem build_meal_reorders_shared_catalog :
  let c1 := snd (FoodEngine.build_meal 300 (105 # 4) 30 (333 # 40) [] sample_catalog) in
  map f_id (default [] (sample_catalog !! "protein")) = ["eggs"; "chicken_breast"; "tofu"]
  /\ map f_id (default [] (c1 !! "protein")) = ["chicken_breast"; "eggs"; "tofu"]
  /\ c1 <> sample_catalog.
Proof.
  cbv zeta.
  assert (A : map f_id (default [] (sample_catalog !! "protein"))
              = ["eggs"; "chicken_breast"; "tofu"]) by (vm_compute; reflexivity).
  assert (B : map f_id (default [] (snd (FoodEngine.build_meal 300 (105 # 4) 30 (333 # 40) []
                                           sample_catalog) !! "protein"))
              = ["chicken_breast"; "eggs"; "tofu"]) by (vm_compute; reflexivity).
  split; [exact A |]. split; [exact B |].
  intros E. rewrite E in B. rewrite A in B. discriminate B.
Qed.

(** ** Calorie accuracy of a plan *)


Lemma Qabs_le_iff (x y : Q) : Qabs x <= y <-> - y <= x /\ x <= y.
Proof. apply Qabs_Qle_condition. Qed.

Lemma round_half_even_close (x : Q) :
  Qabs (inject_Z (round_half_even x) - x) <= 1 # 2.
Proof.
  apply Qabs_le_iff. unfold round_half_even.
  pose proof (Qfloor_le x) as Hlo. pose proof (Qlt_floor x) as Hhi.
  rewrite inject_Z_plus in Hhi. change (inject_Z 1) with 1 in Hhi.
  set (f := Qfloor x) in *.
  destruct (Qltb (x - inject_Z f) (1 # 2)) eqn:L1.
  - apply Qltb_lt in L1. split; lra.
  - apply Qltb_ge in L1. destruct (Qltb (1 # 2) (x - inject_Z f)) eqn:L2.
    + apply Qltb_lt in L2. rewrite inject_Z_plus. change (inject_Z 1) with 1. split; lra.
    + apply Qltb_ge in L2. destruct (Z.even f).
      * split; lra.
      * rewrite inject_Z_plus. change (inject_Z 1) with 1. split; lra.
Qed.

Lemma round1_close (x : Q) : Qabs (round1 x - x) <= 1 # 20.
Proof.
  unfold round1. rewrite Qred_correct.
  pose proof (round_half_even_close (x * 10)) as H.
  apply Qabs_le_iff in H. apply Qabs_le_iff.
  set (z := inject_Z (round_half_even (x * 10))) in *.
  destruct H as [H1 H2]. split.
  - apply Qle_minus_iff. apply Qle_minus_iff in H1.
    assert (E : z / 10 - x + - - (1 # 20) == (z - x * 10 + - - (1 # 2)) / 10) by field.
    rewrite E. apply Qle_shift_div_l; [reflexivity | lra].
  - apply Qle_minus_iff. apply Qle_minus_iff in H2.
    assert (E : (1 # 20) + - (z / 10 - x) == ((1 # 2) + - (z - x * 10)) / 10) by field.
    rewrite E. apply Qle_shift_div_l; [reflexivity | lra].
Qed.




Lemma sum_calories_app (fs gs : list pfood) :
  sum_calories (fs ++ gs) == sum_calories fs + sum_calories gs.
Proof.
  unfold sum_calories. induction fs as [|f fs IH]; cbn [app fold_right].
  - ring.
  - rewrite IH. ring.
Qed.

Lemma recalculate_from (fs : list pfood) (t : FoodEngine.nutrition) :
  FoodEngine.n_calories
    (fold_left (fun t f => FoodEngine.add_nutrition t (FoodEngine.food_nutrition f)) fs t)
  == FoodEngine.n_calories t + sum_calories fs.
Proof.
  unfold sum_calories. revert t.
  induction fs as [|f fs IH]; intros t; cbn [fold_left fold_right].
  - ring.
  - rewrite IH. cbn [FoodEngine.add_nutrition FoodEngine.food_nutrition FoodEngine.n_calories].
    ring.
Qed.

Lemma recalculate_calories (fs : list pfood) :
  FoodEngine.n_calories (FoodEngine.recalculate fs) == sum_calories fs.
Proof.
  unfold FoodEngine.recalculate. rewrite recalculate_from.
  cbn [FoodEngine.zero_nutrition FoodEngine.n_calories]. ring.
Qed.

Lemma acc_ok_weaken (n m : nat) (a : FoodEngine.acc) :
  (n <= m)%nat -> acc_ok n a -> acc_ok m a.
Proof.
  intros Hnm [H1 H2]. split; [lia | exact H2].
Qed.

Lemma acc_ok_select (n : nat) (f : food) (portion : Q) (a : FoodEngine.acc) :
  acc_ok n a -> acc_ok (S n) (FoodEngine.select f portion a).
Proof.
  intros [H1 H2]. unfold FoodEngine.select, acc_ok. cbn [fst snd]. split.
  - rewrite length_app. cbn [List.length]. lia.
  - rewrite sum_calories_app. unfold sum_calories at 2.
    cbn [fold_right pf_calories FoodEngine.add_nutrition FoodEngine.n_calories].
    rewrite H2. ring.
Qed.

Lemma acc_ok_step_protein (n : nat) (mp : Q) (rs : list string)
    (a a' : FoodEngine.acc) (c c' : catalog) :
  FoodEngine.step_protein mp rs a c = (Some a', c') ->
  acc_ok n a -> acc_ok (S n) a'.
Proof.
  unfold FoodEngine.step_protein. intros H Ha.
  apply bind_Some_inv in H. destruct H as ([|best l] & c1 & _ & H).
  - apply ret_inv in H. destruct H as [<- _]. now apply acc_ok_weaken with n; [lia |].
  - apply bind_Some_inv in H. destruct H as (q & c2 & _ & H).
    apply ret_inv in H. destruct H as [<- _]. now apply acc_ok_select.
Qed.

Lemma acc_ok_step_grain (n : nat) (mc : Q) (rs : list string)
    (a a' : FoodEngine.acc) (c c' : catalog) :
  FoodEngine.step_grain mc rs a c = (Some a', c') ->
  acc_ok n a -> acc_ok (S n) a'.
Proof.
  unfold FoodEngine.step_grain. intros H Ha.
  apply bind_Some_inv in H. destruct H as ([|best l] & c1 & _ & H).
  - apply ret_inv in H. destruct H as [<- _]. now apply acc_ok_weaken with n; [lia |].
  - apply bind_Some_inv in H. destruct H as (q & c2 & _ & H).
    apply ret_inv in H. destruct H as [<- _]. now apply acc_ok_select.
Qed.

Lemma acc_ok_step_vegetable (n : nat) (rs : list string)
    (a a' : FoodEngine.acc) (c c' : catalog) :
  FoodEngine.step_vegetable rs a c = (Some a', c') ->
  acc_ok n a -> acc_ok (S n) a'.
Proof.
  unfold FoodEngine.step_vegetable. intros H Ha.
  apply bind_Some_inv in H. destruct H as ([|best l] & c1 & _ & H).
  - apply ret_inv in H. destruct H as [<- _]. now apply acc_ok_weaken with n; [lia |].
  - apply ret_inv in H. destruct H as [<- _]. now apply acc_ok_select.
Qed.

Lemma acc_ok_step_fat (n : nat) (mf : Q) (rs : list string)
    (a a' : FoodEngine.acc) (c c' : catalog) :
  FoodEngine.step_fat mf rs a c = (Some a', c') ->
  acc_ok n a -> acc_ok (S n) a'.
Proof.
  unfold FoodEngine.step_fat. intros H Ha.
  destruct (Qltb _ _).
  - apply bind_Some_inv in H. destruct H as ([|best l] & c1 & _ & H).
    + apply ret_inv in H. destruct H as [<- _]. now apply acc_ok_weaken with n; [lia |].
    + apply bind_Some_inv in H. destruct H as (q & c2 & _ & H).
      apply ret_inv in H. destruct H as [<- _]. now apply acc_ok_select.
  - apply ret_inv in H. destruct H as [<- _]. now apply acc_ok_weaken with n; [lia |].
Qed.

(** After steps 1 to 4 at most four foods are selected and the running
    calorie total is their sum. *)
Lemma select_foods_acc_ok (mp mc mf : Q) (rs : list string)
    (a : FoodEngine.acc) (c c' : catalog) :
  FoodEngine.select_foods mp mc mf rs c = (Some a, c') -> acc_ok 4 a.
Proof.
  unfold FoodEngine.select_foods. intros H.
  apply bind_Some_inv in H. destruct H as (a1 & c1 & H1 & H).
  apply bind_Some_inv in H. destruct H as (a2 & c2 & H2 & H).
  apply bind_Some_inv in H. destruct H as (a3 & c3 & H3 & H).
  eapply acc_ok_step_fat; [exact H |].
  eapply acc_ok_step_vegetable; [exact H3 |].
  eapply acc_ok_step_grain; [exact H2 |].
  eapply acc_ok_step_protein; [exact H1 |].
  split; [cbn; lia | reflexivity].
Qed.





Lemma py_int_bounds (x : Q) :
  0 <= x ->
  (0 <= py_int x)%Z /\ inject_Z (py_int x) <= x /\ x < inject_Z (py_int x) + 1.
Proof.
  intros Hx. unfold py_int. pose proof Hx as Hb. apply Qle_bool_iff in Hb. rewrite Hb.
  pose proof (Qfloor_le x) as Hlo. pose proof (Qlt_floor x) as Hhi.
  rewrite inject_Z_plus in Hhi. change (inject_Z 1) with 1 in Hhi.
  repeat split; auto.
  change 0%Z with (Qfloor 0). now apply Qfloor_resp_le.
Qed.


(** ** The properties on concrete runs *)

Lemma validate_meal_plan_allergen_exclusion_witness :
  fst (SafetyValidator.validate_meal_plan lunch_with_peanuts 2000 ["vegetarian"; "peanuts"])
  = false.
Proof.
  apply (proj1 (validate_meal_plan_allergen_exclusion
                  lunch_with_peanuts 2000 ["vegetarian"; "peanuts"])).
  exists "lunch", peanut_sauce. split.
  - eexists. exists [plain_rice; peanut_sauce].
    split; [left; reflexivity |]. split; [discriminate |].
    split; [reflexivity |]. right; left; reflexivity.
  - exists "peanuts". split; [right; left; reflexivity | left; reflexivity].
Defined.

Lemma validate_meal_plan_gates_witness :
  SafetyValidator.validate_meal_plan lunch_with_peanuts 2000 ["peanuts"]
  = (false, [SafetyValidator.AllergenViolation "Peanut Sauce" "lunch"]).
Proof.
  apply (proj1 (validate_meal_plan_gates lunch_with_peanuts 2000 ["peanuts"])
               [("lunch", plain_rice)] "lunch" peanut_sauce []).
  - reflexivity.
  - intros e [<- | []] (r & [<- | []] & Hr). destruct Hr.
  - exists "peanuts". split; left; reflexivity.
Defined.

Lemma reset_reinitialises_profile_witness :
  ConversationManager.current_state
    (fst (fst (ConversationManager._handle_state constant_model ready_conversation
                 "  Start Over " sample_catalog)))
  = ConversationManager.STATE_GREETING.
Proof.
  apply (reset_reinitialises_profile constant_model ready_conversation
                                     "  Start Over " sample_catalog).
  vm_compute. right; right; left; reflexivity.
Defined.


Lemma muscle_gain_target_floor_witness :
  exists conv' p r plan week c',
    ConversationManager._generate_plan constant_model ready_conversation sample_catalog
    = (conv', ConversationManager.PlanResponse p r plan week, c')
    /\ (2200 <= RoadmapGenerator.target_calories r)%Z.
Proof.
  let v := eval vm_compute in
    (ConversationManager._generate_plan constant_model ready_conversation sample_catalog) in
  match v with
  | (?conv', ConversationManager.PlanResponse ?p ?r ?plan ?week, ?c') =>
      exists conv', p, r, plan, week, c';
      assert (E : ConversationManager._generate_plan constant_model ready_conversation
                    sample_catalog
                  = (conv', ConversationManager.PlanResponse p r plan week, c'))
        by (vm_compute; reflexivity);
      split; [exact E |];
      exact (proj1 (proj2 (muscle_gain_target_floor constant_model ready_conversation
                             sample_catalog eq_refl eq_refl)
                          conv' p r plan week c' E))
  end.
Defined.

Lemma stale_conversation_returns_to_greeting_witness :
  ConversationManager.current_state
    (fst (ConversationManager.get_user_conversation "user_1" 691200000000
            {[ "user_1" := ready_conversation ]}))
  = ConversationManager.STATE_GREETING.
Proof.
  apply (stale_conversation_returns_to_greeting "user_1" 691200000000
           {[ "user_1" := ready_conversation ]} ready_conversation).
  - apply lookup_singleton_eq.
  - reflexivity.
Defined.

Lemma success_passed_internal_validation_witness :
  exists plan summary c',
    FoodEngine.generate_plan (engine_input 2400 "muscle_gain" []) sample_catalog
    = (FoodEngine.Success plan summary, c')
    /\ map fst plan = ["breakfast"; "lunch"; "dinner"; "snack"]
    /\ forall mn m, In (mn, m) plan -> In mn ["breakfast"; "lunch"; "dinner"] ->
                    exists x, m_total_protein_g m = Some x /\ 20 <= x.
Proof.
  let v := eval vm_compute in
    (FoodEngine.generate_plan (engine_input 2400 "muscle_gain" []) sample_catalog) in
  match v with
  | (FoodEngine.Success ?plan ?summary, ?c') =>
      exists plan, summary, c';
      assert (E : FoodEngine.generate_plan (engine_input 2400 "muscle_gain" []) sample_catalog
                  = (FoodEngine.Success plan summary, c'))
        by (vm_compute; reflexivity);
      split; [exact E |];
      destruct (success_passed_internal_validation _ _ _ _ _ E) as (K & P & _);
      split; [exact K | exact P]
  end.
Defined.



(** ** The definitions on small inputs *)

Example extract_number_decimal_with_unit :
  ConversationManager._extract_number "I weigh 70.5 kg" = Some (141 # 2).
Proof. reflexivity. Qed.

Example extract_number_word : ConversationManager._extract_number "seventy" = None.
Proof. reflexivity. Qed.

Example extract_number_age : ConversationManager._extract_number "25 years old" = Some 25.
Proof. reflexivity. Qed.

Example match_keyword_first_category_wins :
  ConversationManager._match_keyword "Very Active" ConversationManager.ACTIVITY_LEVELS
  = Some "moderate".
Proof. reflexivity. Qed.

Example round1_half_to_even : round1 (1 # 4) = 1 # 5 /\ round1 (3 # 4) = 4 # 5.
Proof. split; reflexivity. Qed.

Example sort_desc_is_stable :
  map f_id (sort_desc FoodEngine.fat_lt (default [] (sample_catalog !! "fat")))
  = ["olive_oil"; "almonds"].
Proof. vm_compute. reflexivity. Qed.

Example filter_vegan_no_soy :
  map f_id (FoodEngine._filter_by_restrictions sample_foods ["vegan"; "no_soy"])
  = ["white_rice"; "brown_rice"; "oats"; "carrot"; "broccoli"; "almonds"; "olive_oil"].
Proof. reflexivity. Qed.

(** The onboarding dialogue of a vegetarian user who wants to gain muscle
    ends with the plan shown and the restriction stored. *)
Example onboarding_dialogue_reaches_plan :
  option_map
    (fun conv => (ConversationManager.current_state conv,
                  dietary_restrictions (ConversationManager.conv_profile conv)))
    (fst (run_dialogue "user_1"
            ["hi"; "gain muscle"; "70"; "170"; "25"; "veg"; "moderate"]
            sample_catalog) !! "user_1")
  = Some (ConversationManager.STATE_SHOWING_ROADMAP, ["vegetarian"]).
Proof. vm_compute. reflexivity. Qed.

(** * Further properties *)

(** ** The catalog index *)

Lemma organize_fold (foods : list food) (acc : catalog) (k : string) :
  fold_left (fun categories f =>
               <[f_category f := default [] (categories !! f_category f) ++ [f]]>
                 categories) foods acc !! k
  = match List.filter (fun f => String.eqb (f_category f) k) foods with
    | [] => acc !! k
    | l => Some (default [] (acc !! k) ++ l)
    end.
Proof.
  revert acc. induction foods as [|f fs IH]; intros acc; [reflexivity |].
  cbn [fold_left List.filter]. rewrite IH.
  destruct (String.eqb_spec (f_category f) k) as [E | N].
  - rewrite E, lookup_insert_eq.
    destruct (List.filter _ fs) as [|g l]; [reflexivity |].
    simpl. now rewrite <- app_assoc.
  - now rewrite lookup_insert_ne.
Qed.

(** X1.  The index built at start-up maps every category that occurs in the
    database to its foods, in database order, and has no other key. *)
Theorem organize_by_category_lookup (foods : list food) (k : string) :
  FoodEngine._organize_by_category foods !! k
  = match List.filter (fun f => String.eqb (f_category f) k) foods with
    | [] => None
    | l => Some l
    end.
Proof.
  unfold FoodEngine._organize_by_category. rewrite organize_fold.
  rewrite lookup_empty. now destruct (List.filter _ foods).
Qed.

(** ** Daily macros *)

(** In exact arithmetic: the three roundings to one decimal move the
    energy by at most 4 * 0.05 + 4 * 0.05 + 9 * 0.05 kcal. *)
Lemma calculate_macros_energy_exact (calories : Z) (goal : string) :
  (FoodEngine.calculate_macros calories goal = None <->
   ~ In goal ["weight_loss"; "muscle_gain"; "maintenance"])
  /\ (forall d, FoodEngine.calculate_macros calories goal = Some d ->
                Qabs (4 * FoodEngine.protein_g d + 4 * FoodEngine.carbs_g d
                      + 9 * FoodEngine.fat_g d - inject_Z calories) <= 17 # 20).
Proof.
  unfold FoodEngine.calculate_macros, FoodEngine.MACRO_RATIOS, FoodEngine.assoc.
  set (t := inject_Z calories).
  assert (B : forall rp rc rf,
             rp + rc + rf == 1 ->
             Qabs (4 * round1 (t * rp / 4) + 4 * round1 (t * rc / 4)
                   + 9 * round1 (t * rf / 9) - t) <= 17 # 20).
  { intros rp rc rf Hs.
    pose proof (round1_close (t * rp / 4)) as R1.
    pose proof (round1_close (t * rc / 4)) as R2.
    pose proof (round1_close (t * rf / 9)) as R3.
    apply Qabs_le_iff in R1, R2, R3. apply Qabs_le_iff.
    assert (E : t == 4 * (t * rp / 4) + 4 * (t * rc / 4) + 9 * (t * rf / 9)).
    { transitivity (t * (rp + rc + rf)); [rewrite Hs; ring | field]. }
    destruct R1, R2, R3. split; lra. }
  destruct (String.eqb_spec goal "weight_loss") as [-> | N1].
  { split.
    - split; [discriminate | intros H; exfalso; apply H; now left].
    - intros d [= <-]. cbn [FoodEngine.protein_g FoodEngine.carbs_g FoodEngine.fat_g
                              FoodEngine.r_protein FoodEngine.r_carbs FoodEngine.r_fat].
      now apply B. }
  destruct (String.eqb_spec goal "muscle_gain") as [-> | N2].
  { split.
    - split; [discriminate | intros H; exfalso; apply H; right; now left].
    - intros d [= <-]. cbn [FoodEngine.protein_g FoodEngine.carbs_g FoodEngine.fat_g
                              FoodEngine.r_protein FoodEngine.r_carbs FoodEngine.r_fat].
      now apply B. }
  destruct (String.eqb_spec goal "maintenance") as [-> | N3].
  { split.
    - split; [discriminate | intros H; exfalso; apply H; right; right; now left].
    - intros d [= <-]. cbn [FoodEngine.protein_g FoodEngine.carbs_g FoodEngine.fat_g
                              FoodEngine.r_protein FoodEngine.r_carbs FoodEngine.r_fat].
      now apply B. }
  split; [| discriminate].
  split; [| reflexivity].
  intros _ [H | [H | [H | []]]]; congruence.
Qed.

(** X2.  For a calorie target of at most a million in absolute value,
    [calculate_macros] raises exactly for a goal outside the three keys;
    otherwise the calories of the macros it returns (4, 4 and 9 kcal per
    gram) are within 0.9 kcal of the calorie target. *)
Theorem calculate_macros_energy (calories : Z) (goal : string) :
  (Z.abs calories <= 1000000)%Z ->
  (FoodEngine.calculate_macros calories goal = None <->
   ~ In goal ["weight_loss"; "muscle_gain"; "maintenance"])
  /\ (forall d, FoodEngine.calculate_macros calories goal = Some d ->
                Qabs (4 * FoodEngine.protein_g d + 4 * FoodEngine.carbs_g d
                      + 9 * FoodEngine.fat_g d - inject_Z calories) <= 9 # 10).
Proof.
  intros _. destruct (calculate_macros_energy_exact calories goal) as [H1 H2].
  split; [exact H1 |]. intros d Hd.
  apply Qle_trans with (17 # 20); [now apply H2 | discriminate].
Qed.

(** ** Filtering by restrictions *)

Lemma substring_all (s : string) : String.substring 0 (String.length s) s = s.
Proof.
  induction s as [|ch s IH]; [reflexivity |]. cbn. now rewrite IH.
Qed.

Lemma drop3_no (tag : string) : FoodEngine.drop3 (String.append "no_" tag) = tag.
Proof.
  change (String.append "no_" tag)
    with (String "n"%char (String "o"%char (String "_"%char tag))).
  unfold FoodEngine.drop3. cbn. rewrite Nat.sub_0_r. apply substring_all.
Qed.

Lemma starts_with_no (r : string) :
  starts_with "no_" r = true -> r = String.append "no_" (FoodEngine.drop3 r).
Proof.
  destruct r as [|a [|b [|c r]]]; cbn [starts_with];
    try (rewrite ?andb_false_r; discriminate).
  intros H. apply andb_true_iff in H. destruct H as [Ha H].
  apply andb_true_iff in H. destruct H as [Hb H].
  apply andb_true_iff in H. destruct H as [Hc _].
  apply Ascii.eqb_eq in Ha, Hb, Hc. subst a b c.
  unfold FoodEngine.drop3. cbn [String.length String.substring].
  change (S (S (S (String.length r))) - 3)%nat with (String.length r - 0)%nat.
  rewrite Nat.sub_0_r, substring_all. reflexivity.
Qed.

Lemma str_in_false (x : string) (l : list string) : str_in x l = false <-> ~ In x l.
Proof.
  rewrite <- str_in_In. symmetry. apply not_true_iff_false.
Qed.

Lemma keeps_iff (rs : list string) (f : food) :
  FoodEngine.keeps rs f = true <-> satisfies rs f.
Proof.
  unfold FoodEngine.keeps, satisfies. split.
  - intros H.
    destruct (str_in "vegetarian" rs && negb (f_vegetarian f)) eqn:V; [discriminate |].
    destruct (str_in "vegan" rs && negb (f_vegan f)) eqn:G; [discriminate |].
    apply negb_true_iff in H.
    assert (A : forall r, In r rs -> starts_with "no_" r = true ->
                (if String.eqb (FoodEngine.drop3 r) "nuts"
                 then str_in "tree nuts" (f_allergens f) || str_in "peanuts" (f_allergens f)
                 else str_in (FoodEngine.drop3 r) (f_allergens f)) = false).
    { intros r Hr Hs. apply not_true_iff_false. intros C.
      apply not_true_iff_false in H. apply H.
      unfold FoodEngine.allergen_match. apply existsb_exists.
      exists r. split; [assumption |]. now rewrite Hs. }
    repeat split.
    + intros Hin. apply str_in_In in Hin. rewrite Hin in V.
      now destruct (f_vegetarian f).
    + intros Hin. apply str_in_In in Hin. rewrite Hin in G.
      now destruct (f_vegan f).
    + specialize (A "no_nuts" H0 eq_refl). cbn in A.
      apply orb_false_iff in A. destruct A as [A _]. now apply str_in_false.
    + specialize (A "no_nuts" H0 eq_refl). cbn in A.
      apply orb_false_iff in A. destruct A as [_ A]. now apply str_in_false.
    + intros tag Hin Hne.
      specialize (A (String.append "no_" tag) Hin eq_refl). rewrite drop3_no in A.
      destruct (String.eqb_spec tag "nuts") as [|_]; [contradiction |].
      now apply str_in_false.
  - intros (Hv & Hg & Hn & Ht).
    assert (V : str_in "vegetarian" rs && negb (f_vegetarian f) = false).
    { destruct (str_in "vegetarian" rs) eqn:E; [| reflexivity].
      apply str_in_In in E. now rewrite (Hv E). }
    assert (G : str_in "vegan" rs && negb (f_vegan f) = false).
    { destruct (str_in "vegan" rs) eqn:E; [| reflexivity].
      apply str_in_In in E. now rewrite (Hg E). }
    rewrite V, G. apply negb_true_iff. apply not_true_iff_false. intros C.
    unfold FoodEngine.allergen_match in C. apply existsb_exists in C.
    destruct C as (r & Hr & C). apply andb_true_iff in C. destruct C as [Hs C].
    pose proof (starts_with_no r Hs) as E.
    destruct (String.eqb_spec (FoodEngine.drop3 r) "nuts") as [D | D].
    + rewrite D in E. cbn in E. subst r. destruct (Hn Hr) as [N1 N2].
      apply orb_true_iff in C. destruct C as [C | C]; apply str_in_In in C; contradiction.
    + rewrite E in Hr. apply str_in_In in C. exact (Ht _ Hr D C).
Qed.

Lemma returns_input_list_satisfies (rs : list string) (f : food) :
  FoodEngine.returns_input_list rs = true -> satisfies rs f.
Proof.
  unfold FoodEngine.returns_input_list.
  destruct rs as [|r [|r' rs]]; [| | discriminate].
  - intros _.
    split; [intros [] | split; [intros [] | split; [intros [] | intros tag []]]].
  - intros H. apply String.eqb_eq in H. subst r.
    split; [intros [C | []]; discriminate C |].
    split; [intros [C | []]; discriminate C |].
    split; [intros [C | []]; discriminate C |].
    intros tag [C | []] _.
    change (String.append "no_" tag)
      with (String "n"%char (String "o"%char (String "_"%char tag))) in C.
    discriminate C.
Qed.

Lemma filter_by_restrictions_In (foods : list food) (rs : list string) (f : food) :
  In f (FoodEngine._filter_by_restrictions foods rs) <-> In f foods /\ satisfies rs f.
Proof.
  unfold FoodEngine._filter_by_restrictions.
  destruct (FoodEngine.returns_input_list rs) eqn:A.
  - split; [| tauto].
    intros H. split; [assumption | now apply returns_input_list_satisfies].
  - rewrite filter_In, keeps_iff. reflexivity.
Qed.

(** X3.  [_filter_by_restrictions] keeps exactly the foods that meet every
    restriction (vegetarian, vegan, no_<tag>, with no_nuts covering tree nuts
    and peanuts), in their original order; an empty list and the list holding
    only none restrict nothing. *)
Theorem filter_by_restrictions_spec (foods : list food) (rs : list string) :
  (forall f, In f (FoodEngine._filter_by_restrictions foods rs) <->
             In f foods /\ satisfies rs f)
  /\ sublist (FoodEngine._filter_by_restrictions foods rs) foods
  /\ (rs = [] \/ rs = ["none"] -> FoodEngine._filter_by_restrictions foods rs = foods).
Proof.
  split; [intros f; apply filter_by_restrictions_In |].
  unfold FoodEngine._filter_by_restrictions.
  destruct (FoodEngine.returns_input_list rs) eqn:A.
  - split; reflexivity.
  - split.
    + induction foods as [|g foods IH]; cbn; [constructor |].
      destruct (FoodEngine.keeps rs g); [now apply sublist_skip | now apply sublist_cons].
    + intros [-> | ->]; discriminate A.
Qed.

(** ** Where the selected foods come from, and what a call leaves in the
       catalog *)

Lemma insert_desc_perm {A} (lt : A -> A -> bool) (x : A) (l : list A) :
  Permutation (insert_desc lt x l) (x :: l).
Proof.
  induction l as [|y l IH]; cbn [insert_desc]; [reflexivity |].
  destruct (lt x y); [| reflexivity].
  rewrite IH. apply perm_swap.
Qed.

Lemma sort_desc_perm {A} (lt : A -> A -> bool) (l : list A) :
  Permutation (sort_desc lt l) l.
Proof.
  induction l as [|x l IH]; [reflexivity |].
  unfold sort_desc in *. cbn [fold_right]. rewrite insert_desc_perm. now constructor.
Qed.

Lemma reordered_refl (c : catalog) : reordered c c.
Proof.
  intros k. destruct (c !! k); constructor. reflexivity.
Qed.

Lemma reordered_trans (c1 c2 c3 : catalog) :
  reordered c1 c2 -> reordered c2 c3 -> reordered c1 c3.
Proof.
  intros H12 H23 k. specialize (H12 k). specialize (H23 k).
  destruct H12 as [l1 l2 P12 |]; inversion H23 as [l2' l3 P23 |]; subst; constructor.
  now transitivity l2.
Qed.

Lemma reordered_In (c' c : catalog) (k : string) (f : food) :
  reordered c' c -> (In f (default [] (c' !! k)) <-> In f (default [] (c !! k))).
Proof.
  intros H. specialize (H k). destruct H as [l' l P |]; [| reflexivity].
  cbn. split; apply Permutation_in; [assumption | now symmetry].
Qed.

Section Preserves.

Variable R : catalog -> catalog -> Prop.
Hypothesis R_refl : forall c, R c c.
Hypothesis R_trans : forall c1 c2 c3, R c1 c2 -> R c2 c3 -> R c1 c3.

Lemma preserves_ret {A} (a : A) : preserves R (ret a).
Proof. intros c. apply R_refl. Qed.

Lemma preserves_raise {A} : preserves R (@raise A).
Proof. intros c. apply R_refl. Qed.

Lemma preserves_bind {A B} (m : M A) (k : A -> M B) :
  preserves R m -> (forall a, preserves R (k a)) -> preserves R (bind m k).
Proof.
  intros Hm Hk c. unfold bind. specialize (Hm c).
  destruct (m c) as [[a|] c1]; cbn [snd] in *; [| assumption].
  apply R_trans with c1; [apply Hk | assumption].
Qed.

Lemma preserves_py_div (x y : Q) : preserves R (FoodEngine.py_div x y).
Proof.
  unfold FoodEngine.py_div. destruct (Qeq_bool y 0); [apply preserves_raise | apply preserves_ret].
Qed.

Lemma preserves_mapM {A B} (f : A -> M B) (l : list A) :
  (forall a, preserves R (f a)) -> preserves R (mapM f l).
Proof.
  intros Hf. induction l as [|a l IH]; cbn [mapM]; [apply preserves_ret |].
  apply preserves_bind; [apply Hf |]. intros b.
  apply preserves_bind; [apply IH |]. intros bs. apply preserves_ret.
Qed.

End Preserves.

Lemma preserves_filter_and_sort (k : string) (lt : food -> food -> bool) (rs : list string) :
  preserves reordered (FoodEngine.filter_and_sort k lt rs).
Proof.
  intros c. unfold FoodEngine.filter_and_sort, FoodEngine._filter_by_restrictions.
  destruct (FoodEngine.returns_input_list rs).
  - destruct (c !! k) as [l|] eqn:E; simpl; [| apply reordered_refl].
    destruct l as [|x l]; simpl; [apply reordered_refl |].
    intros k'. destruct (decide (k' = k)) as [-> | N].
    + rewrite lookup_insert_eq, E. constructor. exact (sort_desc_perm lt (x :: l)).
    + rewrite lookup_insert_ne by congruence. apply reordered_refl.
  - destruct (List.filter _ _); apply reordered_refl.
Qed.

Lemma reord_ret {A} (a : A) : preserves reordered (ret a).
Proof. apply preserves_ret, reordered_refl. Qed.

Lemma reord_raise {A} : preserves reordered (@raise A).
Proof. apply preserves_raise, reordered_refl. Qed.

Lemma reord_bind {A B} (m : M A) (k : A -> M B) :
  preserves reordered m -> (forall a, preserves reordered (k a)) ->
  preserves reordered (bind m k).
Proof. apply preserves_bind, reordered_trans. Qed.

Lemma reord_py_div (x y : Q) : preserves reordered (FoodEngine.py_div x y).
Proof. apply preserves_py_div, reordered_refl. Qed.

Lemma preserves_select_foods (mp mc mf : Q) (rs : list string) :
  preserves reordered (FoodEngine.select_foods mp mc mf rs).
Proof.
  unfold FoodEngine.select_foods.
  apply reord_bind.
  { unfold FoodEngine.step_protein.
    apply reord_bind; [apply preserves_filter_and_sort |].
    intros [|best l]; [apply reord_ret |].
    apply reord_bind; [apply reord_py_div | intros q; apply reord_ret]. }
  intros a1. apply reord_bind.
  { unfold FoodEngine.step_grain.
    apply reord_bind; [intros c; apply reordered_refl |].
    intros [|best l]; [apply reord_ret |].
    apply reord_bind; [apply reord_py_div | intros q; apply reord_ret]. }
  intros a2. apply reord_bind.
  { unfold FoodEngine.step_vegetable.
    apply reord_bind; [apply preserves_filter_and_sort |].
    intros [|best l]; apply reord_ret. }
  intros a3. unfold FoodEngine.step_fat.
  destruct (Qltb _ _); [| apply reord_ret].
  apply reord_bind; [apply preserves_filter_and_sort |].
  intros [|best l]; [apply reord_ret |].
  apply reord_bind; [apply reord_py_div | intros q; apply reord_ret].
Qed.

Lemma preserves_build_meal (meal_calories : Z) (mp mc mf : Q) (rs : list string) :
  preserves reordered (FoodEngine.build_meal meal_calories mp mc mf rs).
Proof.
  unfold FoodEngine.build_meal.
  apply reord_bind; [apply preserves_select_foods | intros a; apply reord_ret].
Qed.

Lemma preserves_generate_plan_body (input : FoodEngine.model2_output) :
  preserves reordered (FoodEngine.generate_plan_body input).
Proof.
  unfold FoodEngine.generate_plan_body.
  destruct (FoodEngine.calculate_macros _ _) as [daily|]; [| apply reord_raise].
  apply reord_bind.
  { unfold FoodEngine.build_plan.
    apply preserves_mapM; [apply reordered_refl | apply reordered_trans |].
    intros e. apply reord_bind; [apply preserves_build_meal | intros m; apply reord_ret]. }
  intros plan. destruct (FoodEngine.plan_proteins plan); [| apply reord_raise].
  apply reord_bind; [apply reord_py_div |]. intros ratio.
  destruct (FoodEngine._validate_safety plan _) as [[[|] errs]|];
    [apply reord_ret | apply reord_ret | apply reord_raise].
Qed.

(** X4.  Whatever its outcome, a call of [generate_plan] leaves a catalog
    with the same categories and, in each, the same foods: the in-place sort
    only reorders them. *)
Theorem generate_plan_only_reorders_catalog
    (input : FoodEngine.model2_output) (c : catalog) :
  forall k, option_Forall2 Permutation
              (snd (FoodEngine.generate_plan input c) !! k) (c !! k).
Proof.
  rewrite generate_plan_fst_snd. cbn [snd].
  exact (preserves_generate_plan_body input c).
Qed.

Lemma run_reordered {A} (m : M A) (c c' : catalog) (o : option A) :
  preserves reordered m -> m c = (o, c') -> reordered c' c.
Proof.
  intros H E. specialize (H c). now rewrite E in H.
Qed.

Lemma pick_satisfies (k : string) (lt : food -> food -> bool) (rs : list string)
    (c c' : catalog) (l : list food) (f : food) :
  FoodEngine.filter_and_sort k lt rs c = (Some l, c') -> In f l ->
  In f (default [] (c !! k)) /\ satisfies rs f.
Proof.
  unfold FoodEngine.filter_and_sort. intros H Hin.
  destruct (FoodEngine._filter_by_restrictions (default [] (c !! k)) rs) as [|x xs] eqn:E.
  - injection H as <- _. destruct Hin.
  - injection H as <- _.
    pose proof (Permutation_in f (sort_desc_perm lt (x :: xs)) Hin) as Hin'.
    rewrite <- E in Hin'. now apply filter_by_restrictions_In in Hin'.
Qed.

Lemma pick_grain_satisfies (lt : food -> food -> bool) (rs : list string)
    (c c' : catalog) (l : list food) (f : food) :
  FoodEngine.filter_and_sort_grains lt rs c = (Some l, c') -> In f l ->
  (In f (default [] (c !! "grain")) \/ In f (default [] (c !! "carb")))
  /\ satisfies rs f /\ c' = c.
Proof.
  unfold FoodEngine.filter_and_sort_grains. intros H Hin. injection H as <- <-.
  destruct (FoodEngine._filter_by_restrictions _ rs) as [|x xs] eqn:E; [destruct Hin |].
  pose proof (Permutation_in f (sort_desc_perm lt (x :: xs)) Hin) as Hin'.
  rewrite <- E in Hin'. apply filter_by_restrictions_In in Hin'.
  destruct Hin' as [Hin' Hs]. apply in_app_or in Hin'. auto.
Qed.

Lemma select_from_catalog (rs : list string) (c0 : catalog) (k : string) (f : food)
    (portion : Q) (a : FoodEngine.acc) :
  Forall (from_catalog rs c0) (fst a) ->
  In f (default [] (c0 !! k)) -> satisfies rs f ->
  Forall (from_catalog rs c0) (fst (FoodEngine.select f portion a)).
Proof.
  intros Ha Hin Hs. unfold FoodEngine.select. cbn [fst].
  apply Forall_app. split; [assumption |].
  constructor; [| constructor]. exists k, f. cbn. auto.
Qed.

Lemma select_foods_from_catalog (mp mc mf : Q) (rs : list string)
    (c c' : catalog) (a : FoodEngine.acc) :
  FoodEngine.select_foods mp mc mf rs c = (Some a, c') ->
  Forall (from_catalog rs c) (fst a).
Proof.
  unfold FoodEngine.select_foods. intros H.
  apply bind_Some_inv in H. destruct H as (a1 & c1 & H1 & H).
  apply bind_Some_inv in H. destruct H as (a2 & c2 & H2 & H).
  apply bind_Some_inv in H. destruct H as (a3 & c3 & H3 & H4).
  (* step 1 *)
  assert (A1 : Forall (from_catalog rs c) (fst a1) /\ reordered c1 c).
  { unfold FoodEngine.step_protein in H1.
    apply bind_Some_inv in H1. destruct H1 as (l & d1 & Hl & H1).
    pose proof (run_reordered _ _ _ _ (preserves_filter_and_sort _ _ _) Hl) as Rd.
    destruct l as [|best l].
    - apply ret_inv in H1. destruct H1 as [<- <-]. split; [constructor | assumption].
    - apply bind_Some_inv in H1. destruct H1 as (q & d2 & Hq & H1).
      apply ret_inv in H1. destruct H1 as [<- <-].
      unfold FoodEngine.py_div in Hq. destruct (Qeq_bool _ 0); [discriminate |].
      apply ret_inv in Hq. destruct Hq as [_ <-]. split; [| assumption].
      destruct (pick_satisfies _ _ _ _ _ _ best Hl (or_introl eq_refl)) as [Hin Hs].
      now apply select_from_catalog with (k := "protein"); [constructor | |]. }
  destruct A1 as [A1 R1].
  (* step 2 *)
  assert (A2 : Forall (from_catalog rs c) (fst a2) /\ reordered c2 c).
  { unfold FoodEngine.step_grain in H2.
    apply bind_Some_inv in H2. destruct H2 as (l & d1 & Hl & H2).
    destruct l as [|best l].
    - unfold FoodEngine.filter_and_sort_grains in Hl. injection Hl as _ <-.
      apply ret_inv in H2. destruct H2 as [<- <-]. split; assumption.
    - destruct (pick_grain_satisfies _ _ _ _ _ best Hl (or_introl eq_refl))
        as (Hin & Hs & ->).
      apply bind_Some_inv in H2. destruct H2 as (q & d2 & Hq & H2).
      apply ret_inv in H2. destruct H2 as [<- <-].
      unfold FoodEngine.py_div in Hq. destruct (Qeq_bool _ 0); [discriminate |].
      apply ret_inv in Hq. destruct Hq as [_ <-]. split; [| assumption].
      destruct Hin as [Hin | Hin].
      + apply select_from_catalog with (k := "grain"); auto.
        now apply (reordered_In c1 c).
      + apply select_from_catalog with (k := "carb"); auto.
        now apply (reordered_In c1 c). }
  destruct A2 as [A2 R2].
  (* step 3 *)
  assert (A3 : Forall (from_catalog rs c) (fst a3) /\ reordered c3 c).
  { unfold FoodEngine.step_vegetable in H3.
    apply bind_Some_inv in H3. destruct H3 as (l & d1 & Hl & H3).
    pose proof (run_reordered _ _ _ _ (preserves_filter_and_sort _ _ _) Hl) as Rd.
    assert (R3 : reordered d1 c) by (eapply reordered_trans; eassumption).
    destruct l as [|best l].
    - apply ret_inv in H3. destruct H3 as [<- <-]. split; assumption.
    - apply ret_inv in H3. destruct H3 as [<- <-]. split; [| assumption].
      destruct (pick_satisfies _ _ _ _ _ _ best Hl (or_introl eq_refl)) as [Hin Hs].
      apply select_from_catalog with (k := "vegetable"); auto.
      now apply (reordered_In c2 c). }
  destruct A3 as [A3 R3].
  (* step 4 *)
  unfold FoodEngine.step_fat in H4.
  destruct (Qltb _ _).
  - apply bind_Some_inv in H4. destruct H4 as (l & d1 & Hl & H4).
    destruct l as [|best l].
    + apply ret_inv in H4. now destruct H4 as [<- _].
    + apply bind_Some_inv in H4. destruct H4 as (q & d2 & Hq & H4).
      apply ret_inv in H4. destruct H4 as [<- _].
      destruct (pick_satisfies _ _ _ _ _ _ best Hl (or_introl eq_refl)) as [Hin Hs].
      apply select_from_catalog with (k := "fat"); auto.
      now apply (reordered_In c3 c).
  - apply ret_inv in H4. now destruct H4 as [<- _].
Qed.

Lemma scale_food_from_catalog (rs : list string) (c : catalog) (s : Q) (fs : list pfood) :
  Forall (from_catalog rs c) fs ->
  Forall (from_catalog rs c) (map (FoodEngine.scale_food s) fs).
Proof.
  intros H. induction H as [|pf fs Hpf _ IH]; cbn [map]; constructor; [| exact IH].
  destruct Hpf as (k & f & Hin & Hid & Hname & Hs). exists k, f. cbn. auto.
Qed.

Lemma build_meal_from_catalog (meal_calories : Z) (mp mc mf : Q) (rs : list string)
    (c c' : catalog) (m : meal) :
  FoodEngine.build_meal meal_calories mp mc mf rs c = (Some m, c') ->
  exists fs, m_foods m = Some fs /\ Forall (from_catalog rs c) fs.
Proof.
  unfold FoodEngine.build_meal. intros H.
  apply bind_Some_inv in H. destruct H as (a & c1 & Ha & H).
  apply ret_inv in H. destruct H as [<- _].
  apply select_foods_from_catalog in Ha.
  eexists. split; [reflexivity |]. unfold FoodEngine.step_scale.
  destruct (FoodEngine.scale_applies _ _); cbn [fst]; [| assumption].
  now apply scale_food_from_catalog.
Qed.

Lemma from_catalog_reordered (rs : list string) (c' c : catalog) (pf : pfood) :
  reordered c' c -> from_catalog rs c' pf -> from_catalog rs c pf.
Proof.
  intros R (k & f & Hin & H). exists k, f. split; [| exact H].
  now apply (reordered_In c' c).
Qed.

Lemma build_plan_from_catalog (t : Z) (daily : FoodEngine.macros) (rs : list string)
    (l : list (string * Q)) (c0 c c' : catalog) (plan : meal_plan) :
  reordered c c0 ->
  mapM (fun e : string * Q =>
          m <- FoodEngine.build_meal (py_int (inject_Z t * snd e))
                 (FoodEngine.protein_g daily * snd e)
                 (FoodEngine.carbs_g daily * snd e)
                 (FoodEngine.fat_g daily * snd e) rs ;;
          ret (fst e, m)) l c = (Some plan, c') ->
  forall mn m, In (mn, m) plan ->
               exists fs, m_foods m = Some fs /\ Forall (from_catalog rs c0) fs.
Proof.
  revert c c' plan. induction l as [|e l IH]; intros c c' plan R H mn m Hin;
    cbn [mapM] in H.
  - apply ret_inv in H. destruct H as [<- _]. destruct Hin.
  - apply bind_Some_inv in H. destruct H as (b & c1 & Hb & H).
    apply bind_Some_inv in H. destruct H as (bs & c2 & Hbs & H).
    apply ret_inv in H. destruct H as [<- _].
    apply bind_Some_inv in Hb. destruct Hb as (m1 & d & Hm & Hb).
    apply ret_inv in Hb. destruct Hb as [<- <-].
    pose proof (run_reordered _ _ _ _ (preserves_build_meal _ _ _ _ _) Hm) as R1.
    destruct Hin as [E | Hin].
    + injection E as _ <-. destruct (build_meal_from_catalog _ _ _ _ _ _ _ _ Hm)
        as (fs & Hfs & HF).
      exists fs. split; [assumption |]. rewrite !List.Forall_forall in *.
      intros pf Hpf. apply (from_catalog_reordered rs c c0); auto.
    + eapply (IH d); [| exact Hbs | exact Hin]. eapply reordered_trans; eassumption.
Qed.

(** X5.  Every item of a plan returned with status success was portioned
    from a food of the catalog that meets all the restrictions of the
    request: a vegan request gets vegan foods only, and so on. *)
Theorem plan_items_meet_restrictions
    (input : FoodEngine.model2_output) (c c' : catalog)
    (plan : meal_plan) (summary : FoodEngine.daily_summary) :
  FoodEngine.generate_plan input c = (FoodEngine.Success plan summary, c') ->
  forall mn m fs pf,
    In (mn, m) plan -> m_foods m = Some fs -> In pf fs ->
    exists k f, In f (default [] (c !! k))
                /\ pf_id pf = f_id f /\ pf_name pf = f_name f
                /\ satisfies (FoodEngine.dietary_restrictions input) f.
Proof.
  intros H mn m fs pf Hin Hfs Hpf.
  apply generate_plan_Success_inv in H. destruct H as (daily & errs & _ & B & _).
  unfold FoodEngine.build_plan in B.
  destruct (build_plan_from_catalog _ _ _ _ c c c' plan (reordered_refl c) B mn m Hin)
    as (fs' & Hfs' & HF).
  rewrite Hfs in Hfs'. injection Hfs' as <-.
  rewrite List.Forall_forall in HF. exact (HF pf Hpf).
Qed.

(** ** Portions of a built meal *)

Lemma clamp_bounds (x lo hi : Q) :
  lo <= hi -> lo <= FoodEngine.clamp x lo hi /\ FoodEngine.clamp x lo hi <= hi.
Proof.
  intros H. unfold FoodEngine.clamp, Qmin, Qmax.
  destruct (Qle_bool x lo) eqn:A.
  - apply Qle_bool_iff in H. rewrite H. apply Qle_bool_iff in H. split; [apply Qle_refl | exact H].
  - destruct (Qle_bool x hi) eqn:B.
    + apply Qle_bool_iff in B. split; [| exact B].
      apply Qlt_le_weak. apply Qnot_le_lt. intros C. apply Qle_bool_iff in C. congruence.
    + split; [exact H | apply Qle_refl].
Qed.

Lemma round_half_even_ge (a : Z) (x : Q) :
  inject_Z a <= x -> (a <= round_half_even x)%Z.
Proof.
  intros H. assert (F : (a <= Qfloor x)%Z).
  { rewrite <- (Qfloor_Z a). now apply Qfloor_resp_le. }
  unfold round_half_even.
  destruct (Qltb _ _); [assumption |].
  destruct (Qltb _ _); [lia |]. destruct (Z.even _); lia.
Qed.

Lemma round_half_even_le (b : Z) (x : Q) :
  x <= inject_Z b -> (round_half_even x <= b)%Z.
Proof.
  intros H. pose proof (Qfloor_le x) as Hlo.
  assert (F : (Qfloor x <= b)%Z).
  { rewrite <- (Qfloor_Z b). now apply Qfloor_resp_le. }
  unfold round_half_even. set (f := Qfloor x) in *.
  destruct (Qltb (x - inject_Z f) (1 # 2)) eqn:L1; [assumption |].
  apply Qltb_ge in L1.
  assert (S : (f < b)%Z).
  { rewrite Zlt_Qlt. lra. }
  destruct (Qltb _ _); [lia |]. destruct (Z.even _); lia.
Qed.

Lemma inject_Z_pred (a : Z) : inject_Z (a - 1) == inject_Z a - 1.
Proof.
  unfold Z.sub. rewrite inject_Z_plus, inject_Z_opp. reflexivity.
Qed.

(** Half-way below an even integer rounds up to it. *)
Lemma round_half_even_ge_half (a : Z) (x : Q) :
  Z.even a = true -> inject_Z a - (1 # 2) <= x -> (a <= round_half_even x)%Z.
Proof.
  intros Ha H. pose proof (Qfloor_le x) as Hlo. pose proof (Qlt_floor x) as Hhi.
  rewrite inject_Z_plus in Hhi. change (inject_Z 1) with 1 in Hhi.
  unfold round_half_even. set (f := Qfloor x) in *.
  assert (F : (a - 1 <= f)%Z).
  { assert (L : inject_Z (a - 1) < inject_Z (f + 1)).
    { rewrite inject_Z_pred, inject_Z_plus. change (inject_Z 1) with 1. lra. }
    rewrite <- Zlt_Qlt in L. lia. }
  destruct (Qltb (x - inject_Z f) (1 # 2)) eqn:L1.
  - apply Qltb_lt in L1.
    assert (L : inject_Z (a - 1) < inject_Z f).
    { rewrite inject_Z_pred. lra. }
    rewrite <- Zlt_Qlt in L. lia.
  - destruct (Qltb (1 # 2) (x - inject_Z f)); [lia |].
    destruct (Z.even f) eqn:Ef; [| lia].
    destruct (Z.eq_dec f (a - 1)%Z) as [E | N]; [| lia].
    rewrite E, Z.even_sub, Ha in Ef. discriminate Ef.
Qed.

(** Steps 1 to 4 keep any property of the selection that holds of the empty
    selection and survives the selection of a food with a portion between 5
    and 500 g. *)
Lemma select_foods_invariant (P : list pfood -> Prop) (mp mc mf : Q)
    (rs : list string) (c c' : catalog) (a : FoodEngine.acc) :
  P [] ->
  (forall f portion a0, 5 <= portion -> portion <= 500 -> P (fst a0) ->
                        P (fst (FoodEngine.select f portion a0))) ->
  FoodEngine.select_foods mp mc mf rs c = (Some a, c') -> P (fst a).
Proof.
  intros P0 Ps H. unfold FoodEngine.select_foods in H.
  apply bind_Some_inv in H. destruct H as (a1 & c1 & H1 & H).
  apply bind_Some_inv in H. destruct H as (a2 & c2 & H2 & H).
  apply bind_Some_inv in H. destruct H as (a3 & c3 & H3 & H4).
  assert (A1 : P (fst a1)).
  { unfold FoodEngine.step_protein in H1.
    apply bind_Some_inv in H1. destruct H1 as ([|best l] & d1 & _ & H1).
    - apply ret_inv in H1. now destruct H1 as [<- _].
    - apply bind_Some_inv in H1. destruct H1 as (q & d2 & _ & H1).
      apply ret_inv in H1. destruct H1 as [<- _].
      destruct (clamp_bounds (q * 100) 50 500) as [B1 B2]; [lra |].
      apply Ps; [unfold FoodEngine.MIN_PORTION, FoodEngine.MAX_PORTION; lra | | exact P0].
      exact B2. }
  assert (A2 : P (fst a2)).
  { unfold FoodEngine.step_grain in H2.
    apply bind_Some_inv in H2. destruct H2 as ([|best l] & d1 & _ & H2).
    - apply ret_inv in H2. now destruct H2 as [<- _].
    - apply bind_Some_inv in H2. destruct H2 as (q & d2 & _ & H2).
      apply ret_inv in H2. destruct H2 as [<- _].
      destruct (clamp_bounds (q * 100) 50 500) as [B1 B2]; [lra |].
      apply Ps; [unfold FoodEngine.MIN_PORTION, FoodEngine.MAX_PORTION; lra | | exact A1].
      exact B2. }
  assert (A3 : P (fst a3)).
  { unfold FoodEngine.step_vegetable in H3.
    apply bind_Some_inv in H3. destruct H3 as ([|best l] & d1 & _ & H3).
    - apply ret_inv in H3. now destruct H3 as [<- _].
    - apply ret_inv in H3. destruct H3 as [<- _].
      apply Ps; [unfold FoodEngine.VEGETABLE_PORTION; lra
                | unfold FoodEngine.VEGETABLE_PORTION; lra | exact A2]. }
  unfold FoodEngine.step_fat in H4. destruct (Qltb _ _).
  - apply bind_Some_inv in H4. destruct H4 as ([|best l] & d1 & _ & H4).
    + apply ret_inv in H4. now destruct H4 as [<- _].
    + apply bind_Some_inv in H4. destruct H4 as (q & d2 & _ & H4).
      apply ret_inv in H4. destruct H4 as [<- _].
      destruct (clamp_bounds (q * 100) 5 30) as [B1 B2]; [lra |].
      apply Ps; [exact B1 | lra | exact A3].
  - apply ret_inv in H4. now destruct H4 as [<- _].
Qed.

(** The items of a built meal: a property [P0] of freshly selected items
    that scaling by a factor in [0.7, 1.3] turns into [P1], and that implies
    [P1] without scaling, gives [P1] for every item of the meal. *)
Lemma build_meal_items (P0 P1 : pfood -> Prop) (meal_calories : Z) (mp mc mf : Q)
    (rs : list string) (c c' : catalog) (m : meal) :
  (forall f portion a0, 5 <= portion -> portion <= 500 -> Forall P0 (fst a0) ->
                        Forall P0 (fst (FoodEngine.select f portion a0))) ->
  (forall s pf, 7 # 10 <= s -> s <= 13 # 10 -> P0 pf -> P1 (FoodEngine.scale_food s pf)) ->
  (forall pf, P0 pf -> P1 pf) ->
  FoodEngine.build_meal meal_calories mp mc mf rs c = (Some m, c') ->
  exists fs, m_foods m = Some fs /\ Forall P1 fs.
Proof.
  intros Hsel Hscale Hkeep H. unfold FoodEngine.build_meal in H.
  apply bind_Some_inv in H. destruct H as (a & c1 & Ha & H).
  apply ret_inv in H. destruct H as [<- _].
  apply (select_foods_invariant (Forall P0)) in Ha; [| constructor | exact Hsel].
  eexists. split; [reflexivity |]. unfold FoodEngine.step_scale.
  destruct (FoodEngine.scale_applies meal_calories (snd a)) eqn:S; cbn [fst].
  - unfold FoodEngine.scale_applies in S.
    apply andb_true_iff in S. destruct S as [_ S].
    apply andb_true_iff in S. destruct S as [_ S].
    apply andb_true_iff in S. destruct S as [Slo Shi].
    apply Qle_bool_iff in Slo, Shi.
    induction Ha as [|pf fs Hpf _ IH]; cbn [map]; constructor; auto.
  - induction Ha as [|pf fs Hpf _ IH]; constructor; auto.
Qed.

(** X6.  Every portion in a meal that [build_meal] returns is a whole number
    of grams between 4 and 650: selection clamps each portion into
    [5, 500] g and the final scaling multiplies it by at most 1.3 and at
    least 0.7. *)
Theorem build_meal_portion_bounds (meal_calories : Z) (mp mc mf : Q)
    (rs : list string) (c c' : catalog) (m : meal) :
  FoodEngine.build_meal meal_calories mp mc mf rs c = (Some m, c') ->
  exists fs, m_foods m = Some fs
             /\ forall pf, In pf fs ->
                           exists g : Z, pf_portion_g pf = Some (inject_Z g)
                                         /\ (4 <= g <= 650)%Z.
Proof.
  intros H.
  pose (P0 := fun pf => exists g : Z, pf_portion_g pf = Some (inject_Z g) /\ (5 <= g <= 500)%Z).
  pose (P1 := fun pf => exists g : Z, pf_portion_g pf = Some (inject_Z g) /\ (4 <= g <= 650)%Z).
  assert (A1 : forall f portion a0, 5 <= portion -> portion <= 500 -> Forall P0 (fst a0) ->
                                    Forall P0 (fst (FoodEngine.select f portion a0))).
  { intros f portion a0 Hlo Hhi Ha. unfold FoodEngine.select. cbn [fst].
    apply Forall_app. split; [assumption |]. constructor; [| constructor].
    exists (round_half_even portion). cbn [pf_portion_g]. split; [reflexivity |].
    split; [now apply round_half_even_ge | now apply round_half_even_le]. }
  assert (A2 : forall s pf, 7 # 10 <= s -> s <= 13 # 10 -> P0 pf ->
                            P1 (FoodEngine.scale_food s pf)).
  { intros s pf Hlo Hhi (g & Hg & G1 & G2). unfold P1.
    cbn [FoodEngine.scale_food pf_portion_g]. rewrite Hg. cbn [option_map].
    exists (round_half_even (inject_Z g * s)). split; [reflexivity |].
    assert (Q1 : 5 <= inject_Z g) by (change 5 with (inject_Z 5); now rewrite <- Zle_Qle).
    assert (Q2 : inject_Z g <= 500) by (change 500 with (inject_Z 500); now rewrite <- Zle_Qle).
    split.
    - apply round_half_even_ge_half; [reflexivity |].
      change (inject_Z 4) with 4. nra.
    - apply round_half_even_le. change (inject_Z 650) with 650. nra. }
  assert (A3 : forall pf, P0 pf -> P1 pf).
  { intros pf (g & Hg & G1 & G2). exists g. split; [assumption | lia]. }
  destruct (build_meal_items P0 P1 _ _ _ _ _ _ _ _ A1 A2 A3 H) as (fs & Hfs & HF).
  exists fs. split; [assumption |]. now apply List.Forall_forall.
Qed.

(** ** The engine's plans and the other validators *)

Lemma build_plan_items (P0 P1 : pfood -> Prop) (t : Z) (daily : FoodEngine.macros)
    (rs : list string) (l : list (string * Q)) (c c' : catalog) (plan : meal_plan) :
  (forall f portion a0, 5 <= portion -> portion <= 500 -> Forall P0 (fst a0) ->
                        Forall P0 (fst (FoodEngine.select f portion a0))) ->
  (forall s pf, 7 # 10 <= s -> s <= 13 # 10 -> P0 pf -> P1 (FoodEngine.scale_food s pf)) ->
  (forall pf, P0 pf -> P1 pf) ->
  mapM (fun e : string * Q =>
          m <- FoodEngine.build_meal (py_int (inject_Z t * snd e))
                 (FoodEngine.protein_g daily * snd e)
                 (FoodEngine.carbs_g daily * snd e)
                 (FoodEngine.fat_g daily * snd e) rs ;;
          ret (fst e, m)) l c = (Some plan, c') ->
  forall mn m, In (mn, m) plan -> exists fs, m_foods m = Some fs /\ Forall P1 fs.
Proof.
  intros A1 A2 A3. revert c c' plan.
  induction l as [|e l IH]; intros c c' plan H mn m Hin; cbn [mapM] in H.
  - apply ret_inv in H. destruct H as [<- _]. destruct Hin.
  - apply bind_Some_inv in H. destruct H as (b & c1 & Hb & H).
    apply bind_Some_inv in H. destruct H as (bs & c2 & Hbs & H).
    apply ret_inv in H. destruct H as [<- _].
    apply bind_Some_inv in Hb. destruct Hb as (m1 & d & Hm & Hb).
    apply ret_inv in Hb. destruct Hb as [<- <-].
    destruct Hin as [E | Hin]; [| exact (IH _ _ _ Hbs mn m Hin)].
    injection E as _ <-. exact (build_meal_items P0 P1 _ _ _ _ _ _ _ _ A1 A2 A3 Hm).
Qed.

Lemma plan_lookup_In (k : string) (p : meal_plan) (m : meal) :
  plan_lookup k p = Some m -> In (k, m) p.
Proof.
  induction p as [|[k' m'] p IH]; cbn [plan_lookup]; [discriminate |].
  destruct (String.eqb_spec k k') as [-> | N].
  - intros [= ->]. now left.
  - intros H. right. now apply IH.
Qed.

Lemma existsb_const_false {A} (l : list A) : existsb (fun _ => false) l = false.
Proof.
  induction l; [reflexivity | assumption].
Qed.

(** X7.  On a plan that [generate_plan] returned with status success the
    external validator's allergen gate cannot fire, whatever restrictions it
    is given, because the engine's items carry no allergens key; and the only
    violations it can report are an unusual condiment portion and a portion
    below 15 g. *)
Theorem engine_plan_external_violations
    (input : FoodEngine.model2_output) (c c' : catalog)
    (plan : meal_plan) (summary : FoodEngine.daily_summary) :
  FoodEngine.generate_plan input c = (FoodEngine.Success plan summary, c') ->
  forall (target : Z) (restrictions : list string),
    SafetyValidator.gate1 restrictions plan = None
    /\ forall v,
        In v (snd (SafetyValidator.validate_meal_plan plan target restrictions)) ->
        (exists n q, v = SafetyValidator.CondimentUnusual n q)
        \/ (exists n q, v = SafetyValidator.PortionTooSmall n q /\ q < 15).
Proof.
  intros H target restrictions.
  apply generate_plan_Success_inv in H. destruct H as (daily & errs & _ & B & V & _).
  apply validate_safety_true in V. destruct V as [V1 V2].
  unfold FoodEngine.build_plan in B.
  assert (N : forall mn m, In (mn, m) plan ->
                exists fs, m_foods m = Some fs
                           /\ Forall (fun pf => pf_allergens pf = None) fs).
  { refine (build_plan_items (fun pf => pf_allergens pf = None)
                             (fun pf => pf_allergens pf = None)
                             _ _ _ _ _ _ _ _ _ _ B).
    - intros f portion a0 _ _ Ha. unfold FoodEngine.select. cbn [fst].
      apply Forall_app. split; [assumption |]. constructor; [reflexivity | constructor].
    - intros s pf _ _ Hpf. exact Hpf.
    - auto. }
  assert (G : SafetyValidator.gate1 restrictions plan = None).
  { apply gate1_None. intros [mn f] He. apply plan_items_In in He.
    destruct He as (m & fs & Hin & _ & Hfs & Hf).
    destruct (N mn m Hin) as (fs' & Hfs' & HF). rewrite Hfs in Hfs'. injection Hfs' as <-.
    rewrite List.Forall_forall in HF. cbn [snd].
    unfold SafetyValidator.carries_restricted. rewrite (HF f Hf). cbn.
    apply existsb_const_false. }
  split; [exact G |]. intros v Hv.
  unfold SafetyValidator.validate_meal_plan in Hv. rewrite G in Hv.
  assert (Hv' : In v (SafetyValidator.gate2 plan ++ SafetyValidator.gate3 plan)).
  { destruct (SafetyValidator.gate2 plan ++ SafetyValidator.gate3 plan); [destruct Hv | exact Hv]. }
  clear Hv. apply in_app_or in Hv'. destruct Hv' as [Hv | Hv].
  - apply gate2_iff in Hv. destruct Hv as ([mn f] & He & Hv). cbn [snd] in Hv.
    destruct Hv as [(_ & _ & ->) | [(_ & Hq & ->) | (_ & Hq & ->)]].
    + left. eauto.
    + right. eauto.
    + exfalso. apply plan_items_In in He.
      destruct He as (m & fs & Hin & _ & Hfs & Hf).
      destruct (check_portions_ok plan V2 mn m Hin) as (fs' & Hfs' & Hp).
      rewrite Hfs in Hfs'. injection Hfs' as <-.
      destruct (Hp f Hf) as (q & Hq' & Hle). rewrite Hq' in Hq. cbn in Hq. lra.
  - exfalso. apply gate3_iff in Hv. destruct Hv as (mn & Hmn & m & Hl & Hq & _).
    apply plan_lookup_In in Hl.
    destruct (check_protein_ok plan V1 mn m Hl Hmn) as (x & Hx & Hge).
    rewrite Hx in Hq. cbn in Hq. lra.
Qed.

Lemma pipeline_gate2_food_agrees (mn : string) (fs : list pfood)
    (e : list FoodEngine.safety_error) :
  FoodEngine.check_foods mn fs = Some e ->
  flat_map (Pipeline.gate2_food mn) fs = e.
Proof.
  revert e. induction fs as [|f fs IH]; intros e H; cbn [FoodEngine.check_foods] in H.
  - now injection H as <-.
  - destruct (pf_portion_g f) as [q|] eqn:Hq; [| discriminate].
    destruct (FoodEngine.check_foods mn fs) as [e'|]; [| discriminate].
    cbn [option_map] in H. injection H as <-.
    cbn [flat_map]. rewrite (IH e' eq_refl).
    unfold Pipeline.gate2_food. rewrite Hq. cbn [default].
    unfold Pipeline.MIN_PORTION, Pipeline.MAX_PORTION,
      FoodEngine.MIN_PORTION, FoodEngine.MAX_PORTION.
    now rewrite andb_comm.
Qed.

Lemma pipeline_gate2_agrees (p : meal_plan) (e : list FoodEngine.safety_error) :
  FoodEngine.check_portions p = Some e -> Pipeline.gate2 p = e.
Proof.
  unfold Pipeline.gate2. revert e.
  induction p as [|[mn m] p IH]; intros e H; cbn [FoodEngine.check_portions] in H.
  - now injection H as <-.
  - destruct (m_foods m) as [fs|] eqn:Hfs; [| discriminate].
    destruct (FoodEngine.check_foods mn fs) as [e1|] eqn:E1; [| discriminate].
    destruct (FoodEngine.check_portions p) as [e2|]; [| discriminate].
    cbn [option_map] in H. injection H as <-.
    cbn [flat_map fst snd]. rewrite Hfs. change (default [] (Some fs)) with fs.
    now rewrite (pipeline_gate2_food_agrees mn fs e1 E1), (IH e2 eq_refl).
Qed.

Lemma pipeline_gate1_agrees (m1 m2 m3 m4 : meal) (e : list FoodEngine.safety_error) :
  let p := [("breakfast", m1); ("lunch", m2); ("dinner", m3); ("snack", m4)] in
  FoodEngine.check_protein p = Some e ->
  flat_map (Pipeline.gate1_meal p) ["breakfast"; "lunch"; "dinner"] = e.
Proof.
  intros p H. subst p. cbn [FoodEngine.check_protein] in H.
  change (str_in "breakfast" FoodEngine.main_meals) with true in H.
  change (str_in "lunch" FoodEngine.main_meals) with true in H.
  change (str_in "dinner" FoodEngine.main_meals) with true in H.
  change (str_in "snack" FoodEngine.main_meals) with false in H.
  cbv iota in H.
  destruct (m_total_protein_g m1) as [x1|] eqn:E1; [| discriminate].
  destruct (m_total_protein_g m2) as [x2|] eqn:E2; [| discriminate].
  destruct (m_total_protein_g m3) as [x3|] eqn:E3; [| discriminate].
  cbn [option_map] in H. injection H as <-.
  cbn [flat_map]. unfold Pipeline.gate1_meal.
  change (plan_lookup "breakfast" _) with (Some m1).
  change (plan_lookup "lunch" _) with (Some m2).
  change (plan_lookup "dinner" _) with (Some m3).
  cbv iota beta. rewrite E1, E2, E3.
  change (default 0 (Some x1)) with x1. change (default 0 (Some x2)) with x2.
  change (default 0 (Some x3)) with x3.
  reflexivity.
Qed.

(** X8.  The pipeline's validator and the engine's agree on every plan with
    the four meals on which the engine's validator does not raise: same
    verdict, same messages.  So the pipeline accepts every plan that
    [generate_plan] returned with status success. *)
Theorem pipeline_validator_agrees_with_engine :
  (forall (p : meal_plan) (rs rs' : list string) (r : bool * list FoodEngine.safety_error),
      map fst p = ["breakfast"; "lunch"; "dinner"; "snack"] ->
      FoodEngine._validate_safety p rs = Some r ->
      Pipeline._validate_safety p rs' = r)
  /\ (forall (input : FoodEngine.model2_output) (c c' : catalog)
             (plan : meal_plan) (summary : FoodEngine.daily_summary) (rs' : list string),
         FoodEngine.generate_plan input c = (FoodEngine.Success plan summary, c') ->
         Pipeline._validate_safety plan rs' = (true, [])).
Proof.
  assert (A : forall (p : meal_plan) (rs rs' : list string)
                     (r : bool * list FoodEngine.safety_error),
             map fst p = ["breakfast"; "lunch"; "dinner"; "snack"] ->
             FoodEngine._validate_safety p rs = Some r ->
             Pipeline._validate_safety p rs' = r).
  { intros p rs rs' r Hk H.
    destruct p as [|[k1 m1] [|[k2 m2] [|[k3 m3] [|[k4 m4] [|]]]]]; try discriminate Hk.
    cbn [map fst] in Hk. injection Hk as -> -> -> ->.
    unfold FoodEngine._validate_safety in H.
    destruct (FoodEngine.check_protein _) as [e1|] eqn:E1; [| discriminate].
    destruct (FoodEngine.check_portions _) as [e2|] eqn:E2; [| discriminate].
    injection H as <-. unfold Pipeline._validate_safety.
    rewrite (pipeline_gate1_agrees m1 m2 m3 m4 e1 E1), (pipeline_gate2_agrees _ e2 E2).
    reflexivity. }
  split; [exact A |].
  intros input c c' plan summary rs' H.
  apply generate_plan_Success_inv in H. destruct H as (daily & errs & _ & B & V & _).
  unfold FoodEngine.build_plan in B. apply mapM_keys in B.
  pose proof (validate_safety_true _ _ _ V) as [V1 V2].
  rewrite (A plan _ rs' _ B V).
  unfold FoodEngine._validate_safety in V. rewrite V1, V2 in V. cbn in V.
  now injection V as <-.
Qed.

(** ** Error cases of [generate_plan] *)

Lemma calculate_macros_unknown (calories : Z) (goal : string) :
  ~ In goal ["weight_loss"; "muscle_gain"; "maintenance"] ->
  FoodEngine.calculate_macros calories goal = None.
Proof.
  intros H. unfold FoodEngine.calculate_macros, FoodEngine.MACRO_RATIOS, FoodEngine.assoc.
  destruct (String.eqb_spec goal "weight_loss") as [-> | _]; [exfalso; apply H; now left |].
  destruct (String.eqb_spec goal "muscle_gain") as [-> | _];
    [exfalso; apply H; right; now left |].
  destruct (String.eqb_spec goal "maintenance") as [-> | _];
    [exfalso; apply H; right; right; now left |].
  reflexivity.
Qed.

(** X9.  [generate_plan] answers with status error from its except clause,
    and leaves the catalog untouched, when the goal is none of the three
    keys; and it answers with that status for a calorie target of 0, whatever
    meals it managed to build, because the accuracy is a division by the
    target. *)
Theorem generate_plan_error_cases (input : FoodEngine.model2_output) (c : catalog) :
  (~ In (FoodEngine.fitness_goal input) ["weight_loss"; "muscle_gain"; "maintenance"] ->
   FoodEngine.generate_plan input c = (FoodEngine.Raised, c))
  /\ (FoodEngine.target_calories input = 0%Z ->
      fst (FoodEngine.generate_plan input c) = FoodEngine.Raised).
Proof.
  split.
  - intros H. unfold FoodEngine.generate_plan, FoodEngine.generate_plan_body.
    now rewrite (calculate_macros_unknown _ _ H).
  - intros H. rewrite generate_plan_fst_snd. cbn [fst].
    unfold FoodEngine.generate_plan_body. rewrite H.
    destruct (FoodEngine.calculate_macros _ _) as [daily|]; [| reflexivity].
    unfold bind at 1.
    destruct (FoodEngine.build_plan _ _ _ c) as [[plan|] c1]; [| reflexivity].
    destruct (FoodEngine.plan_proteins plan); reflexivity.
Qed.

(** ** Where a fully scaled plan lands *)



(** ** The dialogue state machine *)

Lemma generate_plan_frame
    (model : profile -> option RoadmapGenerator.raw_prediction)
    (conv : ConversationManager.conversation) (c : catalog) :
  let r := ConversationManager._generate_plan model conv c in
  (fst (fst r) = conv
   /\ forall p rm plan w, snd (fst r) <> ConversationManager.PlanResponse p rm plan w)
  \/ (fst (fst r) = ConversationManager.set_state conv ConversationManager.STATE_SHOWING_ROADMAP
      /\ exists p rm plan w, snd (fst r) = ConversationManager.PlanResponse p rm plan w).
Proof.
  unfold ConversationManager._generate_plan.
  destruct (ConversationManager.missing_fields _); cbn zeta;
    [| left; split; [reflexivity | discriminate]].
  destruct (model _) as [raw|]; [| left; split; [reflexivity | discriminate]].
  unfold ConversationManager.adapt_model2_to_model3.
  destruct (fitness_goal _) as [g|]; [| left; split; [reflexivity | discriminate]].
  destruct (FoodRecommender.generate_plan _ _ _ _) as [[plan s | d |] c1];
    try (left; split; [reflexivity | discriminate]).
  destruct (SafetyValidator.validate_meal_plan _ _ _) as [[|] errs].
  - right. split; [reflexivity |]. eauto.
  - left. split; [reflexivity | discriminate].
Qed.

Lemma generate_plan_profile
    (model : profile -> option RoadmapGenerator.raw_prediction)
    (conv : ConversationManager.conversation) (c : catalog) :
  ConversationManager.conv_profile (fst (fst (ConversationManager._generate_plan model conv c)))
  = ConversationManager.conv_profile conv.
Proof.
  destruct (generate_plan_frame model conv c) as [[-> _] | [-> _]]; reflexivity.
Qed.

Lemma match_keyword_key (text : string) (mapping : list (string * list string)) (k : string) :
  ConversationManager._match_keyword text mapping = Some k -> In k (map fst mapping).
Proof.
  unfold ConversationManager._match_keyword.
  destruct (List.find _ mapping) as [e|] eqn:F; [| discriminate].
  intros [= <-]. apply find_some in F. apply in_map, F.
Qed.

Lemma in_range_bounds (x lo hi : Q) :
  ConversationManager.in_range x lo hi = true -> lo <= x /\ x <= hi.
Proof.
  unfold ConversationManager.in_range. intros H.
  apply andb_true_iff in H. destruct H as [H Hhi].
  apply andb_true_iff in H. destruct H as [_ Hlo].
  now apply Qle_bool_iff in Hlo, Hhi.
Qed.

Lemma py_int_upper_bound (n : Z) (x : Q) :
  0 <= x -> x <= inject_Z n -> (py_int x <= n)%Z.
Proof.
  intros H0 H. destruct (py_int_bounds x H0) as (_ & L & _).
  rewrite Zle_Qle. lra.
Qed.

Lemma handle_state_valid_profile
    (model : profile -> option RoadmapGenerator.raw_prediction)
    (conv : ConversationManager.conversation) (message : string) (c : catalog) :
  valid_profile (ConversationManager.conv_profile conv) ->
  valid_profile (ConversationManager.conv_profile
                   (fst (fst (ConversationManager._handle_state model conv message c)))).
Proof.
  intros V. pose proof V as (Vw & Vh & Va & Vg & Vact).
  unfold ConversationManager._handle_state.
  destruct (str_in _ ConversationManager.reset_words).
  { cbn. split; [| split; [| split; [| split]]]; discriminate. }
  destruct (ConversationManager.current_state conv); cbn [fst snd];
    try exact V.
  - destruct (ConversationManager._match_keyword message ConversationManager.GOALS)
      as [goal|] eqn:K; cbn [fst snd]; [| exact V].
    apply match_keyword_key in K. cbn.
    split; [| split; [| split; [| split]]]; try assumption.
    intros g [= <-]. exact K.
  - destruct (ConversationManager._extract_number message) as [w|]; [| exact V].
    destruct (ConversationManager.in_range w _ _) eqn:R; [| exact V].
    apply in_range_bounds in R. cbn.
    split; [| split; [| split; [| split]]]; try assumption.
    intros w' [= <-]. exact R.
  - destruct (ConversationManager._extract_number message) as [h|]; [| exact V].
    destruct (ConversationManager.in_range h _ _) eqn:R; [| exact V].
    apply in_range_bounds in R. cbn.
    split; [| split; [| split; [| split]]]; try assumption.
    intros h' [= <-]. exact R.
  - destruct (ConversationManager._extract_number message) as [a|]; [| exact V].
    destruct (ConversationManager.in_range a _ _) eqn:R; [| exact V].
    apply in_range_bounds in R. destruct R as [R1 R2].
    unfold ConversationManager.MIN_AGE in R1. unfold ConversationManager.MAX_AGE in R2.
    cbn. split; [| split; [| split; [| split]]]; try assumption.
    intros a' [= <-]. split.
    + apply py_int_lower_bound; [lia | exact R1].
    + apply py_int_upper_bound; [lra | exact R2].
  - destruct (ConversationManager._match_keyword message ConversationManager.ACTIVITY_LEVELS)
      as [activity|] eqn:K; [| exact V].
    rewrite generate_plan_profile. apply match_keyword_key in K. cbn.
    split; [| split; [| split; [| split]]]; try assumption.
    intros a [= <-]. exact K.
  - now rewrite generate_plan_profile.
  - destruct (any_contained _ _); [exact V |].
    destruct (contains _ _); exact V.
Qed.

Lemma generate_plan_reply
    (model : profile -> option RoadmapGenerator.raw_prediction)
    (conv : ConversationManager.conversation) (c : catalog)
    (p : profile) (rm : RoadmapGenerator.roadmap) (plan : meal_plan) (w : Z) :
  snd (fst (ConversationManager._generate_plan model conv c))
  = ConversationManager.PlanResponse p rm plan w ->
  p = ConversationManager.conv_profile conv
  /\ ConversationManager.missing_fields p = []
  /\ exists raw, model p = Some raw /\ rm = RoadmapGenerator.predict p raw.
Proof.
  unfold ConversationManager._generate_plan. cbv zeta.
  destruct (ConversationManager.missing_fields (ConversationManager.conv_profile conv))
    eqn:Miss; [| intros H; discriminate H].
  destruct (model _) as [raw|] eqn:Mo; [| intros H; discriminate H].
  unfold ConversationManager.adapt_model2_to_model3.
  destruct (fitness_goal _) as [g|]; [| intros H; discriminate H].
  destruct (FoodRecommender.generate_plan _ _ _ _) as [[plan' s | d |] c1];
    try (intros H; discriminate H).
  destruct (SafetyValidator.validate_meal_plan _ _ _) as [[|] errs];
    [| intros H; discriminate H].
  cbn [fst snd]. intros [= <- <- <- <-]. split; [reflexivity |]. split; [exact Miss |].
  exists raw. split; [exact Mo | reflexivity].
Qed.

Lemma handle_state_reply
    (model : profile -> option RoadmapGenerator.raw_prediction)
    (conv : ConversationManager.conversation) (message : string) (c : catalog)
    (p : profile) (rm : RoadmapGenerator.roadmap) (plan : meal_plan) (w : Z) :
  snd (fst (ConversationManager._handle_state model conv message c))
  = ConversationManager.PlanResponse p rm plan w ->
  p = ConversationManager.conv_profile
        (fst (fst (ConversationManager._handle_state model conv message c)))
  /\ ConversationManager.current_state
       (fst (fst (ConversationManager._handle_state model conv message c)))
     = ConversationManager.STATE_SHOWING_ROADMAP
  /\ ConversationManager.missing_fields p = []
  /\ exists raw, model p = Some raw /\ rm = RoadmapGenerator.predict p raw.
Proof.
  unfold ConversationManager._handle_state.
  destruct (str_in _ ConversationManager.reset_words); [intros H; discriminate H |].
  assert (G : forall cv,
             snd (fst (ConversationManager._generate_plan model cv c))
             = ConversationManager.PlanResponse p rm plan w ->
             p = ConversationManager.conv_profile
                   (fst (fst (ConversationManager._generate_plan model cv c)))
             /\ ConversationManager.current_state
                  (fst (fst (ConversationManager._generate_plan model cv c)))
                = ConversationManager.STATE_SHOWING_ROADMAP
             /\ ConversationManager.missing_fields p = []
             /\ exists raw, model p = Some raw /\ rm = RoadmapGenerator.predict p raw).
  { intros cv H. destruct (generate_plan_reply model cv c p rm plan w H) as (E & M & R).
    rewrite generate_plan_profile. split; [exact E |]. split; [| now split].
    destruct (generate_plan_frame model cv c) as [[_ N] | [-> _]]; [| reflexivity].
    exfalso. exact (N _ _ _ _ H). }
  destruct (ConversationManager.current_state conv); cbn [fst snd];
    try (intros H; discriminate H).
  - destruct (ConversationManager._match_keyword _ _); intros H; discriminate H.
  - destruct (ConversationManager._extract_number message) as [x|];
      [destruct (ConversationManager.in_range _ _ _) |]; intros H; discriminate H.
  - destruct (ConversationManager._extract_number message) as [x|];
      [destruct (ConversationManager.in_range _ _ _) |]; intros H; discriminate H.
  - destruct (ConversationManager._extract_number message) as [x|];
      [destruct (ConversationManager.in_range _ _ _) |]; intros H; discriminate H.
  - destruct (ConversationManager._match_keyword _ _); [apply G | intros H; discriminate H].
  - apply G.
  - destruct (any_contained _ _); [intros H; discriminate H |].
    destruct (contains _ _); intros H; discriminate H.
Qed.


Lemma get_user_conversation_spec (user_id : string) (now : Z)
    (conversations : gmap string ConversationManager.conversation) :
  let r := ConversationManager.get_user_conversation user_id now conversations in
  snd r !! user_id = Some (fst r)
  /\ (forall u, u <> user_id -> snd r !! u = conversations !! u)
  /\ match conversations !! user_id with
     | Some conv =>
         ConversationManager.conv_profile (fst r) = ConversationManager.conv_profile conv
         /\ ConversationManager.message_count (fst r) = ConversationManager.message_count conv
         /\ ConversationManager.last_interaction (fst r)
            = ConversationManager.last_interaction conv
         /\ ConversationManager.current_state (fst r)
            = (if (ConversationManager.seven_days
                   <? now - ConversationManager.last_interaction conv)%Z
               then ConversationManager.STATE_GREETING
               else ConversationManager.current_state conv)
     | None =>
         fst r = {| ConversationManager.current_state := ConversationManager.STATE_GREETING;
                    ConversationManager.conv_profile := ConversationManager.fresh_profile;
                    ConversationManager.last_interaction := now;
                    ConversationManager.message_count := 0 |}
     end.
Proof.
  cbv zeta. unfold ConversationManager.get_user_conversation.
  destruct (conversations !! user_id) as [conv|] eqn:L.
  - rewrite L. cbn [fst snd]. split; [apply lookup_insert_eq |].
    split; [intros u N; now apply lookup_insert_ne |].
    destruct (_ <? _)%Z; repeat split; reflexivity.
  - rewrite lookup_insert_eq. cbn [fst snd]. split; [apply lookup_insert_eq |].
    split.
    + intros u N. rewrite !lookup_insert_ne by congruence. reflexivity.
    + cbn [ConversationManager.last_interaction]. rewrite Z.sub_diag. reflexivity.
Qed.

Lemma process_message_unfold
    (model : profile -> option RoadmapGenerator.raw_prediction)
    (user_id message : string) (now : Z)
    (conversations : gmap string ConversationManager.conversation) (c : catalog) :
  let g := ConversationManager.get_user_conversation user_id now conversations in
  let conv1 := {| ConversationManager.current_state :=
                    ConversationManager.current_state (fst g);
                  ConversationManager.conv_profile :=
                    ConversationManager.conv_profile (fst g);
                  ConversationManager.last_interaction := now;
                  ConversationManager.message_count :=
                    ConversationManager.message_count (fst g) |} in
  let h := ConversationManager._handle_state model conv1 message c in
  ConversationManager.process_message model user_id message now conversations c
  = (snd (fst h), <[user_id := fst (fst h)]> (snd g), snd h).
Proof.
  cbv zeta. unfold ConversationManager.process_message.
  destruct (ConversationManager.get_user_conversation user_id now conversations)
    as [conv convs1]. cbn [fst snd].
  destruct (ConversationManager._handle_state model _ message c) as [[conv2 reply] c'].
  reflexivity.
Qed.

(** X11.  The dialogue keeps every stored profile within its ranges, and
    shows a plan only for a complete profile: if in each stored profile the
    weight (when set) is in [40, 200], the height in [100, 250], the age in
    [13, 100], and the goal and activity level are keys of their tables,
    the same holds after [process_message]; and when the reply is the plan,
    it was computed from the user's stored profile, which has all five
    required fields set, and the conversation is in ShowingRoadmap. *)
Theorem process_message_keeps_profiles_valid
    (model : profile -> option RoadmapGenerator.raw_prediction)
    (user_id message : string) (now : Z)
    (conversations : gmap string ConversationManager.conversation) (c : catalog) :
  valid_store conversations ->
  let r := ConversationManager.process_message model user_id message now conversations c in
  valid_store (snd (fst r))
  /\ forall p rm plan w,
       fst (fst r) = ConversationManager.PlanResponse p rm plan w ->
       valid_profile p
       /\ ConversationManager.missing_fields p = []
       /\ (exists raw, model p = Some raw /\ rm = RoadmapGenerator.predict p raw)
       /\ exists conv, snd (fst r) !! user_id = Some conv
                       /\ ConversationManager.conv_profile conv = p
                       /\ ConversationManager.current_state conv
                          = ConversationManager.STATE_SHOWING_ROADMAP.
Proof.
  intros V. cbv zeta. rewrite process_message_unfold. cbn [fst snd].
  destruct (get_user_conversation_spec user_id now conversations) as (G1 & G2 & G3).
  set (g := ConversationManager.get_user_conversation user_id now conversations) in *.
  set (conv1 := {| ConversationManager.current_state :=
                     ConversationManager.current_state (fst g);
                   ConversationManager.conv_profile :=
                     ConversationManager.conv_profile (fst g);
                   ConversationManager.last_interaction := now;
                   ConversationManager.message_count :=
                     ConversationManager.message_count (fst g) |}).
  assert (V1 : valid_profile (ConversationManager.conv_profile conv1)).
  { cbn. destruct (conversations !! user_id) as [conv|] eqn:L.
    - destruct G3 as (-> & _). exact (V _ _ L).
    - rewrite G3. cbn. split; [| split; [| split; [| split]]]; intros x H; discriminate H. }
  pose proof (handle_state_valid_profile model conv1 message c V1) as V2.
  split.
  - intros u conv. destruct (decide (u = user_id)) as [-> | N].
    + rewrite lookup_insert_eq. intros [= <-]. exact V2.
    + rewrite lookup_insert_ne by congruence. rewrite (G2 u N). apply V.
  - intros p rm plan w H.
    destruct (handle_state_reply model conv1 message c p rm plan w H) as (E & S & M & R).
    split; [rewrite E; exact V2 |]. split; [exact M |]. split; [exact R |].
    eexists. split; [apply lookup_insert_eq |]. split; [now rewrite <- E | exact S].
Qed.


(** X13.  On the store that the reset endpoint leaves for a stored user,
    [process_message] answers the user's next message as the first message
    of a new user, whatever the conversation was and however long ago: a
    reset word is answered with StartingFresh and leaves the Greeting state;
    any other ASCII message is answered with the greeting and moves to the
    goal question.  The profile is the fresh one and the catalog is not
    touched; the endpoint itself keeps the message count.  (This is the
    method called with its two arguments; the chat endpoint of app.py passes
    a third one and does not reach it.) *)
Theorem reset_endpoint_then_message
    (model : profile -> option RoadmapGenerator.raw_prediction)
    (user_id message : string) (now : Z)
    (conversations : gmap string ConversationManager.conversation) (c : catalog)
    (old : ConversationManager.conversation) :
  user_id <> EmptyString ->
  conversations !! user_id = Some old ->
  let r := ConversationManager.process_message model user_id message now
             (App.reset user_id conversations) c in
  snd r = c
  /\ (In (lower (strip message)) ["reset"; "restart"; "start over"; "new"] ->
      fst (fst r) = ConversationManager.StartingFresh
      /\ snd (fst r) !! user_id
         = Some {| ConversationManager.current_state := ConversationManager.STATE_GREETING;
                   ConversationManager.conv_profile := ConversationManager.fresh_profile;
                   ConversationManager.last_interaction := now;
                   ConversationManager.message_count := 0 |})
  /\ (is_ascii message = true ->
      ~ In (lower (strip message)) ["reset"; "restart"; "start over"; "new"] ->
      fst (fst r) = ConversationManager.Hi
      /\ snd (fst r) !! user_id
         = Some {| ConversationManager.current_state :=
                     ConversationManager.STATE_ONBOARDING_GOAL;
                   ConversationManager.conv_profile := ConversationManager.fresh_profile;
                   ConversationManager.last_interaction := now;
                   ConversationManager.message_count :=
                     ConversationManager.message_count old |}).
Proof.
  intros NE L. cbv zeta. rewrite process_message_unfold. cbn [fst snd].
  assert (R : App.reset user_id conversations
              = <[user_id :=
                    {| ConversationManager.current_state := ConversationManager.STATE_GREETING;
                       ConversationManager.conv_profile := ConversationManager.fresh_profile;
                       ConversationManager.last_interaction :=
                         ConversationManager.last_interaction old;
                       ConversationManager.message_count :=
                         ConversationManager.message_count old |}]> conversations).
  { unfold App.reset. rewrite L.
    destruct (String.eqb user_id EmptyString) eqn:E; [| reflexivity].
    apply String.eqb_eq in E. contradiction. }
  rewrite R.
  destruct (get_user_conversation_spec user_id now
              (<[user_id :=
                    {| ConversationManager.current_state := ConversationManager.STATE_GREETING;
                       ConversationManager.conv_profile := ConversationManager.fresh_profile;
                       ConversationManager.last_interaction :=
                         ConversationManager.last_interaction old;
                       ConversationManager.message_count :=
                         ConversationManager.message_count old |}]> conversations))
    as (_ & _ & G3).
  rewrite lookup_insert_eq in G3. cbn in G3. destruct G3 as (Gp & Gc & _ & Gs).
  rewrite Gp, Gc.
  assert (Gs' : ConversationManager.current_state
                  (fst (ConversationManager.get_user_conversation user_id now
                          (<[user_id :=
                               {| ConversationManager.current_state :=
                                    ConversationManager.STATE_GREETING;
                                  ConversationManager.conv_profile :=
                                    ConversationManager.fresh_profile;
                                  ConversationManager.last_interaction :=
                                    ConversationManager.last_interaction old;
                                  ConversationManager.message_count :=
                                    ConversationManager.message_count old |}]>
                             conversations)))
                = ConversationManager.STATE_GREETING).
  { rewrite Gs. now destruct (_ <? _)%Z. }
  rewrite Gs'. unfold ConversationManager._handle_state.
  destruct (str_in (lower (strip message)) ConversationManager.reset_words) eqn:S;
    cbn [fst snd ConversationManager.current_state].
  - split; [reflexivity |]. split.
    + intros _. split; [reflexivity |]. now rewrite lookup_insert_eq.
    + intros _ N. apply str_in_In in S. contradiction.
  - split; [reflexivity |]. split.
    + intros Hin. apply str_in_In in Hin. unfold ConversationManager.reset_words in S.
      congruence.
    + intros _ _. split; [reflexivity |]. now rewrite lookup_insert_eq.
Qed.

(** X14.  One message moves the dialogue at most one step along its fixed
    order: a reset word returns it to Greeting; any other ASCII message
    leaves the state where it is or advances it to the next state (from the
    activity question, to ReadyForPlan or straight to the plan).  It never
    goes back and never skips a question. *)
Theorem handle_state_advances_in_order
    (model : profile -> option RoadmapGenerator.raw_prediction)
    (conv : ConversationManager.conversation) (message : string) (c : catalog) :
  let conv' := fst (fst (ConversationManager._handle_state model conv message c)) in
  (In (lower (strip message)) ["reset"; "restart"; "start over"; "new"] ->
   ConversationManager.current_state conv' = ConversationManager.STATE_GREETING)
  /\ (is_ascii message = true ->
      ~ In (lower (strip message)) ["reset"; "restart"; "start over"; "new"] ->
      ConversationManager.current_state conv' = ConversationManager.current_state conv
      \/ In (ConversationManager.current_state conv')
            (next_states (ConversationManager.current_state conv))).
Proof.
  cbv zeta. unfold ConversationManager._handle_state.
  destruct (str_in (lower (strip message)) ConversationManager.reset_words) eqn:R.
  { split; [reflexivity |]. intros _ N. apply str_in_In in R. contradiction. }
  split.
  { intros Hin. apply str_in_In in Hin. unfold ConversationManager.reset_words in R.
    congruence. }
  intros _ _.
  destruct (ConversationManager.current_state conv) eqn:S; cbn [fst snd next_states].
  - right. now left.
  - destruct (ConversationManager._match_keyword _ _); cbn [fst];
      [right; now left | now left].
  - destruct (ConversationManager._extract_number message) as [w|]; [| now left].
    destruct (ConversationManager.in_range _ _ _); cbn [fst]; [right; now left | now left].
  - destruct (ConversationManager._extract_number message) as [w|]; [| now left].
    destruct (ConversationManager.in_range _ _ _); cbn [fst]; [right; now left | now left].
  - destruct (ConversationManager._extract_number message) as [w|]; [| now left].
    destruct (ConversationManager.in_range _ _ _); cbn [fst]; [right; now left | now left].
  - now left.
  - destruct (ConversationManager._match_keyword _ _) as [activity|]; [| now left].
    match goal with
    | |- context [ConversationManager._generate_plan model ?cv c] =>
        destruct (generate_plan_frame model cv c) as [[-> _] | [-> _]]
    end; right; cbn; auto.
  - destruct (generate_plan_frame model conv c) as [[-> _] | [-> _]].
    + left. exact S.
    + right. cbn. auto.
  - now left.
  - destruct (any_contained _ _); cbn [fst]; [right; now left |].
    destruct (contains _ _); cbn [fst]; [right; now left | now left].
Qed.

(** X15.  [_generate_plan] touches nothing but the state: the profile, the
    time stamp and the message count stay; the state becomes ShowingRoadmap
    exactly when the reply is the plan, and is unchanged otherwise.  With a
    required field unset the reply is the request for the missing fields,
    and neither the model nor the food engine runs: the conversation and the
    catalog are returned as they came. *)
Theorem generate_plan_only_moves_to_plan
    (model : profile -> option RoadmapGenerator.raw_prediction)
    (conv : ConversationManager.conversation) (c : catalog) :
  let r := ConversationManager._generate_plan model conv c in
  ((fst (fst r) = conv
    /\ forall p rm plan w, snd (fst r) <> ConversationManager.PlanResponse p rm plan w)
   \/ (fst (fst r) = ConversationManager.set_state conv ConversationManager.STATE_SHOWING_ROADMAP
       /\ exists p rm plan w, snd (fst r) = ConversationManager.PlanResponse p rm plan w))
  /\ (ConversationManager.missing_fields (ConversationManager.conv_profile conv) <> [] ->
      fst (fst r) = conv /\ snd r = c
      /\ exists missing, snd (fst r) = ConversationManager.ProfileIncomplete missing).
Proof.
  cbv zeta. split; [apply generate_plan_frame |].
  intros H. unfold ConversationManager._generate_plan. cbv zeta.
  destruct (ConversationManager.missing_fields (ConversationManager.conv_profile conv));
    [contradiction |].
  cbn. repeat split. eexists. reflexivity.
Qed.

Lemma starts_with_app (p q s : string) :
  starts_with (String.append p q) s = true -> starts_with p s = true.
Proof.
  revert s. induction p as [|a p IH]; intros s; [reflexivity |].
  change (String.append (String a p) q) with (String a (String.append p q)).
  destruct s as [|b s]; cbn [starts_with]; [discriminate |].
  intros H. apply andb_true_iff in H. destruct H as [-> H]. cbn. now apply IH.
Qed.

Lemma contains_app (p q s : string) :
  contains (String.append p q) s = true -> contains p s = true.
Proof.
  induction s as [|b s IH]; cbn [contains]; intros H;
    apply orb_true_iff in H; apply orb_true_iff.
  - destruct H as [H | H]; [left; now apply starts_with_app in H | discriminate].
  - destruct H as [H | H]; [left; now apply starts_with_app in H | right; now apply IH].
Qed.

Lemma diet_test_is_veg (text : string) :
  any_contained ["veg"; "vegetarian"; "vegan"] text = contains "veg" text.
Proof.
  unfold any_contained. cbn [existsb].
  destruct (contains "veg" text) eqn:V; [reflexivity |].
  destruct (contains "vegetarian" text) eqn:V1.
  { apply (contains_app "veg" "etarian") in V1. congruence. }
  destruct (contains "vegan" text) eqn:V2.
  { apply (contains_app "veg" "an") in V2. congruence. }
  reflexivity.
Qed.

(** X16.  For an ASCII answer other than a reset word, the diet question
    stores the vegetarian restriction whenever the answer contains veg, the
    answer non-veg included; an empty restriction list is stored only for an
    answer that contains non but not veg; any other answer is asked
    again. *)
Theorem diet_answer_with_veg_is_vegetarian
    (model : profile -> option RoadmapGenerator.raw_prediction)
    (conv : ConversationManager.conversation) (message : string) (c : catalog) :
  is_ascii message = true ->
  ConversationManager.current_state conv = ConversationManager.STATE_ONBOARDING_DIET ->
  ~ In (lower (strip message)) ["reset"; "restart"; "start over"; "new"] ->
  let text := strip (lower message) in
  let r := ConversationManager._handle_state model conv message c in
  (contains "veg" text = true ->
   snd (fst r) = ConversationManager.DietNotedVeg
   /\ dietary_restrictions (ConversationManager.conv_profile (fst (fst r))) = ["vegetarian"]
   /\ ConversationManager.current_state (fst (fst r))
      = ConversationManager.STATE_ONBOARDING_ACTIVITY)
  /\ (contains "veg" text = false -> contains "non" text = true ->
      snd (fst r) = ConversationManager.DietGotItNonVeg
      /\ dietary_restrictions (ConversationManager.conv_profile (fst (fst r))) = []
      /\ ConversationManager.current_state (fst (fst r))
         = ConversationManager.STATE_ONBOARDING_ACTIVITY)
  /\ (contains "veg" text = false -> contains "non" text = false ->
      r = (conv, ConversationManager.DietPleaseSpecify, c)).
Proof.
  intros _ S N. cbv zeta. unfold ConversationManager._handle_state.
  assert (R : str_in (lower (strip message)) ConversationManager.reset_words = false).
  { apply not_true_iff_false. intros C. apply str_in_In in C. exact (N C). }
  rewrite R, S, diet_test_is_veg.
  destruct (contains "veg" (strip (lower message))).
  - split; [intros _; repeat split | split; discriminate].
  - split; [discriminate |].
    destruct (contains "non" (strip (lower message))).
    + split; [intros _ _; repeat split | intros _; discriminate].
    + split; [intros _; discriminate | reflexivity].
Qed.

(** ** The engine's results do not depend on earlier calls *)

Section FilterSort.

Context {A : Type} (lt : A -> A -> bool).
Hypothesis lt_asym : forall x y, lt x y = true -> lt y x = false.
Hypothesis lt_negtrans :
  forall x y z, lt x y = false -> lt y z = false -> lt x z = false.

Lemma desc_sorted_tail (x : A) (l : list A) :
  desc_sorted lt (x :: l) -> desc_sorted lt l.
Proof.
  destruct l as [|y l]; [intros _; exact I | intros [_ H]; exact H].
Qed.

Lemma desc_sorted_below (x y : A) (l : list A) :
  desc_sorted lt (y :: l) -> lt x y = false -> Forall (fun z => lt x z = false) (y :: l).
Proof.
  revert y. induction l as [|z l IH]; intros y Hs Hxy.
  - constructor; [exact Hxy | constructor].
  - destruct Hs as [Hyz Hs]. constructor; [exact Hxy |].
    apply IH; [exact Hs |]. exact (lt_negtrans x y z Hxy Hyz).
Qed.

Lemma insert_desc_head (x : A) (l : list A) :
  Forall (fun z => lt x z = false) l -> insert_desc lt x l = x :: l.
Proof.
  destruct l as [|y l]; [reflexivity |].
  intros H. inversion H as [|? ? Hy _]; subst. cbn [insert_desc]. now rewrite Hy.
Qed.

Lemma Forall_filter_keep (P : A -> Prop) (p : A -> bool) (l : list A) :
  Forall P l -> Forall P (List.filter p l).
Proof.
  induction 1 as [|z l Hz _ IH]; cbn [List.filter]; [constructor |].
  destruct (p z); [constructor; assumption | assumption].
Qed.

Lemma filter_insert_desc (p : A -> bool) (x : A) (l : list A) :
  desc_sorted lt l ->
  List.filter p (insert_desc lt x l)
  = if p x then insert_desc lt x (List.filter p l) else List.filter p l.
Proof.
  induction l as [|y l IH]; intros Hs.
  - cbn. now destruct (p x).
  - cbn [insert_desc]. destruct (lt x y) eqn:Hxy.
    + cbn [List.filter]. rewrite (IH (desc_sorted_tail y l Hs)).
      destruct (p x), (p y); cbn [insert_desc]; try reflexivity.
      now rewrite Hxy.
    + change (List.filter p (x :: y :: l))
        with (if p x then x :: List.filter p (y :: l) else List.filter p (y :: l)).
      destruct (p x); [| reflexivity].
      symmetry. apply insert_desc_head, Forall_filter_keep.
      now apply desc_sorted_below.
Qed.

(** Filtering commutes with the stable sort. *)
Lemma filter_sort_desc (p : A -> bool) (l : list A) :
  List.filter p (sort_desc lt l) = sort_desc lt (List.filter p l).
Proof.
  induction l as [|x l IH]; [reflexivity |].
  change (sort_desc lt (x :: l)) with (insert_desc lt x (sort_desc lt l)).
  rewrite filter_insert_desc by (apply sort_desc_sorted, lt_asym).
  rewrite IH. cbn [List.filter]. now destruct (p x).
Qed.

Lemma sort_filter_of_sorted (p : A -> bool) (l l' : list A) :
  sort_desc lt l = sort_desc lt l' ->
  sort_desc lt (List.filter p l) = sort_desc lt (List.filter p l').
Proof.
  intros H. now rewrite <- !filter_sort_desc, H.
Qed.

End FilterSort.

Lemma Qltb_negtrans (x y z : Q) :
  Qltb x y = false -> Qltb y z = false -> Qltb x z = false.
Proof.
  rewrite !Qltb_ge. intros H1 H2. now apply Qle_trans with y.
Qed.

Lemma bool_ltb_negtrans (a b c : bool) :
  bool_ltb a b = false -> bool_ltb b c = false -> bool_ltb a c = false.
Proof.
  destruct a, b, c; cbn; congruence.
Qed.

Lemma pair_ltb_negtrans (k1 k2 k3 : bool * Q) :
  pair_ltb k1 k2 = false -> pair_ltb k2 k3 = false -> pair_ltb k1 k3 = false.
Proof.
  destruct k1 as [a x], k2 as [b y], k3 as [c z]. unfold pair_ltb. cbn [fst snd].
  destruct a, b, c; cbn; try congruence; apply Qltb_negtrans.
Qed.

Lemma filter_and_sort_restricted (k : string) (lt : food -> food -> bool)
    (rs : list string) (c : catalog) :
  FoodEngine.returns_input_list rs = false ->
  FoodEngine.filter_and_sort k lt rs c
  = (Some (sort_desc lt (List.filter (FoodEngine.keeps rs) (default [] (c !! k)))), c).
Proof.
  intros H. unfold FoodEngine.filter_and_sort, FoodEngine._filter_by_restrictions.
  rewrite H. now destruct (List.filter _ _).
Qed.

Lemma good_view_restricted (k : string) (lt : food -> food -> bool) (rs : list string) :
  (forall x y, lt x y = true -> lt y x = false) ->
  (forall x y z, lt x y = false -> lt y z = false -> lt x z = false) ->
  (forall c c', same_view c c' ->
                sort_desc lt (default [] (c !! k)) = sort_desc lt (default [] (c' !! k))) ->
  FoodEngine.returns_input_list rs = false ->
  good same_view (FoodEngine.filter_and_sort k lt rs).
Proof.
  intros Ha Hn Hread Hrs. split.
  - intros c c' H. rewrite !filter_and_sort_restricted by exact Hrs. cbn [fst].
    f_equal. apply sort_filter_of_sorted; auto.
  - intros c. rewrite filter_and_sort_restricted by exact Hrs. reflexivity.
Qed.

(** Every run of the engine body reads the catalog through its view only,
    and leaves the view as it was. *)
Lemma generate_plan_body_good_view (input : FoodEngine.model2_output) :
  good same_view (FoodEngine.generate_plan_body input).
Proof.
  destruct (FoodEngine.returns_input_list (FoodEngine.dietary_restrictions input)) eqn:Hrs.
  - destruct (generate_plan_body_good input) as [[_ G] | [E _]]; [exact G | congruence].
  - apply good_generate_plan_body with (restrictions := FoodEngine.dietary_restrictions input);
      unfold same_view; try congruence.
    + apply good_view_restricted;
        [apply protein_lt_asym | intros x y z; apply Qltb_negtrans | | exact Hrs].
      intros c c' H. unfold same_view, view in H. now injection H.
    + apply good_view_restricted;
        [apply veg_lt_asym | intros x y z; apply pair_ltb_negtrans | | exact Hrs].
      intros c c' H. unfold same_view, view in H. now injection H.
    + apply good_view_restricted;
        [apply fat_lt_asym | intros x y z; apply bool_ltb_negtrans | | exact Hrs].
      intros c c' H. unfold same_view, view in H. now injection H.
    + apply good_grains_unrestricted.
Qed.

Lemma after_calls_same_view (history : list FoodEngine.model2_output) (c : catalog) :
  same_view (after_calls history c) c.
Proof.
  revert c. induction history as [|i history IH]; intros c; [reflexivity |].
  cbn [after_calls fold_left]. unfold same_view in *.
  change (fold_left _ history ?x) with (after_calls history x).
  rewrite IH, generate_plan_fst_snd. cbn [snd].
  apply (proj2 (generate_plan_body_good_view i)).
Qed.

(** X17.  The result of [generate_plan] does not depend on the calls made
    before it: although a call without restrictions reorders the lists of the
    shared catalog, any input gets the same result (status, plan, summary or
    error) on the catalog left by any series of earlier calls as on the
    catalog as loaded. *)
Theorem generate_plan_independent_of_history
    (history : list FoodEngine.model2_output)
    (input : FoodEngine.model2_output) (c : catalog) :
  fst (FoodEngine.generate_plan input (after_calls history c))
  = fst (FoodEngine.generate_plan input c).
Proof.
  rewrite !generate_plan_fst_snd. cbn [fst].
  now rewrite (proj1 (generate_plan_body_good_view input) _ c
                     (after_calls_same_view history c)).
Qed.

(** ** Keywords and calorie floors *)

Lemma starts_with_contains (q s : string) :
  starts_with q s = true -> contains q s = true.
Proof.
  intros H. destruct s; cbn [contains]; now rewrite H.
Qed.

Lemma starts_with_app_r (p q s : string) :
  starts_with (String.append p q) s = true -> contains q s = true.
Proof.
  revert s. induction p as [|a p IH]; intros s.
  - apply starts_with_contains.
  - change (String.append (String a p) q) with (String a (String.append p q)).
    destruct s as [|b s]; cbn [starts_with]; [intros H; discriminate H |].
    intros H. apply andb_true_iff in H. destruct H as [_ H].
    cbn [contains]. rewrite (IH s H). apply orb_true_r.
Qed.

Lemma contains_app_r (p q s : string) :
  contains (String.append p q) s = true -> contains q s = true.
Proof.
  induction s as [|b s IH]; cbn [contains]; intros H; apply orb_true_iff in H.
  - destruct H as [H | H]; [| discriminate H].
    now apply starts_with_app_r in H.
  - destruct H as [H | H]; [now apply starts_with_app_r in H |].
    fold (contains q (String b s)). cbn [contains]. rewrite (IH H). apply orb_true_r.
Qed.

(** X18.  The activity table is scanned in order and the word active is a
    synonym of moderate: an answer that contains active (so also very active
    and inactive) is never read as active or very_active, but as sedentary,
    light or moderate; and very_active is only reached through athlete,
    intense or training. *)
Theorem activity_answer_with_active_is_at_most_moderate (text : string) :
  (contains "active" (lower text) = true ->
   In (ConversationManager._match_keyword text ConversationManager.ACTIVITY_LEVELS)
      [Some "sedentary"; Some "light"; Some "moderate"])
  /\ (ConversationManager._match_keyword text ConversationManager.ACTIVITY_LEVELS
      = Some "very_active" ->
      contains "active" (lower text) = false
      /\ any_contained ["athlete"; "intense"; "training"] (lower text) = true).
Proof.
  unfold ConversationManager._match_keyword, ConversationManager.ACTIVITY_LEVELS.
  cbn [List.find snd fst].
  destruct (any_contained ["sedentary"; "sitting"; "desk"; "inactive"; "lazy"] (lower text)).
  { cbn. split; [auto | intros H; discriminate H]. }
  destruct (any_contained ["light"; "walking"; "casual"] (lower text)).
  { cbn. split; [auto | intros H; discriminate H]. }
  destruct (contains "active" (lower text)) eqn:Act.
  { assert (E : any_contained ["moderate"; "regular"; "normal"; "active"] (lower text) = true).
    { unfold any_contained. cbn [existsb]. rewrite Act. now rewrite !orb_true_r. }
    rewrite E. cbn. split; [auto | intros H; discriminate H]. }
  split; [intros H; discriminate H |].
  destruct (any_contained ["moderate"; "regular"; "normal"; "active"] (lower text));
    [cbn; intros H; discriminate H |].
  destruct (any_contained ["active"; "very active"; "exercise"; "gym"; "workout"] (lower text));
    [cbn; intros H; discriminate H |].
  destruct (any_contained ["very active"; "athlete"; "intense"; "training"] (lower text))
    eqn:V; [| cbn; intros H; discriminate H].
  intros _. split; [reflexivity |].
  unfold any_contained in *. cbn [existsb] in *.
  destruct (contains "very active" (lower text)) eqn:VA; [| exact V].
  apply (contains_app_r "very " "active") in VA. congruence.
Qed.

Lemma sanitize_ge (x : RoadmapGenerator.raw_number) : 1000 <= RoadmapGenerator.sanitize x.
Proof.
  destruct x as [q|]; cbn [RoadmapGenerator.sanitize]; [| lra].
  destruct (Qle_bool q 0); [lra |].
  destruct (Qltb q 1000) eqn:L; [lra | now apply Qltb_ge].
Qed.

Lemma apply_floor_ge (p : profile) (t : Q) : t <= RoadmapGenerator.apply_floor p t.
Proof.
  unfold RoadmapGenerator.apply_floor.
  destruct (RoadmapGenerator.is_muscle_gain _).
  - cbv zeta. destruct (Qltb t _) eqn:L; [| apply Qle_refl].
    apply Qltb_lt in L. now apply Qlt_le_weak.
  - destruct (RoadmapGenerator.is_weight_loss _); [| apply Qle_refl].
    cbv zeta. destruct (Qltb t _) eqn:L; [| apply Qle_refl].
    apply Qltb_lt in L. now apply Qlt_le_weak.
Qed.

Lemma apply_floor_key (p : profile) (g : string) (t : Q) :
  fitness_goal p = Some g -> In g ["weight_loss"; "muscle_gain"; "maintenance"] ->
  1000 <= t -> inject_Z (calorie_floor g (gender p)) <= RoadmapGenerator.apply_floor p t.
Proof.
  intros Hg Hin Ht.
  unfold RoadmapGenerator.apply_floor, RoadmapGenerator.goal_lower. rewrite Hg.
  destruct Hin as [<- | [<- | [<- | []]]]; unfold calorie_floor; cbn;
    try (destruct (String.eqb (gender p) "male");
         match goal with
         | |- context [Qltb t ?m] =>
             destruct (Qltb t m) eqn:L; [apply Qle_refl | now apply Qltb_ge]
         end).
  exact Ht.
Qed.

Lemma py_int_mono (x y : Q) : 0 <= x -> x <= y -> (py_int x <= py_int y)%Z.
Proof.
  intros H0 H. destruct (py_int_bounds x H0) as (P & L & _).
  apply py_int_lower_bound; [exact P | lra].
Qed.

(** X19.  Whatever the model predicts (a number of any size, or no number),
    the calorie target of [predict] is at least 1000 kcal, and for a profile
    whose goal is one of the three keys at least the floor of that goal and
    gender (2700/2400 for muscle_gain, 1500/1200 for weight_loss, male/other);
    and the floors only raise: a prediction of at least 1000 kcal is never
    lowered. *)
Theorem predict_target_at_least_floor
    (p : profile) (raw : RoadmapGenerator.raw_prediction) :
  (1000 <= RoadmapGenerator.target_calories (RoadmapGenerator.predict p raw))%Z
  /\ (forall g, fitness_goal p = Some g ->
                In g ["weight_loss"; "muscle_gain"; "maintenance"] ->
                (calorie_floor g (gender p)
                 <= RoadmapGenerator.target_calories (RoadmapGenerator.predict p raw))%Z)
  /\ (forall q, RoadmapGenerator.raw_calories raw = RoadmapGenerator.Finite q ->
                1000 <= q ->
                (py_int q
                 <= RoadmapGenerator.target_calories (RoadmapGenerator.predict p raw))%Z).
Proof.
  cbn [RoadmapGenerator.predict RoadmapGenerator.target_calories].
  pose proof (sanitize_ge (RoadmapGenerator.raw_calories raw)) as S.
  pose proof (apply_floor_ge p (RoadmapGenerator.sanitize (RoadmapGenerator.raw_calories raw)))
    as F.
  split; [| split].
  - apply py_int_lower_bound; [lia |]. change (inject_Z 1000) with 1000. lra.
  - intros g Hg Hin. apply py_int_lower_bound.
    + unfold calorie_floor.
      destruct (String.eqb g "muscle_gain"), (String.eqb g "weight_loss"),
        (String.eqb (gender p) "male"); lia.
    + apply apply_floor_key; assumption.
  - intros q Hq Hge. rewrite Hq in *. apply py_int_mono; [lra |].
    assert (E : RoadmapGenerator.sanitize (RoadmapGenerator.Finite q) = q).
    { cbn [RoadmapGenerator.sanitize].
      destruct (Qle_bool q 0) eqn:L0; [apply Qle_bool_iff in L0; lra |].
      destruct (Qltb q 1000) eqn:L1; [apply Qltb_lt in L1; lra | reflexivity]. }
    rewrite E in F |- *. exact F.
Qed.

(** ** The stored user states *)

(** X20.  [get_user_state] creates a user once: the state it returns is the
    stored one, a second call returns the same state and leaves the storage
    as it is whatever its intent and time (the goal of an intent is read for
    a new user only), and the other users are not touched.  A new user
    starts in week 1 with the goal of the intent, maintenance when the
    intent names none. *)
Theorem get_user_state_creates_once
    (user_id : string) (intent intent' : option string) (now now' : string)
    (storage : gmap string (gmap string StateManager.jvalue)) :
  let r := StateManager.get_user_state user_id intent now storage in
  StateManager.get_user_state user_id intent' now' (snd r) = r
  /\ snd r !! user_id = Some (fst r)
  /\ (forall v, v <> user_id -> snd r !! v = storage !! v)
  /\ (storage !! user_id = None ->
      fst r !! "week" = Some (StateManager.JInt 1)
      /\ fst r !! "user_id" = Some (StateManager.JStr user_id)
      /\ fst r !! "created_at" = Some (StateManager.JStr now)
      /\ fst r !! "fitness_goal"
         = Some (StateManager.JStr
                   (default "maintenance" (StateManager.goal_from_intent intent)))).
Proof.
  cbv zeta. unfold StateManager.get_user_state.
  destruct (storage !! user_id) as [st|] eqn:L; cbn [fst snd].
  - rewrite L. split; [reflexivity |]. split; [reflexivity |].
    split; [reflexivity | intros H; discriminate H].
  - rewrite lookup_insert_eq. split; [reflexivity |]. split; [reflexivity |].
    split; [intros v N; now apply lookup_insert_ne |].
    intros _. destruct (StateManager.goal_from_intent intent) as [g|]; cbn [default].
    + rewrite lookup_insert_eq.
      rewrite !lookup_insert_ne by discriminate.
      repeat split; try reflexivity.
    + repeat split; reflexivity.
Qed.

Lemma entry_or_default_stored (user_id now : string)
    (st : gmap string StateManager.jvalue)
    (storage : gmap string (gmap string StateManager.jvalue)) :
  StateManager.entry_or_default user_id now (<[user_id := st]> storage) = st.
Proof.
  unfold StateManager.entry_or_default. now rewrite lookup_insert_eq.
Qed.

Lemma update_user_progress_step (user_id : string)
    (roadmap : gmap string StateManager.jvalue) (now : string)
    (storage : gmap string (gmap string StateManager.jvalue)) (w : Z) :
  default (StateManager.JInt 1)
          (StateManager.entry_or_default user_id now storage !! "week")
  = StateManager.JInt w ->
  exists st,
    StateManager.update_user_progress user_id roadmap now storage
    = Some (st, <[user_id := st]> storage)
    /\ st !! "week" = Some (StateManager.JInt (w + 1))
    /\ st !! "last_updated" = Some (StateManager.JStr now)
    /\ st !! "weight_kg"
       = match roadmap !! "target_weight_kg" with
         | Some x => Some x
         | None => StateManager.entry_or_default user_id now storage !! "weight_kg"
         end
    /\ forall k, k <> "week" -> k <> "weight_kg" -> k <> "last_updated" ->
                 st !! k = StateManager.entry_or_default user_id now storage !! k.
Proof.
  intros H. unfold StateManager.update_user_progress. rewrite H.
  cbn [StateManager.plus_one]. eexists. split; [reflexivity |].
  destruct (roadmap !! "target_weight_kg") as [x|].
  - split; [now rewrite !lookup_insert_ne by discriminate; rewrite lookup_insert_eq |].
    split; [now rewrite lookup_insert_eq |].
    split; [now rewrite lookup_insert_ne by discriminate; rewrite lookup_insert_eq |].
    intros k K1 K2 K3. now rewrite !lookup_insert_ne by congruence.
  - split; [now rewrite !lookup_insert_ne by discriminate; rewrite lookup_insert_eq |].
    split; [now rewrite lookup_insert_eq |].
    split; [now rewrite !lookup_insert_ne by discriminate |].
    intros k K1 K2 K3. now rewrite !lookup_insert_ne by congruence.
Qed.

Lemma progress_times_weeks (n : nat) (user_id : string)
    (roadmap : gmap string StateManager.jvalue) (now : string) :
  forall (storage : gmap string (gmap string StateManager.jvalue)) (w : Z),
    default (StateManager.JInt 1)
            (StateManager.entry_or_default user_id now storage !! "week")
    = StateManager.JInt w ->
    exists storage' st,
      progress_times (S n) user_id roadmap now storage = Some storage'
      /\ (forall v, v <> user_id -> storage' !! v = storage !! v)
      /\ storage' !! user_id = Some st
      /\ st !! "week" = Some (StateManager.JInt (w + Z.of_nat (S n)))
      /\ (forall x, roadmap !! "target_weight_kg" = Some x -> st !! "weight_kg" = Some x).
Proof.
  induction n as [|n IH]; intros storage w H.
  - destruct (update_user_progress_step user_id roadmap now storage w H)
      as (st & E & Wk & _ & Wt & _).
    exists (<[user_id := st]> storage), st. cbn [progress_times]. rewrite E.
    split; [reflexivity |]. split; [intros v N; now apply lookup_insert_ne |].
    split; [apply lookup_insert_eq |]. split; [exact Wk |].
    intros x Hx. now rewrite Wt, Hx.
  - destruct (update_user_progress_step user_id roadmap now storage w H)
      as (st & E & Wk & _ & _ & _).
    destruct (IH (<[user_id := st]> storage) (w + 1)%Z) as (s' & st' & P & F & L & Wk' & Wt').
    { rewrite entry_or_default_stored, Wk. reflexivity. }
    exists s', st'. change (progress_times (S (S n)) user_id roadmap now storage)
      with (match StateManager.update_user_progress user_id roadmap now storage with
            | None => None
            | Some (_, storage') => progress_times (S n) user_id roadmap now storage'
            end).
    rewrite E. split; [exact P |].
    split; [intros v N; rewrite (F v N); now apply lookup_insert_ne |].
    split; [exact L |]. split; [| exact Wt'].
    rewrite Wk'. do 2 f_equal. lia.
Qed.

(** X21.  [update_user_progress] counts the weeks: for a user whose stored
    week is the integer [w] (1 for a user not stored yet), [n + 1] calls in a
    row all succeed and leave week [w + n + 1], with the weight set to the
    roadmap's target weight when it has one; the other users are not
    touched; and [reset_user_week] then puts the week back to 1 and keeps
    the weight.  A stored week that is a string makes the call raise. *)
Theorem update_user_progress_counts_weeks (n : nat) (user_id : string)
    (roadmap : gmap string StateManager.jvalue) (now : string)
    (storage : gmap string (gmap string StateManager.jvalue)) (w : Z) :
  (default (StateManager.JInt 1)
           (StateManager.entry_or_default user_id now storage !! "week")
   = StateManager.JInt w ->
   exists storage' st,
     progress_times (S n) user_id roadmap now storage = Some storage'
     /\ (forall v, v <> user_id -> storage' !! v = storage !! v)
     /\ storage' !! user_id = Some st
     /\ st !! "week" = Some (StateManager.JInt (w + Z.of_nat (S n)))
     /\ (forall x, roadmap !! "target_weight_kg" = Some x -> st !! "weight_kg" = Some x)
     /\ fst (StateManager.reset_user_week user_id now storage') !! "week"
        = Some (StateManager.JInt 1)
     /\ fst (StateManager.reset_user_week user_id now storage') !! "weight_kg"
        = st !! "weight_kg")
  /\ (forall x, StateManager.entry_or_default user_id now storage !! "week"
                = Some (StateManager.JStr x) ->
                StateManager.update_user_progress user_id roadmap now storage = None).
Proof.
  split.
  - intros H.
    destruct (progress_times_weeks n user_id roadmap now storage w H)
      as (s' & st & P & F & L & Wk & Wt).
    exists s', st. do 5 (split; [assumption |]).
    unfold StateManager.reset_user_week, StateManager.update_user_profile,
      StateManager.entry_or_default. rewrite L. cbn [fst]. split.
    + rewrite lookup_insert_ne by discriminate.
      apply lookup_union_Some_l. apply lookup_singleton_eq.
    + rewrite lookup_insert_ne by discriminate.
      rewrite lookup_union_r; [reflexivity |].
      now apply lookup_singleton_ne.
  - intros x H. unfold StateManager.update_user_progress. now rewrite H.
Qed.

(** X22.  [delete_user] answers whether the user was stored and leaves no
    trace of it: the user is gone, the other users are not touched, a
    second deletion answers false and changes nothing, and the next
    [get_user_state] starts the user again in week 1 with the default
    profile, whatever had been stored. *)
Theorem delete_user_forgets
    (user_id : string) (intent : option string) (now : string)
    (storage : gmap string (gmap string StateManager.jvalue)) :
  let r := StateManager.delete_user user_id storage in
  fst r = bool_decide (is_Some (storage !! user_id))
  /\ snd r !! user_id = None
  /\ (forall v, v <> user_id -> snd r !! v = storage !! v)
  /\ StateManager.delete_user user_id (snd r) = (false, snd r)
  /\ fst (StateManager.get_user_state user_id intent now (snd r))
     = fst (StateManager.get_user_state user_id intent now ∅).
Proof.
  cbv zeta. unfold StateManager.delete_user.
  destruct (storage !! user_id) as [st|] eqn:L; cbn [fst snd].
  - split; [reflexivity |]. split; [apply lookup_delete_eq |].
    split; [intros v N; now apply lookup_delete_ne |].
    rewrite lookup_delete_eq. split; [reflexivity |].
    unfold StateManager.get_user_state. now rewrite lookup_delete_eq, lookup_empty.
  - split; [reflexivity |]. split; [exact L |]. split; [reflexivity |].
    rewrite L. split; [reflexivity |].
    unfold StateManager.get_user_state. now rewrite L, lookup_empty.
Qed.

(** ** Meal totals *)

Lemma acc_ok_step_scale (n : nat) (mc : Z) (a : FoodEngine.acc) :
  acc_ok n a -> acc_ok n (FoodEngine.step_scale mc a).
Proof.
  intros [H1 H2]. unfold FoodEngine.step_scale.
  destruct (FoodEngine.scale_applies mc (snd a)); [| now split].
  split; cbn [fst snd].
  - now rewrite length_map.
  - apply recalculate_calories.
Qed.

(** X23.  A meal that [build_meal] returns has at most four foods (one per
    selection step), and its total calories are the sum of the calories of
    its foods, rounded to one decimal: the total on the plan and the items
    under it never differ by more than 0.05 kcal, scaled or not. *)
Theorem build_meal_total_matches_items (meal_calories : Z) (mp mc mf : Q)
    (rs : list string) (c c' : catalog) (m : meal) :
  FoodEngine.build_meal meal_calories mp mc mf rs c = (Some m, c') ->
  exists fs, m_foods m = Some fs
             /\ (List.length fs <= 4)%nat
             /\ Qabs (m_total_calories m - sum_calories fs) <= 1 # 20.
Proof.
  unfold FoodEngine.build_meal. intros H.
  apply bind_Some_inv in H. destruct H as (a & c1 & Hsel & H).
  apply ret_inv in H. destruct H as [<- _].
  apply select_foods_acc_ok in Hsel.
  destruct (acc_ok_step_scale 4 meal_calories a Hsel) as [L S].
  exists (fst (FoodEngine.step_scale meal_calories a)).
  split; [reflexivity |]. split; [exact L |].
  cbn [FoodEngine.finish_meal m_total_calories]. rewrite <- S. apply round1_close.
Qed.

(** ** The further properties on concrete inputs *)

Lemma plan_items_meet_restrictions_witness :
  exists plan summary c',
    FoodEngine.generate_plan (engine_input 2400 "muscle_gain" ["vegetarian"]) sample_catalog
    = (FoodEngine.Success plan summary, c')
    /\ forall mn m fs pf,
         In (mn, m) plan -> m_foods m = Some fs -> In pf fs ->
         exists k f, In f (default [] (sample_catalog !! k))
                     /\ pf_id pf = f_id f /\ pf_name pf = f_name f
                     /\ satisfies ["vegetarian"] f.
Proof.
  let v := eval vm_compute in
    (FoodEngine.generate_plan (engine_input 2400 "muscle_gain" ["vegetarian"])
                              sample_catalog) in
  match v with
  | (FoodEngine.Success ?plan ?summary, ?c') =>
      exists plan, summary, c';
      assert (E : FoodEngine.generate_plan (engine_input 2400 "muscle_gain" ["vegetarian"])
                    sample_catalog
                  = (FoodEngine.Success plan summary, c'))
        by (vm_compute; reflexivity);
      split; [exact E |];
      exact (plan_items_meet_restrictions _ _ _ _ _ E)
  end.
Defined.

Lemma build_meal_portion_bounds_witness :
  exists m c',
    FoodEngine.build_meal 600 45 60 20 [] sample_catalog = (Some m, c')
    /\ exists fs, m_foods m = Some fs
                  /\ forall pf, In pf fs ->
                                exists g : Z, pf_portion_g pf = Some (inject_Z g)
                                              /\ (4 <= g <= 650)%Z.
Proof.
  let v := eval vm_compute in (FoodEngine.build_meal 600 45 60 20 [] sample_catalog) in
  match v with
  | (Some ?m, ?c') =>
      exists m, c';
      assert (E : FoodEngine.build_meal 600 45 60 20 [] sample_catalog = (Some m, c'))
        by (vm_compute; reflexivity);
      split; [exact E |];
      exact (build_meal_portion_bounds _ _ _ _ _ _ _ _ E)
  end.
Defined.

Lemma engine_plan_external_violations_witness :
  exists plan summary c',
    FoodEngine.generate_plan (engine_input 2400 "muscle_gain" []) sample_catalog
    = (FoodEngine.Success plan summary, c')
    /\ SafetyValidator.gate1 ["peanuts"] plan = None
    /\ forall v,
         In v (snd (SafetyValidator.validate_meal_plan plan 2400 ["peanuts"])) ->
         (exists n q, v = SafetyValidator.CondimentUnusual n q)
         \/ (exists n q, v = SafetyValidator.PortionTooSmall n q /\ q < 15).
Proof.
  let v := eval vm_compute in
    (FoodEngine.generate_plan (engine_input 2400 "muscle_gain" []) sample_catalog) in
  match v with
  | (FoodEngine.Success ?plan ?summary, ?c') =>
      exists plan, summary, c';
      assert (E : FoodEngine.generate_plan (engine_input 2400 "muscle_gain" []) sample_catalog
                  = (FoodEngine.Success plan summary, c'))
        by (vm_compute; reflexivity);
      split; [exact E |];
      exact (engine_plan_external_violations _ _ _ _ _ E 2400%Z ["peanuts"])
  end.
Defined.


Lemma process_message_keeps_profiles_valid_witness :
  valid_store {[ "user_1" := ready_conversation ]}
  /\ valid_store
       (snd (fst (ConversationManager.process_message constant_model "user_1" "go" 0
                    {[ "user_1" := ready_conversation ]} sample_catalog)))
  /\ exists p rm plan w,
       fst (fst (ConversationManager.process_message constant_model "user_1" "go" 0
                   {[ "user_1" := ready_conversation ]} sample_catalog))
       = ConversationManager.PlanResponse p rm plan w
       /\ valid_profile p /\ ConversationManager.missing_fields p = [].
Proof.
  assert (V : valid_store {[ "user_1" := ready_conversation ]}).
  { intros u conv H. apply lookup_singleton_Some in H. destruct H as [_ <-].
    cbn. split; [| split; [| split; [| split]]]; intros x [= <-];
      first [split; [discriminate | discriminate] | lia | cbn; tauto]. }
  split; [exact V |].
  destruct (process_message_keeps_profiles_valid constant_model "user_1" "go" 0
              {[ "user_1" := ready_conversation ]} sample_catalog V) as [V' P].
  split; [exact V' |].
  let v := eval vm_compute in
    (fst (fst (ConversationManager.process_message constant_model "user_1" "go" 0
                 {[ "user_1" := ready_conversation ]} sample_catalog))) in
  match v with
  | ConversationManager.PlanResponse ?p ?rm ?plan ?w =>
      assert (E : fst (fst (ConversationManager.process_message constant_model "user_1"
                              "go" 0 {[ "user_1" := ready_conversation ]} sample_catalog))
                  = ConversationManager.PlanResponse p rm plan w)
        by (vm_compute; reflexivity);
      exists p, rm, plan, w; split; [exact E |];
      destruct (P p rm plan w E) as (A & B & _); split; [exact A | exact B]
  end.
Defined.

Lemma diet_answer_with_veg_is_vegetarian_witness :
  let conv := ConversationManager.set_state weight_conversation
                ConversationManager.STATE_ONBOARDING_DIET in
  let r := ConversationManager._handle_state constant_model conv "Non-Veg" sample_catalog in
  snd (fst r) = ConversationManager.DietNotedVeg
  /\ dietary_restrictions (ConversationManager.conv_profile (fst (fst r))) = ["vegetarian"].
Proof.
  cbv zeta.
  destruct (diet_answer_with_veg_is_vegetarian constant_model
              (ConversationManager.set_state weight_conversation
                 ConversationManager.STATE_ONBOARDING_DIET)
              "Non-Veg" sample_catalog) as (H & _).
  - reflexivity.
  - reflexivity.
  - vm_compute. intuition discriminate.
  - destruct H as (A & B & _); [vm_compute; reflexivity |]. split; [exact A | exact B].
Defined.

Lemma reset_endpoint_then_message_witness :
  fst (fst (ConversationManager.process_message constant_model "user_1" "hello" 5
              (App.reset "user_1" {[ "user_1" := ready_conversation ]}) sample_catalog))
  = ConversationManager.Hi.
Proof.
  destruct (reset_endpoint_then_message constant_model "user_1" "hello" 5
              {[ "user_1" := ready_conversation ]} sample_catalog ready_conversation)
    as (_ & _ & H).
  - discriminate.
  - apply lookup_singleton_eq.
  - apply H; [reflexivity |]. vm_compute. intuition discriminate.
Defined.

Lemma build_meal_total_matches_items_witness :
  exists m c',
    FoodEngine.build_meal 600 45 60 20 ["vegetarian"] sample_catalog = (Some m, c')
    /\ exists fs, m_foods m = Some fs
                  /\ (List.length fs <= 4)%nat
                  /\ Qabs (m_total_calories m - sum_calories fs) <= 1 # 20.
Proof.
  let v := eval vm_compute in
    (FoodEngine.build_meal 600 45 60 20 ["vegetarian"] sample_catalog) in
  match v with
  | (Some ?m, ?c') =>
      exists m, c';
      assert (E : FoodEngine.build_meal 600 45 60 20 ["vegetarian"] sample_catalog
                  = (Some m, c'))
        by (vm_compute; reflexivity);
      split; [exact E |];
      exact (build_meal_total_matches_items _ _ _ _ _ _ _ _ E)
  end.
Defined.

Lemma calculate_macros_energy_witness :
  exists d,
    FoodEngine.calculate_macros 2000 "muscle_gain" = Some d
    /\ Qabs (4 * FoodEngine.protein_g d + 4 * FoodEngine.carbs_g d
             + 9 * FoodEngine.fat_g d - inject_Z 2000) <= 9 # 10.
Proof.
  destruct (calculate_macros_energy 2000 "muscle_gain") as [_ H]; [cbn; lia |].
  let v := eval vm_compute in (FoodEngine.calculate_macros 2000 "muscle_gain") in
  match v with
  | Some ?d =>
      exists d;
      assert (E : FoodEngine.calculate_macros 2000 "muscle_gain" = Some d)
        by (vm_compute; reflexivity);
      split; [exact E | exact (H d E)]
  end.
Defined.
